(** * MGFriems backend: cash ledger and transfer approval

    Shallow embedding of the cash-affecting request handlers of
    [backend/server.py]: [create_sale], [record_credit_payment],
    [create_transfer_request] and [approve_transfer], together with
    the [get_current_user] dependency that resolves the acting user;
    and, after them, of the account, listing and inventory handlers.

    Modelling conventions.
    - A MongoDB collection is a list of documents in insertion order.
      [find_one] returns the first matching document, [update_one]
      rewrites the first matching document, [insert_one] appends.
      The handlers key documents by their own [id] field (a uuid4
      string), never by Mongo's [_id]; nothing in the model assumes
      these ids to be unique.
    - Python [float] amounts are modelled twice.  The main development
      takes them as exact integers ([Z], think of minor currency
      units), which leaves rounding, NaN and infinities out and is used
      for what does not depend on them.  The module [Float64] embeds
      the handlers that add amounts up once more, on IEEE 754 binary64
      numbers and with timestamps as the database keeps them; what is
      stated of sums and of stored times is stated there.
    - [uuid.uuid4()] and [datetime.utcnow()] are inputs of the handlers.
    - A handler is a computation over the database that either returns
      a value or raises an [HTTPException]; the database reached when
      the exception is raised is kept, since the source runs no
      transaction and never rolls back. *)

From Stdlib Require Import ZArith List String Ascii Bool Lia DecimalString.
From Stdlib Require Import DecimalNat FinFun Permutation PrimFloat.
From Stdlib Require FloatOps QArith.
Import ListNotations.
Open Scope string_scope.
Open Scope Z_scope.

Module Server.

(** ** Documents *)

Definition datetime := Z.

(** A document of [db.users].  [cash_balance] is read everywhere with
    [.get("cash_balance", 0.0)], so the field may be absent. *)
Record User := mkUser {
  u_id : string;
  u_name : string;
  u_email : string;
  u_password : string;
  u_role : string;
  u_cash_balance : option Z;
  u_created_at : datetime
}.

Record SaleItem := mkSaleItem {
  product_name : string;
  quantity : Z;
  unit_price : Z;
  total : Z
}.

Record SaleCreate := mkSaleCreate {
  sc_customer_name : string;
  sc_items : list SaleItem;
  sc_total_amount : Z;
  sc_payment_type : string;
  sc_collected_by : string;
  sc_notes : option string
}.

(** A document of [db.sales] ([sale_dict], also the [SaleResponse]). *)
Record Sale := mkSale {
  s_id : string;
  s_sale_number : string;
  s_customer_name : string;
  s_items : list SaleItem;
  s_total_amount : Z;
  s_payment_type : string;
  s_collected_by : string;
  s_collected_by_name : string;
  s_status : string;
  s_paid_amount : Z;
  s_notes : option string;
  s_created_at : datetime
}.

Record TransferRequest := mkTransferRequest {
  tr_to_user_id : string;
  tr_amount : Z;
  tr_reason : string
}.

(** A document of [db.transfers] ([transfer_dict], [TransferResponse]). *)
Record Transfer := mkTransfer {
  t_id : string;
  t_from_user_id : string;
  t_from_user_name : string;
  t_to_user_id : string;
  t_to_user_name : string;
  t_amount : Z;
  t_reason : string;
  t_status : string;
  t_created_at : datetime;
  t_approved_at : option datetime
}.

Record TransferApproval := mkTransferApproval {
  action : string
}.

Record CreditPayment := mkCreditPayment {
  cp_sale_id : string;
  cp_amount : Z;
  cp_collected_by : string;
  cp_notes : option string
}.

(** A document of [db.credit_payments] ([payment_dict]). *)
Record CreditPaymentDoc := mkCreditPaymentDoc {
  p_id : string;
  p_sale_id : string;
  p_amount : Z;
  p_collected_by : string;
  p_collected_by_name : string;
  p_notes : option string;
  p_created_at : datetime
}.

(** The collections the cash handlers touch. *)
Record DB := mkDB {
  users : list User;
  sales : list Sale;
  credit_payments : list CreditPaymentDoc;
  transfers : list Transfer
}.

Definition set_users (us : list User) (db : DB) : DB :=
  mkDB us (sales db) (credit_payments db) (transfers db).
Definition set_sales (ss : list Sale) (db : DB) : DB :=
  mkDB (users db) ss (credit_payments db) (transfers db).
Definition set_credit_payments (ps : list CreditPaymentDoc) (db : DB) : DB :=
  mkDB (users db) (sales db) ps (transfers db).
Definition set_transfers (ts : list Transfer) (db : DB) : DB :=
  mkDB (users db) (sales db) (credit_payments db) ts.

(** ** Collection primitives *)

Section Collection.
Context {A : Type}.

Fixpoint find_one (p : A -> bool) (c : list A) : option A :=
  match c with
  | [] => None
  | d :: c' => if p d then Some d else find_one p c'
  end.

Fixpoint update_one (p : A -> bool) (f : A -> A) (c : list A) : list A :=
  match c with
  | [] => []
  | d :: c' => if p d then f d :: c' else d :: update_one p f c'
  end.

Definition insert_one (d : A) (c : list A) : list A := (c ++ [d])%list.

Definition count_documents (c : list A) : nat := List.length c.
End Collection.

(** Query filters [{"id": x}]. *)
Definition user_id_is (x : string) (u : User) : bool := String.eqb (u_id u) x.
Definition sale_id_is (x : string) (s : Sale) : bool := String.eqb (s_id s) x.
Definition transfer_id_is (x : string) (t : Transfer) : bool :=
  String.eqb (t_id t) x.

(** [user.get("cash_balance", 0.0)]. *)
Definition get_cash_balance (u : User) : Z :=
  match u_cash_balance u with Some b => b | None => 0 end.

(** [{"$inc": {"cash_balance": delta}}]; an absent field counts as 0. *)
Definition inc_cash_balance (delta : Z) (u : User) : User :=
  mkUser (u_id u) (u_name u) (u_email u) (u_password u) (u_role u)
         (Some (get_cash_balance u + delta)) (u_created_at u).

(** [{"$set": {"paid_amount": paid, "status": st}}]. *)
Definition set_payment_state (paid : Z) (st : string) (s : Sale) : Sale :=
  mkSale (s_id s) (s_sale_number s) (s_customer_name s) (s_items s)
         (s_total_amount s) (s_payment_type s) (s_collected_by s)
         (s_collected_by_name s) st paid (s_notes s) (s_created_at s).

(** [{"$set": {"status": st, "approved_at": now}}]. *)
Definition set_decision (st : string) (now : datetime) (t : Transfer)
  : Transfer :=
  mkTransfer (t_id t) (t_from_user_id t) (t_from_user_name t)
             (t_to_user_id t) (t_to_user_name t) (t_amount t) (t_reason t)
             st (t_created_at t) (Some now).

(** ** Handler computations *)

Record HTTPException := mkHTTPException {
  status_code : Z;
  detail : string
}.

Inductive Result (A : Type) : Type :=
| Ok (a : A)
| Raise (e : HTTPException).
Arguments Ok {A} a.
Arguments Raise {A} e.

Definition M (A : Type) : Type := DB -> Result A * DB.

Definition ret {A} (a : A) : M A := fun db => (Ok a, db).
Definition raise {A} (e : HTTPException) : M A := fun db => (Raise e, db).
Definition bind {A B} (m : M A) (k : A -> M B) : M B :=
  fun db =>
    match m db with
    | (Ok a, db') => k a db'
    | (Raise e, db') => (Raise e, db')
    end.

Notation "x <- m ;; k" := (bind m (fun x => k))
  (at level 61, m at next level, right associativity).
Notation "m ;; k" := (bind m (fun _ => k))
  (at level 61, right associativity).

Definition read {A} (f : DB -> A) : M A := fun db => (Ok (f db), db).
Definition write (f : DB -> DB) : M unit := fun db => (Ok tt, f db).

Definition users_find_one (p : User -> bool) : M (option User) :=
  read (fun db => find_one p (users db)).
Definition users_update_one (p : User -> bool) (f : User -> User) : M unit :=
  write (fun db => set_users (update_one p f (users db)) db).
Definition sales_find_one (p : Sale -> bool) : M (option Sale) :=
  read (fun db => find_one p (sales db)).
Definition sales_count_documents : M nat :=
  read (fun db => count_documents (sales db)).
Definition sales_insert_one (s : Sale) : M unit :=
  write (fun db => set_sales (insert_one s (sales db)) db).
Definition sales_update_one (p : Sale -> bool) (f : Sale -> Sale) : M unit :=
  write (fun db => set_sales (update_one p f (sales db)) db).
Definition credit_payments_insert_one (p : CreditPaymentDoc) : M unit :=
  write (fun db => set_credit_payments (insert_one p (credit_payments db)) db).
Definition transfers_find_one (p : Transfer -> bool) : M (option Transfer) :=
  read (fun db => find_one p (transfers db)).
Definition transfers_insert_one (t : Transfer) : M unit :=
  write (fun db => set_transfers (insert_one t (transfers db)) db).
Definition transfers_update_one (p : Transfer -> bool)
  (f : Transfer -> Transfer) : M unit :=
  write (fun db => set_transfers (update_one p f (transfers db)) db).

(** ** The handlers *)

Definition get_current_user (user_id : string) : M User :=
  user <- users_find_one (user_id_is user_id) ;;
  match user with
  | None => raise (mkHTTPException 404 "User not found")
  | Some user => ret user
  end.

(** [f"{count:06d}"]: decimal digits, padded with zeros to six. *)
Fixpoint zeros (k : nat) : string :=
  match k with
  | O => ""
  | S k' => String "0"%char (zeros k')
  end.

Definition format_06d (count : nat) : string :=
  let digits := NilEmpty.string_of_uint (Nat.to_uint count) in
  zeros (6 - String.length digits) ++ digits.

Definition create_sale (sale_data : SaleCreate) (uuid4 : string)
  (utcnow : datetime) (current_user : User) : M Sale :=
  n <- sales_count_documents ;;
  let count := (n + 1)%nat in
  let sale_number := "SALE-" ++ format_06d count in
  let sale_id := uuid4 in
  let sale_dict :=
    mkSale sale_id sale_number (sc_customer_name sale_data)
           (sc_items sale_data) (sc_total_amount sale_data)
           (sc_payment_type sale_data) (u_id current_user)
           (u_name current_user)
           (if String.eqb (sc_payment_type sale_data) "cash"
            then "settled" else "pending")
           (if String.eqb (sc_payment_type sale_data) "cash"
            then sc_total_amount sale_data else 0)
           (sc_notes sale_data) utcnow in
  sales_insert_one sale_dict ;;
  (if String.eqb (sc_payment_type sale_data) "cash"
   then users_update_one (user_id_is (u_id current_user))
                         (inc_cash_balance (sc_total_amount sale_data))
   else ret tt) ;;
  ret sale_dict.

Definition record_credit_payment (payment_data : CreditPayment)
  (uuid4 : string) (utcnow : datetime) (current_user : User)
  : M CreditPaymentDoc :=
  sale <- sales_find_one (sale_id_is (cp_sale_id payment_data)) ;;
  match sale with
  | None => raise (mkHTTPException 404 "Sale not found")
  | Some sale =>
    if negb (String.eqb (s_payment_type sale) "credit")
    then raise (mkHTTPException 400 "Sale is not a credit sale")
    else
      let payment_id := uuid4 in
      let payment_dict :=
        mkCreditPaymentDoc payment_id (cp_sale_id payment_data)
                           (cp_amount payment_data) (u_id current_user)
                           (u_name current_user) (cp_notes payment_data)
                           utcnow in
      credit_payments_insert_one payment_dict ;;
      let new_paid_amount := s_paid_amount sale + cp_amount payment_data in
      let new_status :=
        if s_total_amount sale <=? new_paid_amount
        then "settled" else "partial" in
      sales_update_one (sale_id_is (cp_sale_id payment_data))
                       (set_payment_state new_paid_amount new_status) ;;
      users_update_one (user_id_is (u_id current_user))
                       (inc_cash_balance (cp_amount payment_data)) ;;
      ret payment_dict
  end.

Definition create_transfer_request (transfer_data : TransferRequest)
  (uuid4 : string) (utcnow : datetime) (current_user : User) : M Transfer :=
  if get_cash_balance current_user <? tr_amount transfer_data
  then raise (mkHTTPException 400 "Insufficient cash balance")
  else
    to_user <- users_find_one (user_id_is (tr_to_user_id transfer_data)) ;;
    match to_user with
    | None => raise (mkHTTPException 404 "Recipient not found")
    | Some to_user =>
      let transfer_id := uuid4 in
      let transfer_dict :=
        mkTransfer transfer_id (u_id current_user) (u_name current_user)
                   (tr_to_user_id transfer_data) (u_name to_user)
                   (tr_amount transfer_data) (tr_reason transfer_data)
                   "pending" utcnow None in
      transfers_insert_one transfer_dict ;;
      ret transfer_dict
    end.

(** The last [find_one] of the source cannot miss (the document was
    found and documents are never removed); were it to miss,
    building the response from [None] would be an unhandled error,
    a 500. *)
Definition approve_transfer (transfer_id : string)
  (approval : TransferApproval) (utcnow : datetime) (current_user : User)
  : M Transfer :=
  transfer <- transfers_find_one (transfer_id_is transfer_id) ;;
  match transfer with
  | None => raise (mkHTTPException 404 "Transfer not found")
  | Some transfer =>
    if negb (String.eqb (t_to_user_id transfer) (u_id current_user))
    then raise (mkHTTPException 403 "Only recipient can approve/reject")
    else if negb (String.eqb (t_status transfer) "pending")
    then raise (mkHTTPException 400 "Transfer already processed")
    else
      let new_status := action approval in
      transfers_update_one (transfer_id_is transfer_id)
                           (set_decision (new_status ++ "d") utcnow) ;;
      (if String.eqb (action approval) "approve"
       then
         users_update_one (user_id_is (t_from_user_id transfer))
                          (inc_cash_balance (- t_amount transfer)) ;;
         users_update_one (user_id_is (t_to_user_id transfer))
                          (inc_cash_balance (t_amount transfer))
       else ret tt) ;;
      updated_transfer <- transfers_find_one (transfer_id_is transfer_id) ;;
      match updated_transfer with
      | None => raise (mkHTTPException 500 "Internal Server Error")
      | Some updated_transfer => ret updated_transfer
      end
  end.

(** ** The operations under their names in the specification

    Each route runs the [get_current_user] dependency on the id carried
    by the bearer token, then the handler. *)

Definition record_sale (actor : string) (sale_data : SaleCreate)
  (uuid4 : string) (utcnow : datetime) : M Sale :=
  current_user <- get_current_user actor ;;
  create_sale sale_data uuid4 utcnow current_user.

Definition record_payment (sale_id : string) (amount : Z) (collector : string)
  (notes : option string) (uuid4 : string) (utcnow : datetime)
  : M CreditPaymentDoc :=
  current_user <- get_current_user collector ;;
  record_credit_payment (mkCreditPayment sale_id amount collector notes)
                        uuid4 utcnow current_user.

Definition request_transfer (sender recipient : string) (amount : Z)
  (reason : string) (uuid4 : string) (utcnow : datetime) : M Transfer :=
  current_user <- get_current_user sender ;;
  create_transfer_request (mkTransferRequest recipient amount reason)
                          uuid4 utcnow current_user.

Definition decide_transfer (transfer_id actor act : string)
  (utcnow : datetime) : M Transfer :=
  current_user <- get_current_user actor ;;
  approve_transfer transfer_id (mkTransferApproval act) utcnow current_user.

(** ** Observations *)

(** The balance the handlers read for a user id: the [cash_balance] of
    the first document with that id, 0 when there is none. *)
Definition balance_in (us : list User) (uid : string) : Z :=
  match find_one (user_id_is uid) us with
  | Some u => get_cash_balance u
  | None => 0
  end.

Definition balance_of (db : DB) (uid : string) : Z := balance_in (users db) uid.

Definition user_exists (db : DB) (uid : string) : Prop :=
  find_one (user_id_is uid) (users db) <> None.

Definition transfer_of (db : DB) (tid : string) : option Transfer :=
  find_one (transfer_id_is tid) (transfers db).

Definition sale_of (db : DB) (sid : string) : option Sale :=
  find_one (sale_id_is sid) (sales db).

(** Cash held by all the managers together. *)
Fixpoint total_cash (us : list User) : Z :=
  match us with
  | [] => 0
  | u :: us' => get_cash_balance u + total_cash us'
  end.

(** The users collection after a decision [act] on the transfer [t]
    has gone through: what the two [$inc] updates of
    [approve_transfer] leave, and the collection itself for any other
    action. *)
Definition decided_users (act : string) (t : Transfer) (us : list User)
  : list User :=
  if String.eqb act "approve"
  then update_one (user_id_is (t_to_user_id t)) (inc_cash_balance (t_amount t))
         (update_one (user_id_is (t_from_user_id t))
                     (inc_cash_balance (- t_amount t)) us)
  else us.

(** The [sale_dict] that [create_sale] builds when the sales collection
    holds [n] documents. *)
Definition sale_dict_of (sale_data : SaleCreate) (uuid4 : string)
  (utcnow : datetime) (current_user : User) (n : nat) : Sale :=
  mkSale uuid4 ("SALE-" ++ format_06d (n + 1)) (sc_customer_name sale_data)
         (sc_items sale_data) (sc_total_amount sale_data)
         (sc_payment_type sale_data) (u_id current_user) (u_name current_user)
         (if String.eqb (sc_payment_type sale_data) "cash"
          then "settled" else "pending")
         (if String.eqb (sc_payment_type sale_data) "cash"
          then sc_total_amount sale_data else 0)
         (sc_notes sale_data) utcnow.

(** ** The status rule of the specification

    Section 3 of the specification gives the status of a sale as a
    function of its paid amount, its total and its payment type by
    three cases.  This definition follows the specification's words,
    one implication per case; it is not taken from the source. *)
Definition spec_status_rule (paid_amount total_amount : Z)
  (payment_type status : string) : Prop :=
  (paid_amount = 0 /\ payment_type = "credit" -> status = "pending") /\
  (0 < paid_amount < total_amount -> status = "partial") /\
  (total_amount <= paid_amount -> status = "settled").

Definition status_follows_rule (s : Sale) : Prop :=
  spec_status_rule (s_paid_amount s) (s_total_amount s) (s_payment_type s)
                   (s_status s).

(** ** Executions

    One request served to its end, answered or refused.  The source
    validates no amount; [admissible] says which sale totals and
    payment amounts the clients send in the executions considered. *)
Section Executions.
Variable admissible : Z -> Prop.

Inductive step : DB -> DB -> Prop :=
| step_record_sale actor sale_data uuid4 utcnow db :
    admissible (sc_total_amount sale_data) ->
    step db (snd (record_sale actor sale_data uuid4 utcnow db))
| step_record_payment sale_id amount collector notes uuid4 utcnow db :
    admissible amount ->
    step db (snd (record_payment sale_id amount collector notes uuid4 utcnow db))
| step_request_transfer sender recipient amount reason uuid4 utcnow db :
    step db
      (snd (request_transfer sender recipient amount reason uuid4 utcnow db))
| step_decide_transfer transfer_id actor act utcnow db :
    step db (snd (decide_transfer transfer_id actor act utcnow db)).

Inductive run : DB -> DB -> Prop :=
| run_here db : run db db
| run_next db db' db'' : run db db' -> step db' db'' -> run db db''.
End Executions.

Definition positive (a : Z) : Prop := 0 < a.

(** The executions in which the status rule is kept: every payment
    has a positive amount and every sale that is not a cash sale has a
    positive total; a cash sale may have any total. *)
Inductive billed_step : DB -> DB -> Prop :=
| billed_record_sale actor sale_data uuid4 utcnow db :
    (sc_payment_type sale_data <> "cash" -> 0 < sc_total_amount sale_data) ->
    billed_step db (snd (record_sale actor sale_data uuid4 utcnow db))
| billed_record_payment sale_id amount collector notes uuid4 utcnow db :
    0 < amount ->
    billed_step db
      (snd (record_payment sale_id amount collector notes uuid4 utcnow db))
| billed_request_transfer sender recipient amount reason uuid4 utcnow db :
    billed_step db
      (snd (request_transfer sender recipient amount reason uuid4 utcnow db))
| billed_decide_transfer transfer_id actor act utcnow db :
    billed_step db (snd (decide_transfer transfer_id actor act utcnow db)).

Inductive billed_run : DB -> DB -> Prop :=
| billed_here db : billed_run db db
| billed_next db db' db'' :
    billed_run db db' -> billed_step db' db'' -> billed_run db db''.

(** What such executions keep true of every stored sale. *)
Definition sale_sound (s : Sale) : Prop :=
  (s_payment_type s = "credit" -> 0 <= s_paid_amount s) /\
  status_follows_rule s.

(** Both parties of every stored transfer have a user document. *)
Definition parties_exist (db : DB) : Prop :=
  Forall (fun t => user_exists db (t_from_user_id t) /\
                   user_exists db (t_to_user_id t))
         (transfers db).

(** ** Example data *)

Definition manager (id : string) (balance : Z) : User :=
  mkUser id ("Manager " ++ id) (id ++ "@example.com") "bcrypt-hash" "manager"
         (Some balance) 0.

(** Three managers, no business yet. *)
Definition db_managers : DB :=
  mkDB [manager "M1" 100; manager "M2" 0; manager "M3" 0] [] [] [].

(** M1 (balance 100) has asked twice to hand 60 over to M2. *)
Definition db_requested : DB :=
  snd (request_transfer "M1" "M2" 60 "till float" "T2" 11
         (snd (request_transfer "M1" "M2" 60 "till float" "T1" 10
                 db_managers))).

(** M2 has approved the first request. *)
Definition db_approved_once : DB :=
  snd (decide_transfer "T1" "M2" "approve" 20 db_requested).

(** M1 has sold on credit for 200. *)
Definition credit_sale_200 : SaleCreate :=
  mkSaleCreate "Acme" [mkSaleItem "bricks" 20 10 200] 200 "credit" "M1" None.

Definition db_credit_sale : DB :=
  snd (record_sale "M1" credit_sale_200 "S1" 5 db_managers).

(** M2 has collected 80 against that sale. *)
Definition db_paid_80 : DB :=
  snd (record_payment "S1" 80 "M2" None "P1" 6 db_credit_sale).

(** M1 sells on credit for nothing at all, and M3 sells at a loss of 5
    in cash. *)
Definition credit_sale_0 : SaleCreate :=
  mkSaleCreate "Acme" [] 0 "credit" "M1" None.

Definition cash_sale_minus_5 : SaleCreate :=
  mkSaleCreate "Bolt" [mkSaleItem "refund" 1 (-5) (-5)] (-5) "cash" "M3" None.

(** ** Amounts and numbers along an execution *)

Definition any_amount (a : Z) : Prop := True.

(** Reading a count back from its zero-padded decimal form. *)
Definition parse_count (digits : string) : option nat :=
  option_map Nat.of_uint (NilEmpty.uint_of_string digits).

(** The number [create_sale] gives to the sale stored at index [i]. *)
Definition sale_number_at (i : nat) : string := "SALE-" ++ format_06d (i + 1).

(** ** Accounts

    [bcrypt] and [jwt] are libraries: hashing, checking and token
    encoding are parameters.  The salt drawn by [bcrypt.gensalt()] is
    an input of [register].  A [datetime] counts seconds here, so the
    seven days of a token are expressed in seconds. *)

Record UserCreate := mkUserCreate {
  uc_name : string;
  uc_email : string;
  uc_password : string;
  uc_role : string
}.

Record UserLogin := mkUserLogin {
  ul_email : string;
  ul_password : string
}.

Record UserResponse := mkUserResponse {
  ur_id : string;
  ur_name : string;
  ur_email : string;
  ur_role : string;
  ur_cash_balance : Z;
  ur_created_at : datetime
}.

Record Token := mkToken {
  access_token : string;
  token_type : string;
  token_user : UserResponse
}.

Definition email_is (x : string) (u : User) : bool := String.eqb (u_email u) x.
Definition role_is (x : string) (u : User) : bool := String.eqb (u_role u) x.

Definition users_insert_one (u : User) : M unit :=
  write (fun db => set_users (insert_one u (users db)) db).

Definition ACCESS_TOKEN_EXPIRE_MINUTES : Z := 60 * 24 * 7.

(** The [UserResponse] built from a user document, with
    [user.get("cash_balance", 0.0)]. *)
Definition user_response_of (u : User) : UserResponse :=
  mkUserResponse (u_id u) (u_name u) (u_email u) (u_role u)
                 (get_cash_balance u) (u_created_at u).

Section Credentials.
Variable hashpw : string -> string -> string.
Variable checkpw : string -> string -> bool.
Variable jwt_encode : string -> datetime -> string.

Definition create_access_token (sub : string) (utcnow : datetime) : string :=
  let expire := utcnow + ACCESS_TOKEN_EXPIRE_MINUTES * 60 in
  jwt_encode sub expire.

(** [utcnow] is the clock read for [created_at], [utcnow'] the clock
    read later by [create_access_token]. *)
Definition register (user_data : UserCreate) (salt uuid4 : string)
  (utcnow utcnow' : datetime) : M Token :=
  existing_user <- users_find_one (email_is (uc_email user_data)) ;;
  match existing_user with
  | Some _ => raise (mkHTTPException 400 "Email already registered")
  | None =>
    let hashed_password := hashpw (uc_password user_data) salt in
    let user_id := uuid4 in
    let user_dict :=
      mkUser user_id (uc_name user_data) (uc_email user_data) hashed_password
             (uc_role user_data) (Some 0) utcnow in
    users_insert_one user_dict ;;
    let access_token := create_access_token user_id utcnow' in
    let user_response :=
      mkUserResponse user_id (uc_name user_data) (uc_email user_data)
                     (uc_role user_data) 0 (u_created_at user_dict) in
    ret (mkToken access_token "bearer" user_response)
  end.

Definition login (credentials : UserLogin) (utcnow : datetime) : M Token :=
  user <- users_find_one (email_is (ul_email credentials)) ;;
  match user with
  | None => raise (mkHTTPException 401 "Invalid email or password")
  | Some user =>
    if negb (checkpw (ul_password credentials) (u_password user))
    then raise (mkHTTPException 401 "Invalid email or password")
    else
      let access_token := create_access_token (u_id user) utcnow in
      ret (mkToken access_token "bearer" (user_response_of user))
  end.
End Credentials.

Definition get_me (current_user : User) : M UserResponse :=
  ret (user_response_of current_user).

(** [find({"role": "manager"}).to_list(100)]. *)
Definition get_users (current_user : User) : M (list UserResponse) :=
  users <- read (fun db => firstn 100 (filter (role_is "manager") (users db))) ;;
  ret (map user_response_of users).

(** ** Listings

    A listing sorted by [created_at], newest first.  MongoDB leaves the
    order of documents with equal keys open, so the sort is a
    parameter; the theorems ask of it only that it permutes its
    input. *)

Record ManagerEntry := mkManagerEntry {
  me_id : string;
  me_name : string;
  me_cash_balance : Z
}.

Record PendingEntry := mkPendingEntry {
  pe_id : string;
  pe_from_user_name : string;
  pe_amount : Z;
  pe_reason : string;
  pe_created_at : datetime
}.

Record Dashboard := mkDashboard {
  my_cash_balance : Z;
  managers : list ManagerEntry;
  pending_approvals : list PendingEntry;
  recent_transactions_count : nat
}.

Definition pending_for (uid : string) (t : Transfer) : bool :=
  String.eqb (t_to_user_id t) uid && String.eqb (t_status t) "pending".

Definition involves (uid : string) (t : Transfer) : bool :=
  String.eqb (t_from_user_id t) uid || String.eqb (t_to_user_id t) uid.

Definition collected_by_is (uid : string) (s : Sale) : bool :=
  String.eqb (s_collected_by s) uid.

Definition payment_type_is (x : string) (s : Sale) : bool :=
  String.eqb (s_payment_type s) x.

Definition manager_entry_of (m : User) : ManagerEntry :=
  mkManagerEntry (u_id m) (u_name m) (get_cash_balance m).

(** One entry of the dashboard: the sender is looked up again, and
    shown as "Unknown" when it has no document. *)
Definition pending_entry_of (us : list User) (t : Transfer) : PendingEntry :=
  mkPendingEntry (t_id t)
    (match find_one (user_id_is (t_from_user_id t)) us with
     | Some from_user => u_name from_user
     | None => "Unknown"
     end)
    (t_amount t) (t_reason t) (t_created_at t).

Section Listings.
Variable sort_newest_first : forall A : Type, (A -> datetime) -> list A -> list A.

Definition get_dashboard (current_user : User) : M Dashboard :=
  managers <- read (fun db => firstn 100 (filter (role_is "manager") (users db))) ;;
  pending_transfers <-
    read (fun db => firstn 100 (filter (pending_for (u_id current_user))
                                       (transfers db))) ;;
  recent_sales <-
    read (fun db =>
            firstn 5 (firstn 5
              (sort_newest_first Sale s_created_at
                 (filter (collected_by_is (u_id current_user)) (sales db))))) ;;
  let managers_list := map manager_entry_of managers in
  transfers_list <- read (fun db => map (pending_entry_of (users db))
                                        pending_transfers) ;;
  ret (mkDashboard (get_cash_balance current_user) managers_list transfers_list
                   (List.length recent_sales)).

Definition get_sales (current_user : User) : M (list Sale) :=
  read (fun db => firstn 100 (sort_newest_first Sale s_created_at (sales db))).

Definition get_credit_sales (current_user : User) : M (list Sale) :=
  read (fun db =>
          firstn 100 (sort_newest_first Sale s_created_at
                        (filter (payment_type_is "credit") (sales db)))).

Definition get_transfers (current_user : User) : M (list Transfer) :=
  read (fun db =>
          firstn 100 (sort_newest_first Transfer t_created_at
                        (filter (involves (u_id current_user)) (transfers db)))).

Definition dashboard_of (actor : string) : M Dashboard :=
  current_user <- get_current_user actor ;;
  get_dashboard current_user.

Definition transfers_of (actor : string) : M (list Transfer) :=
  current_user <- get_current_user actor ;;
  get_transfers current_user.
End Listings.

(** An insertion sort, newest first: one sort the database may be
    running. *)
Fixpoint insert_newest_first {A : Type} (key : A -> datetime) (x : A)
  (l : list A) : list A :=
  match l with
  | [] => [x]
  | y :: l' => if key y <? key x then x :: y :: l'
               else y :: insert_newest_first key x l'
  end.

Fixpoint insertion_sort_newest_first (A : Type) (key : A -> datetime)
  (l : list A) : list A :=
  match l with
  | [] => []
  | x :: l' => insert_newest_first key x (insertion_sort_newest_first A key l')
  end.

(** A stand-in for [bcrypt] that keeps the password as its own hash,
    and a token that is the subject itself: good enough to run the
    account handlers on examples. *)
Definition plain_hashpw (password salt : string) : string := password.
Definition plain_checkpw (password hashed : string) : bool :=
  String.eqb password hashed.
Definition plain_jwt_encode (sub : string) (exp : datetime) : string := sub.

Definition new_manager : UserCreate :=
  mkUserCreate "Manager M4" "M4@example.com" "s3cret" "manager".

(** ** Inventory

    The production and raw-material handlers work on two collections
    of their own and read nothing of the acting user but its
    identifier and name.  An entry of [raw_materials_used] is a free
    [dict] in the source; the model keeps the two keys the handler
    reads, each of which may be missing, and takes a present value to
    have the type the handler expects.  A missing key is a [KeyError],
    which the framework answers with a 500. *)

Record MaterialUse := mkMaterialUse {
  mu_material_name : option string;
  mu_quantity_used : option Z
}.

Record ProductionCreate := mkProductionCreate {
  pc_product_name : string;
  pc_quantity : Z;
  pc_unit : string;
  pc_raw_materials_used : list MaterialUse;
  pc_workers : list string;
  pc_notes : option string
}.

Record Production := mkProduction {
  pr_id : string;
  pr_production_number : string;
  pr_product_name : string;
  pr_quantity : Z;
  pr_unit : string;
  pr_raw_materials_used : list MaterialUse;
  pr_workers : list string;
  pr_status : string;
  pr_created_by : string;
  pr_created_by_name : string;
  pr_notes : option string;
  pr_created_at : datetime;
  pr_completed_at : option datetime
}.

Record RawMaterialCreate := mkRawMaterialCreate {
  rc_material_name : string;
  rc_quantity : Z;
  rc_unit : string;
  rc_unit_price : Z;
  rc_supplier_name : string;
  rc_notes : option string
}.

Record RawMaterial := mkRawMaterial {
  rm_id : string;
  rm_material_name : string;
  rm_quantity : Z;
  rm_unit : string;
  rm_unit_price : Z;
  rm_supplier_name : string;
  rm_added_by : string;
  rm_added_by_name : string;
  rm_notes : option string;
  rm_created_at : datetime
}.

Record Inventory := mkInventory {
  production : list Production;
  raw_materials : list RawMaterial
}.

Definition MI (A : Type) : Type := Inventory -> Result A * Inventory.

Definition retI {A} (a : A) : MI A := fun inv => (Ok a, inv).
Definition raiseI {A} (e : HTTPException) : MI A := fun inv => (Raise e, inv).
Definition bindI {A B} (m : MI A) (k : A -> MI B) : MI B :=
  fun inv =>
    match m inv with
    | (Ok a, inv') => k a inv'
    | (Raise e, inv') => (Raise e, inv')
    end.

Notation "x <~ m ;; k" := (bindI m (fun x => k))
  (at level 61, m at next level, right associativity).
Notation "m ~;; k" := (bindI m (fun _ => k))
  (at level 61, right associativity).

Definition material_name_is (x : string) (m : RawMaterial) : bool :=
  String.eqb (rm_material_name m) x.
Definition production_id_is (x : string) (p : Production) : bool :=
  String.eqb (pr_id p) x.

(** [{"$inc": {"quantity": delta}}]. *)
Definition inc_quantity (delta : Z) (m : RawMaterial) : RawMaterial :=
  mkRawMaterial (rm_id m) (rm_material_name m) (rm_quantity m + delta)
                (rm_unit m) (rm_unit_price m) (rm_supplier_name m)
                (rm_added_by m) (rm_added_by_name m) (rm_notes m)
                (rm_created_at m).

(** [{"$set": {"status": "completed", "completed_at": now}}]. *)
Definition set_completed (now : datetime) (p : Production) : Production :=
  mkProduction (pr_id p) (pr_production_number p) (pr_product_name p)
               (pr_quantity p) (pr_unit p) (pr_raw_materials_used p)
               (pr_workers p) "completed" (pr_created_by p)
               (pr_created_by_name p) (pr_notes p) (pr_created_at p) (Some now).

Definition raw_materials_find_one (p : RawMaterial -> bool)
  : MI (option RawMaterial) :=
  fun inv => (Ok (find_one p (raw_materials inv)), inv).
Definition raw_materials_update_one (p : RawMaterial -> bool)
  (f : RawMaterial -> RawMaterial) : MI unit :=
  fun inv => (Ok tt, mkInventory (production inv)
                                 (update_one p f (raw_materials inv))).
Definition raw_materials_insert_one (m : RawMaterial) : MI unit :=
  fun inv => (Ok tt, mkInventory (production inv)
                                 (insert_one m (raw_materials inv))).
Definition production_find_one (p : Production -> bool)
  : MI (option Production) :=
  fun inv => (Ok (find_one p (production inv)), inv).
Definition production_update_one (p : Production -> bool)
  (f : Production -> Production) : MI unit :=
  fun inv => (Ok tt, mkInventory (update_one p f (production inv))
                                 (raw_materials inv)).
Definition production_insert_one (d : Production) : MI unit :=
  fun inv => (Ok tt, mkInventory (insert_one d (production inv))
                                 (raw_materials inv)).
Definition production_count_documents : MI nat :=
  fun inv => (Ok (count_documents (production inv)), inv).

(** The loop of [create_production] over [raw_materials_used]. *)
Fixpoint use_raw_materials (materials : list MaterialUse) : MI unit :=
  match materials with
  | [] => retI tt
  | material :: rest =>
    match mu_material_name material with
    | None => raiseI (mkHTTPException 500 "Internal Server Error")
    | Some name =>
      match mu_quantity_used material with
      | None => raiseI (mkHTTPException 500 "Internal Server Error")
      | Some quantity_used =>
        raw_materials_update_one (material_name_is name)
                                 (inc_quantity (- quantity_used)) ~;;
        use_raw_materials rest
      end
    end
  end.

Definition create_production (production_data : ProductionCreate)
  (uuid4 : string) (utcnow : datetime) (current_user : User)
  : MI Production :=
  n <~ production_count_documents ;;
  let count := (n + 1)%nat in
  let production_number := "PROD-" ++ format_06d count in
  let production_id := uuid4 in
  let production_dict :=
    mkProduction production_id production_number
                 (pc_product_name production_data)
                 (pc_quantity production_data) (pc_unit production_data)
                 (pc_raw_materials_used production_data)
                 (pc_workers production_data) "in_progress"
                 (u_id current_user) (u_name current_user)
                 (pc_notes production_data) utcnow None in
  production_insert_one production_dict ~;;
  use_raw_materials (pc_raw_materials_used production_data) ~;;
  retI production_dict.

Definition complete_production (production_id : string) (utcnow : datetime)
  (current_user : User) : MI string :=
  production <~ production_find_one (production_id_is production_id) ;;
  match production with
  | None => raiseI (mkHTTPException 404 "Production not found")
  | Some _ =>
    production_update_one (production_id_is production_id)
                          (set_completed utcnow) ~;;
    retI "Production marked as completed"
  end.

(** As in [approve_transfer], the second lookup cannot miss. *)
Definition create_raw_material (material_data : RawMaterialCreate)
  (uuid4 : string) (utcnow : datetime) (current_user : User)
  : MI RawMaterial :=
  let material_id := uuid4 in
  let material_dict :=
    mkRawMaterial material_id (rc_material_name material_data)
                  (rc_quantity material_data) (rc_unit material_data)
                  (rc_unit_price material_data)
                  (rc_supplier_name material_data) (u_id current_user)
                  (u_name current_user) (rc_notes material_data) utcnow in
  existing <~ raw_materials_find_one
                (material_name_is (rc_material_name material_data)) ;;
  match existing with
  | Some _ =>
    raw_materials_update_one
      (material_name_is (rc_material_name material_data))
      (inc_quantity (rc_quantity material_data)) ~;;
    updated <~ raw_materials_find_one
                 (material_name_is (rc_material_name material_data)) ;;
    match updated with
    | None => raiseI (mkHTTPException 500 "Internal Server Error")
    | Some updated => retI updated
    end
  | None =>
    raw_materials_insert_one material_dict ~;;
    retI material_dict
  end.

(** The quantity the handlers read for a material: that of the first
    document with the name, 0 when there is none. *)
Definition stock_of (inv : Inventory) (name : string) : Z :=
  match find_one (material_name_is name) (raw_materials inv) with
  | Some m => rm_quantity m
  | None => 0
  end.

Definition production_number_at (i : nat) : string :=
  "PROD-" ++ format_06d (i + 1).

(** One inventory request served to its end. *)
Inductive inventory_step : Inventory -> Inventory -> Prop :=
| istep_create_raw_material material_data uuid4 utcnow current_user inv :
    inventory_step inv
      (snd (create_raw_material material_data uuid4 utcnow current_user inv))
| istep_create_production production_data uuid4 utcnow current_user inv :
    inventory_step inv
      (snd (create_production production_data uuid4 utcnow current_user inv))
| istep_complete_production production_id utcnow current_user inv :
    inventory_step inv
      (snd (complete_production production_id utcnow current_user inv)).

Inductive inventory_run : Inventory -> Inventory -> Prop :=
| irun_here inv : inventory_run inv inv
| irun_next inv inv' inv'' :
    inventory_run inv inv' -> inventory_step inv' inv'' ->
    inventory_run inv inv''.

(** A stock of cement and sand, and a batch that uses both. *)
Definition inv_stocked : Inventory :=
  mkInventory []
    [mkRawMaterial "R1" "cement" 50 "bag" 7 "Lafarge" "M1" "Manager M1" None 1;
     mkRawMaterial "R2" "sand" 10 "ton" 3 "Quarry" "M1" "Manager M1" None 2].

Definition batch_of_bricks : ProductionCreate :=
  mkProductionCreate "bricks" 1000 "piece"
    [mkMaterialUse (Some "cement") (Some 20);
     mkMaterialUse (Some "sand") (Some 15);
     mkMaterialUse (Some "cement") (Some 5)]
    ["Asha"; "Ravi"] None.

Definition inv_brick_batch : Inventory :=
  snd (create_production batch_of_bricks "B1" 9 (manager "M1" 100) inv_stocked).

Definition batch_with_bad_entry : ProductionCreate :=
  mkProductionCreate "tiles" 200 "piece"
    [mkMaterialUse (Some "cement") (Some 20);
     mkMaterialUse (Some "sand") None;
     mkMaterialUse (Some "cement") (Some 5)]
    ["Asha"] None.

(** What no request is meant to change in a stored document. *)
Definition transfer_core (t : Transfer) :=
  (t_id t, t_from_user_id t, t_from_user_name t, t_to_user_id t,
   t_to_user_name t, t_amount t, t_reason t, t_created_at t).


Definition user_core (u : User) :=
  (u_id u, u_name u, u_email u, u_password u, u_role u, u_created_at u).

(** ** The handlers on binary64 amounts

    Everything above takes amounts as exact numbers, which is enough
    for what does not depend on how sums are rounded.  The amounts of
    the source are Python [float]s, stored by MongoDB as doubles: this
    module embeds the four cash handlers and [get_sale] again, and
    after them [create_raw_material] and [create_production], with
    every amount an IEEE 754 binary64 number, [+] and unary [-] the
    float operations of Python, [$inc] the double addition of the
    database, and [<], [>=] the float comparisons (false on NaN).

    Timestamps are exact as well here: a [datetime] counts the
    microseconds that [datetime.utcnow()] gives, and the database
    keeps a stored one cut down to the millisecond. *)
Module Float64.

Definition bson_datetime (t : datetime) : datetime := 1000 * (t / 1000).

Record User := mkUser {
  u_id : string;
  u_name : string;
  u_email : string;
  u_password : string;
  u_role : string;
  u_cash_balance : option float;
  u_created_at : datetime
}.

Record SaleItem := mkSaleItem {
  product_name : string;
  quantity : float;
  unit_price : float;
  total : float
}.

Record SaleCreate := mkSaleCreate {
  sc_customer_name : string;
  sc_items : list SaleItem;
  sc_total_amount : float;
  sc_payment_type : string;
  sc_collected_by : string;
  sc_notes : option string
}.

Record Sale := mkSale {
  s_id : string;
  s_sale_number : string;
  s_customer_name : string;
  s_items : list SaleItem;
  s_total_amount : float;
  s_payment_type : string;
  s_collected_by : string;
  s_collected_by_name : string;
  s_status : string;
  s_paid_amount : float;
  s_notes : option string;
  s_created_at : datetime
}.

Record TransferRequest := mkTransferRequest {
  tr_to_user_id : string;
  tr_amount : float;
  tr_reason : string
}.

Record Transfer := mkTransfer {
  t_id : string;
  t_from_user_id : string;
  t_from_user_name : string;
  t_to_user_id : string;
  t_to_user_name : string;
  t_amount : float;
  t_reason : string;
  t_status : string;
  t_created_at : datetime;
  t_approved_at : option datetime
}.

Record CreditPayment := mkCreditPayment {
  cp_sale_id : string;
  cp_amount : float;
  cp_collected_by : string;
  cp_notes : option string
}.

Record CreditPaymentDoc := mkCreditPaymentDoc {
  p_id : string;
  p_sale_id : string;
  p_amount : float;
  p_collected_by : string;
  p_collected_by_name : string;
  p_notes : option string;
  p_created_at : datetime
}.

Record DB := mkDB {
  users : list User;
  sales : list Sale;
  credit_payments : list CreditPaymentDoc;
  transfers : list Transfer
}.

Definition set_users (us : list User) (db : DB) : DB :=
  mkDB us (sales db) (credit_payments db) (transfers db).
Definition set_sales (ss : list Sale) (db : DB) : DB :=
  mkDB (users db) ss (credit_payments db) (transfers db).
Definition set_credit_payments (ps : list CreditPaymentDoc) (db : DB) : DB :=
  mkDB (users db) (sales db) ps (transfers db).
Definition set_transfers (ts : list Transfer) (db : DB) : DB :=
  mkDB (users db) (sales db) (credit_payments db) ts.

Definition user_id_is (x : string) (u : User) : bool := String.eqb (u_id u) x.
Definition sale_id_is (x : string) (s : Sale) : bool := String.eqb (s_id s) x.
Definition transfer_id_is (x : string) (t : Transfer) : bool :=
  String.eqb (t_id t) x.

(** [user.get("cash_balance", 0.0)]. *)
Definition get_cash_balance (u : User) : float :=
  match u_cash_balance u with Some b => b | None => 0%float end.

(** [{"$inc": {"cash_balance": delta}}]: a double addition; a field
    that is absent is set to the increment itself. *)
Definition inc_cash_balance (delta : float) (u : User) : User :=
  mkUser (u_id u) (u_name u) (u_email u) (u_password u) (u_role u)
         (Some (match u_cash_balance u with
                | Some b => PrimFloat.add b delta
                | None => delta
                end))
         (u_created_at u).

Definition set_payment_state (paid : float) (st : string) (s : Sale) : Sale :=
  mkSale (s_id s) (s_sale_number s) (s_customer_name s) (s_items s)
         (s_total_amount s) (s_payment_type s) (s_collected_by s)
         (s_collected_by_name s) st paid (s_notes s) (s_created_at s).

(** [{"$set": {"status": st, "approved_at": now}}], the time as the
    database keeps it. *)
Definition set_decision (st : string) (now : datetime) (t : Transfer)
  : Transfer :=
  mkTransfer (t_id t) (t_from_user_id t) (t_from_user_name t)
             (t_to_user_id t) (t_to_user_name t) (t_amount t) (t_reason t)
             st (t_created_at t) (Some (bson_datetime now)).

(** The documents as [insert_one] stores them. *)
Definition stored_sale (s : Sale) : Sale :=
  mkSale (s_id s) (s_sale_number s) (s_customer_name s) (s_items s)
         (s_total_amount s) (s_payment_type s) (s_collected_by s)
         (s_collected_by_name s) (s_status s) (s_paid_amount s) (s_notes s)
         (bson_datetime (s_created_at s)).

Definition stored_payment (p : CreditPaymentDoc) : CreditPaymentDoc :=
  mkCreditPaymentDoc (p_id p) (p_sale_id p) (p_amount p) (p_collected_by p)
                     (p_collected_by_name p) (p_notes p)
                     (bson_datetime (p_created_at p)).

Definition stored_transfer (t : Transfer) : Transfer :=
  mkTransfer (t_id t) (t_from_user_id t) (t_from_user_name t)
             (t_to_user_id t) (t_to_user_name t) (t_amount t) (t_reason t)
             (t_status t) (bson_datetime (t_created_at t))
             (option_map bson_datetime (t_approved_at t)).

Definition M (A : Type) : Type := DB -> Result A * DB.

Definition ret {A} (a : A) : M A := fun db => (Ok a, db).
Definition raise {A} (e : HTTPException) : M A := fun db => (Raise e, db).
Definition bind {A B} (m : M A) (k : A -> M B) : M B :=
  fun db =>
    match m db with
    | (Ok a, db') => k a db'
    | (Raise e, db') => (Raise e, db')
    end.

Notation "x <-- m ;; k" := (bind m (fun x => k))
  (at level 61, m at next level, right associativity).
Notation "m ;;; k" := (bind m (fun _ => k))
  (at level 61, right associativity).

Definition read {A} (f : DB -> A) : M A := fun db => (Ok (f db), db).
Definition write (f : DB -> DB) : M unit := fun db => (Ok tt, f db).

Definition users_find_one (p : User -> bool) : M (option User) :=
  read (fun db => find_one p (users db)).
Definition users_update_one (p : User -> bool) (f : User -> User) : M unit :=
  write (fun db => set_users (update_one p f (users db)) db).
Definition sales_find_one (p : Sale -> bool) : M (option Sale) :=
  read (fun db => find_one p (sales db)).
Definition sales_count_documents : M nat :=
  read (fun db => count_documents (sales db)).
Definition sales_insert_one (s : Sale) : M unit :=
  write (fun db => set_sales (insert_one (stored_sale s) (sales db)) db).
Definition sales_update_one (p : Sale -> bool) (f : Sale -> Sale) : M unit :=
  write (fun db => set_sales (update_one p f (sales db)) db).
Definition credit_payments_insert_one (p : CreditPaymentDoc) : M unit :=
  write (fun db => set_credit_payments
                     (insert_one (stored_payment p) (credit_payments db)) db).
Definition transfers_find_one (p : Transfer -> bool) : M (option Transfer) :=
  read (fun db => find_one p (transfers db)).
Definition transfers_insert_one (t : Transfer) : M unit :=
  write (fun db => set_transfers
                     (insert_one (stored_transfer t) (transfers db)) db).
Definition transfers_update_one (p : Transfer -> bool)
  (f : Transfer -> Transfer) : M unit :=
  write (fun db => set_transfers (update_one p f (transfers db)) db).

Definition get_current_user (user_id : string) : M User :=
  user <-- users_find_one (user_id_is user_id) ;;
  match user with
  | None => raise (mkHTTPException 404 "User not found")
  | Some user => ret user
  end.

Definition create_sale (sale_data : SaleCreate) (uuid4 : string)
  (utcnow : datetime) (current_user : User) : M Sale :=
  n <-- sales_count_documents ;;
  let count := (n + 1)%nat in
  let sale_number := "SALE-" ++ format_06d count in
  let sale_id := uuid4 in
  let sale_dict :=
    mkSale sale_id sale_number (sc_customer_name sale_data)
           (sc_items sale_data) (sc_total_amount sale_data)
           (sc_payment_type sale_data) (u_id current_user)
           (u_name current_user)
           (if String.eqb (sc_payment_type sale_data) "cash"
            then "settled" else "pending")
           (if String.eqb (sc_payment_type sale_data) "cash"
            then sc_total_amount sale_data else 0%float)
           (sc_notes sale_data) utcnow in
  sales_insert_one sale_dict ;;;
  (if String.eqb (sc_payment_type sale_data) "cash"
   then users_update_one (user_id_is (u_id current_user))
                         (inc_cash_balance (sc_total_amount sale_data))
   else ret tt) ;;;
  ret sale_dict.

Definition record_credit_payment (payment_data : CreditPayment)
  (uuid4 : string) (utcnow : datetime) (current_user : User)
  : M CreditPaymentDoc :=
  sale <-- sales_find_one (sale_id_is (cp_sale_id payment_data)) ;;
  match sale with
  | None => raise (mkHTTPException 404 "Sale not found")
  | Some sale =>
    if negb (String.eqb (s_payment_type sale) "credit")
    then raise (mkHTTPException 400 "Sale is not a credit sale")
    else
      let payment_id := uuid4 in
      let payment_dict :=
        mkCreditPaymentDoc payment_id (cp_sale_id payment_data)
                           (cp_amount payment_data) (u_id current_user)
                           (u_name current_user) (cp_notes payment_data)
                           utcnow in
      credit_payments_insert_one payment_dict ;;;
      let new_paid_amount :=
        PrimFloat.add (s_paid_amount sale) (cp_amount payment_data) in
      let new_status :=
        if PrimFloat.leb (s_total_amount sale) new_paid_amount
        then "settled" else "partial" in
      sales_update_one (sale_id_is (cp_sale_id payment_data))
                       (set_payment_state new_paid_amount new_status) ;;;
      users_update_one (user_id_is (u_id current_user))
                       (inc_cash_balance (cp_amount payment_data)) ;;;
      ret payment_dict
  end.

Definition create_transfer_request (transfer_data : TransferRequest)
  (uuid4 : string) (utcnow : datetime) (current_user : User) : M Transfer :=
  if PrimFloat.ltb (get_cash_balance current_user) (tr_amount transfer_data)
  then raise (mkHTTPException 400 "Insufficient cash balance")
  else
    to_user <-- users_find_one (user_id_is (tr_to_user_id transfer_data)) ;;
    match to_user with
    | None => raise (mkHTTPException 404 "Recipient not found")
    | Some to_user =>
      let transfer_id := uuid4 in
      let transfer_dict :=
        mkTransfer transfer_id (u_id current_user) (u_name current_user)
                   (tr_to_user_id transfer_data) (u_name to_user)
                   (tr_amount transfer_data) (tr_reason transfer_data)
                   "pending" utcnow None in
      transfers_insert_one transfer_dict ;;;
      ret transfer_dict
    end.

Definition approve_transfer (transfer_id : string)
  (approval : TransferApproval) (utcnow : datetime) (current_user : User)
  : M Transfer :=
  transfer <-- transfers_find_one (transfer_id_is transfer_id) ;;
  match transfer with
  | None => raise (mkHTTPException 404 "Transfer not found")
  | Some transfer =>
    if negb (String.eqb (t_to_user_id transfer) (u_id current_user))
    then raise (mkHTTPException 403 "Only recipient can approve/reject")
    else if negb (String.eqb (t_status transfer) "pending")
    then raise (mkHTTPException 400 "Transfer already processed")
    else
      let new_status := action approval in
      transfers_update_one (transfer_id_is transfer_id)
                           (set_decision (new_status ++ "d") utcnow) ;;;
      (if String.eqb (action approval) "approve"
       then
         users_update_one (user_id_is (t_from_user_id transfer))
                          (inc_cash_balance (PrimFloat.opp (t_amount transfer))) ;;;
         users_update_one (user_id_is (t_to_user_id transfer))
                          (inc_cash_balance (t_amount transfer))
       else ret tt) ;;;
      updated_transfer <-- transfers_find_one (transfer_id_is transfer_id) ;;
      match updated_transfer with
      | None => raise (mkHTTPException 500 "Internal Server Error")
      | Some updated_transfer => ret updated_transfer
      end
  end.

(** The operations under their names in the specification. *)

Definition record_sale (actor : string) (sale_data : SaleCreate)
  (uuid4 : string) (utcnow : datetime) : M Sale :=
  current_user <-- get_current_user actor ;;
  create_sale sale_data uuid4 utcnow current_user.

Definition record_payment (sale_id : string) (amount : float)
  (collector : string) (notes : option string) (uuid4 : string)
  (utcnow : datetime) : M CreditPaymentDoc :=
  current_user <-- get_current_user collector ;;
  record_credit_payment (mkCreditPayment sale_id amount collector notes)
                        uuid4 utcnow current_user.

Definition request_transfer (sender recipient : string) (amount : float)
  (reason : string) (uuid4 : string) (utcnow : datetime) : M Transfer :=
  current_user <-- get_current_user sender ;;
  create_transfer_request (mkTransferRequest recipient amount reason)
                          uuid4 utcnow current_user.

Definition decide_transfer (transfer_id actor act : string)
  (utcnow : datetime) : M Transfer :=
  current_user <-- get_current_user actor ;;
  approve_transfer transfer_id (mkTransferApproval act) utcnow current_user.

Definition get_sale (sale_id : string) (current_user : User) : M Sale :=
  sale <-- sales_find_one (sale_id_is sale_id) ;;
  match sale with
  | None => raise (mkHTTPException 404 "Sale not found")
  | Some sale => ret sale
  end.

Definition read_sale (actor sale_id : string) : M Sale :=
  current_user <-- get_current_user actor ;;
  get_sale sale_id current_user.

(** Observations. *)

Definition user_of (db : DB) (uid : string) : option User :=
  find_one (user_id_is uid) (users db).

Definition balance_of (db : DB) (uid : string) : float :=
  match user_of db uid with
  | Some u => get_cash_balance u
  | None => 0%float
  end.

Definition transfer_of (db : DB) (tid : string) : option Transfer :=
  find_one (transfer_id_is tid) (transfers db).

Definition sale_of (db : DB) (sid : string) : option Sale :=
  find_one (sale_id_is sid) (sales db).


(** The number a float stands for, as a fraction in lowest terms;
    nothing for an infinity or NaN. *)
Definition real_value (x : float) : option QArith_base.Q :=
  match FloatOps.Prim2SF x with
  | SpecFloat.S754_zero _ => Some (QArith_base.inject_Z 0)
  | SpecFloat.S754_finite s m e =>
    let n := if s then Z.neg m else Z.pos m in
    Some (Qreduction.Qred
            (if 0 <=? e then QArith_base.inject_Z (n * 2 ^ e)
             else QArith_base.Qmake n (Z.to_pos (2 ^ (- e)))))
  | _ => None
  end.

(** *** Raw materials and production

    The same for the two inventory handlers that write quantities.
    [RawMaterialCreate] is typed by the framework; an entry of
    [raw_materials_used] is not: it is a free [dict], of which the
    handler reads two keys, each of which may be missing and may hold
    a value of any JSON type.

    Under [material_name], a string is the name asked for.  Any other
    value goes into the filter as it is, and it is the database that
    makes something of it - a comparison that no stored name meets, a
    query of its own, or an error: [name_other] carries the filter the
    database makes of the value, if it makes one.

    Under [quantity_used], a number can be negated: a float, or an
    int (a bool counts as the int 1 or 0).  Anything else - a string,
    null, a list, a dict - cannot, and unary minus raises a
    [TypeError].  The database takes ints of 64 bits only, and adds an
    int to a stored double at its double value.

    Every exception that is not an [HTTPException] is answered with a
    500. *)

Record RawMaterialCreate := mkRawMaterialCreate {
  rc_material_name : string;
  rc_quantity : float;
  rc_unit : string;
  rc_unit_price : float;
  rc_supplier_name : string;
  rc_notes : option string
}.

Record RawMaterial := mkRawMaterial {
  rm_id : string;
  rm_material_name : string;
  rm_quantity : float;
  rm_unit : string;
  rm_unit_price : float;
  rm_supplier_name : string;
  rm_added_by : string;
  rm_added_by_name : string;
  rm_notes : option string;
  rm_created_at : datetime
}.

Inductive NameValue :=
| name_string (s : string)
| name_other (query : option (RawMaterial -> bool)).

Inductive QuantityValue :=
| quantity_float (x : float)
| quantity_int (n : Z)
| quantity_other.

Record MaterialUse := mkMaterialUse {
  mu_material_name : option NameValue;
  mu_quantity_used : option QuantityValue
}.

Record ProductionCreate := mkProductionCreate {
  pc_product_name : string;
  pc_quantity : float;
  pc_unit : string;
  pc_raw_materials_used : list MaterialUse;
  pc_workers : list string;
  pc_notes : option string
}.

Record Production := mkProduction {
  pr_id : string;
  pr_production_number : string;
  pr_product_name : string;
  pr_quantity : float;
  pr_unit : string;
  pr_raw_materials_used : list MaterialUse;
  pr_workers : list string;
  pr_status : string;
  pr_created_by : string;
  pr_created_by_name : string;
  pr_notes : option string;
  pr_created_at : datetime;
  pr_completed_at : option datetime
}.

Record Inventory := mkInventory {
  production : list Production;
  raw_materials : list RawMaterial
}.

Definition material_name_is (x : string) (m : RawMaterial) : bool :=
  String.eqb (rm_material_name m) x.

(** [{"material_name": value}]. *)
Definition filter_of (name : NameValue) : option (RawMaterial -> bool) :=
  match name with
  | name_string s => Some (material_name_is s)
  | name_other query => query
  end.

(** [{"$inc": {"quantity": delta}}]. *)
Definition inc_quantity (delta : float) (m : RawMaterial) : RawMaterial :=
  mkRawMaterial (rm_id m) (rm_material_name m)
                (PrimFloat.add (rm_quantity m) delta)
                (rm_unit m) (rm_unit_price m) (rm_supplier_name m)
                (rm_added_by m) (rm_added_by_name m) (rm_notes m)
                (rm_created_at m).

Definition stored_material (m : RawMaterial) : RawMaterial :=
  mkRawMaterial (rm_id m) (rm_material_name m) (rm_quantity m) (rm_unit m)
                (rm_unit_price m) (rm_supplier_name m) (rm_added_by m)
                (rm_added_by_name m) (rm_notes m)
                (bson_datetime (rm_created_at m)).

Definition stored_production (p : Production) : Production :=
  mkProduction (pr_id p) (pr_production_number p) (pr_product_name p)
               (pr_quantity p) (pr_unit p) (pr_raw_materials_used p)
               (pr_workers p) (pr_status p) (pr_created_by p)
               (pr_created_by_name p) (pr_notes p)
               (bson_datetime (pr_created_at p))
               (option_map bson_datetime (pr_completed_at p)).

(** The ints the database takes. *)
Definition int64 (n : Z) : bool :=
  (- 2 ^ 63 <=? n) && (n <? 2 ^ 63).

(** The double nearest to an int. *)
Definition float_of_int (n : Z) : float :=
  FloatOps.SF2Prim
    (SpecFloat.binary_normalize FloatOps.prec FloatOps.emax n 0 false).

(** Whether [insert_one] can write the entry. *)
Definition encodable (material : MaterialUse) : bool :=
  match mu_quantity_used material with
  | Some (quantity_int n) => int64 n
  | _ => true
  end.

(** [-material["quantity_used"]], as the increment the database
    applies; nothing when the minus or the encoding of its result
    fails. *)
Definition negated (quantity_used : QuantityValue) : option float :=
  match quantity_used with
  | quantity_float x => Some (PrimFloat.opp x)
  | quantity_int n =>
    if int64 (- n) then Some (float_of_int (- n)) else None
  | quantity_other => None
  end.

(** The loop of [create_production] over [raw_materials_used]: the
    first entry that cannot be applied ends the request, and what the
    entries before it have done stays done. *)
Fixpoint use_raw_materials (materials : list MaterialUse)
  (stock : list RawMaterial) : Result unit * list RawMaterial :=
  match materials with
  | [] => (Ok tt, stock)
  | material :: rest =>
    match mu_material_name material with
    | None => (Raise (mkHTTPException 500 "Internal Server Error"), stock)
    | Some name =>
      match mu_quantity_used material with
      | None => (Raise (mkHTTPException 500 "Internal Server Error"), stock)
      | Some quantity_used =>
        match negated quantity_used, filter_of name with
        | Some delta, Some query =>
          use_raw_materials rest (update_one query (inc_quantity delta) stock)
        | _, _ =>
          (Raise (mkHTTPException 500 "Internal Server Error"), stock)
        end
      end
    end
  end.

Definition create_production (production_data : ProductionCreate)
  (uuid4 : string) (utcnow : datetime) (current_user : User)
  (inv : Inventory) : Result Production * Inventory :=
  let count := (count_documents (production inv) + 1)%nat in
  let production_number := "PROD-" ++ format_06d count in
  let production_id := uuid4 in
  let production_dict :=
    mkProduction production_id production_number
                 (pc_product_name production_data)
                 (pc_quantity production_data) (pc_unit production_data)
                 (pc_raw_materials_used production_data)
                 (pc_workers production_data) "in_progress"
                 (u_id current_user) (u_name current_user)
                 (pc_notes production_data) utcnow None in
  if negb (forallb encodable (pc_raw_materials_used production_data))
  then (Raise (mkHTTPException 500 "Internal Server Error"), inv)
  else
    let stored :=
      insert_one (stored_production production_dict) (production inv) in
    match use_raw_materials (pc_raw_materials_used production_data)
                            (raw_materials inv) with
    | (Ok _, stock) => (Ok production_dict, mkInventory stored stock)
    | (Raise e, stock) => (Raise e, mkInventory stored stock)
    end.

Definition create_raw_material (material_data : RawMaterialCreate)
  (uuid4 : string) (utcnow : datetime) (current_user : User)
  (inv : Inventory) : Result RawMaterial * Inventory :=
  let material_id := uuid4 in
  let material_dict :=
    mkRawMaterial material_id (rc_material_name material_data)
                  (rc_quantity material_data) (rc_unit material_data)
                  (rc_unit_price material_data)
                  (rc_supplier_name material_data) (u_id current_user)
                  (u_name current_user) (rc_notes material_data) utcnow in
  match find_one (material_name_is (rc_material_name material_data))
                 (raw_materials inv) with
  | Some _ =>
    let stock :=
      update_one (material_name_is (rc_material_name material_data))
                 (inc_quantity (rc_quantity material_data))
                 (raw_materials inv) in
    match find_one (material_name_is (rc_material_name material_data))
                   stock with
    | None => (Raise (mkHTTPException 500 "Internal Server Error"),
               mkInventory (production inv) stock)
    | Some updated => (Ok updated, mkInventory (production inv) stock)
    end
  | None =>
    (Ok material_dict,
     mkInventory (production inv)
                 (insert_one (stored_material material_dict)
                             (raw_materials inv)))
  end.

Definition material_of (inv : Inventory) (name : string)
  : option RawMaterial :=
  find_one (material_name_is name) (raw_materials inv).

(** A raw material without its quantity. *)
Definition material_core (m : RawMaterial) :=
  (rm_id m, rm_material_name m, rm_unit m, rm_unit_price m, rm_supplier_name m,
   rm_added_by m, rm_added_by_name m, rm_notes m, rm_created_at m).



(** Example data: 2^53 is where binary64 stops telling neighbouring
    whole numbers apart. *)
Definition two_53 : float := 9007199254740992%float.

Definition manager (id : string) (balance : float) : User :=
  mkUser id ("Manager " ++ id) (id ++ "@example.com") "bcrypt-hash" "manager"
         (Some balance) 0.

(** M1 holds 100, M2 nothing, M3 holds 40. *)
Definition db_managers : DB :=
  mkDB [manager "M1" 100; manager "M2" 0; manager "M3" 40] [] [] [].



(** A credit sale of 2^53 + 2, on which M2 has collected 2^53. *)
Definition credit_sale_large : SaleCreate :=
  mkSaleCreate "Acme" [mkSaleItem "bricks" 1 9007199254740994 9007199254740994]
               9007199254740994 "credit" "M1" None.

Definition db_sold : DB :=
  snd (record_payment "S1" two_53 "M2" None "P1" 1700000000000007
    (snd (record_sale "M1" credit_sale_large "S1" 1700000000000006
                      db_managers))).

(** A credit sale of 200, nothing paid yet. *)
Definition credit_sale_200 : SaleCreate :=
  mkSaleCreate "Acme" [mkSaleItem "bricks" 20 10 200] 200 "credit" "M1" None.

Definition db_credit_200 : DB :=
  snd (record_sale "M1" credit_sale_200 "S1" 1700000000000006 db_managers).

Definition cash_sale_1 : SaleCreate :=
  mkSaleCreate "Bolt" [mkSaleItem "tile" 1 1 1] 1 "cash" "M2" None.

Definition cash_sale_100 : SaleCreate :=
  mkSaleCreate "Bolt" [mkSaleItem "tiles" 10 10 100] 100 "cash" "M1" None.

(** M1 holds nothing, M2 holds 2^53. *)
Definition db_tills : DB :=
  mkDB [manager "M1" 0; manager "M2" two_53] [] [] [].

(** A stock of cement and sand, and a batch that asks for more sand
    than there is. *)
Definition inv_stocked : Inventory :=
  mkInventory []
    [mkRawMaterial "R1" "cement" 50 "bag" 7 "Lafarge" "M1" "Manager M1" None
                   1700000000001000;
     mkRawMaterial "R2" "sand" 10 "ton" 3 "Quarry" "M1" "Manager M1" None
                   1700000000002000].

Definition batch_of_bricks : ProductionCreate :=
  mkProductionCreate "bricks" 1000 "piece"
    [mkMaterialUse (Some (name_string "cement")) (Some (quantity_int 20));
     mkMaterialUse (Some (name_string "sand")) (Some (quantity_float 15.5));
     mkMaterialUse (Some (name_string "lime")) (Some (quantity_int 5))]
    ["Asha"; "Ravi"] None.

(** The second entry gives its quantity as a string. *)
Definition batch_with_bad_entry : ProductionCreate :=
  mkProductionCreate "tiles" 200 "piece"
    [mkMaterialUse (Some (name_string "cement")) (Some (quantity_int 20));
     mkMaterialUse (Some (name_string "sand")) (Some quantity_other);
     mkMaterialUse (Some (name_string "cement")) (Some (quantity_int 5))]
    ["Asha"] None.

End Float64.

(** ** Collections: lookup after update and insertion *)

Section CollectionFacts.
Context {A : Type}.
Implicit Types (p q : A -> bool) (f : A -> A) (c : list A).

Lemma find_one_holds p c x : find_one p c = Some x -> p x = true.
Proof.
  induction c as [|d c IH]; simpl; [discriminate|].
  destruct (p d) eqn:E; [|exact IH].
  intros [= <-]. exact E.
Qed.

Lemma find_one_In p c x : find_one p c = Some x -> In x c.
Proof.
  induction c as [|d c IH]; simpl; [discriminate|].
  destruct (p d); [intros [= <-]; now left | right; auto].
Qed.

Lemma find_one_update_one_same p f c :
  (forall x, p (f x) = p x) ->
  find_one p (update_one p f c) = option_map f (find_one p c).
Proof.
  intros Hpf. induction c as [|d c IH]; simpl; [reflexivity|].
  destruct (p d) eqn:E; simpl.
  - now rewrite Hpf, E.
  - now rewrite E.
Qed.

Lemma find_one_update_one_other p q f c :
  (forall x, q (f x) = q x) ->
  (forall x, p x = true -> q x = false) ->
  find_one q (update_one p f c) = find_one q c.
Proof.
  intros Hqf Hpq. induction c as [|d c IH]; simpl; [reflexivity|].
  destruct (p d) eqn:E; simpl.
  - now rewrite Hqf, (Hpq d E).
  - now rewrite IH.
Qed.

Lemma find_one_insert_one p c d :
  find_one p (insert_one d c) =
  match find_one p c with
  | Some x => Some x
  | None => if p d then Some d else None
  end.
Proof.
  unfold insert_one. induction c as [|e c IH]; simpl; [reflexivity|].
  destruct (p e); [reflexivity | exact IH].
Qed.

Lemma update_one_length p f c :
  List.length (update_one p f c) = List.length c.
Proof.
  induction c as [|d c IH]; simpl; [reflexivity|].
  destruct (p d); simpl; congruence.
Qed.

Lemma update_one_absent p f c : find_one p c = None -> update_one p f c = c.
Proof.
  induction c as [|d c IH]; simpl; [reflexivity|].
  destruct (p d); [discriminate | intros H; now rewrite IH].
Qed.
End CollectionFacts.

(** ** Balances under [$inc] *)

Lemma user_id_is_inc x d u : user_id_is x (inc_cash_balance d u) = user_id_is x u.
Proof. reflexivity. Qed.

Lemma user_id_is_disjoint a b :
  a <> b -> forall u, user_id_is a u = true -> user_id_is b u = false.
Proof.
  unfold user_id_is. intros Hab u Ha.
  apply String.eqb_eq in Ha. apply String.eqb_neq. congruence.
Qed.

Lemma transfer_id_is_set_decision x st now t :
  transfer_id_is x (set_decision st now t) = transfer_id_is x t.
Proof. reflexivity. Qed.

Lemma find_user_inc a b d us :
  find_one (user_id_is b) (update_one (user_id_is a) (inc_cash_balance d) us) =
  if String.eqb b a
  then option_map (inc_cash_balance d) (find_one (user_id_is b) us)
  else find_one (user_id_is b) us.
Proof.
  destruct (String.eqb_spec b a) as [->|Hne].
  - apply find_one_update_one_same. intros x. apply user_id_is_inc.
  - apply find_one_update_one_other.
    + intros x. apply user_id_is_inc.
    + apply user_id_is_disjoint. congruence.
Qed.

Lemma exists_after_inc a b d us :
  find_one (user_id_is b) us <> None ->
  find_one (user_id_is b) (update_one (user_id_is a) (inc_cash_balance d) us)
  <> None.
Proof.
  intros H. rewrite find_user_inc.
  destruct (String.eqb b a); [|exact H].
  destruct (find_one (user_id_is b) us); [discriminate | congruence].
Qed.

(** ** The dependency [get_current_user] *)

Lemma get_current_user_found actor u db :
  find_one (user_id_is actor) (users db) = Some u ->
  get_current_user actor db = (Ok u, db).
Proof.
  intros H. unfold get_current_user, bind, users_find_one, read. now rewrite H.
Qed.

Lemma get_current_user_missing actor db :
  find_one (user_id_is actor) (users db) = None ->
  get_current_user actor db = (Raise (mkHTTPException 404 "User not found"), db).
Proof.
  intros H. unfold get_current_user, bind, users_find_one, read. now rewrite H.
Qed.

Lemma found_user_id actor u us :
  find_one (user_id_is actor) us = Some u -> u_id u = actor.
Proof.
  intros H. apply find_one_holds in H. now apply String.eqb_eq in H.
Qed.

(** ** [approve_transfer]: the four paths *)

Lemma decide_transfer_not_found tid actor act now u db :
  find_one (user_id_is actor) (users db) = Some u ->
  transfer_of db tid = None ->
  decide_transfer tid actor act now db =
  (Raise (mkHTTPException 404 "Transfer not found"), db).
Proof.
  intros Hu Ht. unfold decide_transfer, bind.
  rewrite (get_current_user_found _ _ _ Hu).
  unfold approve_transfer, bind, transfers_find_one, read.
  unfold transfer_of in Ht. now rewrite Ht.
Qed.

Lemma decide_transfer_forbidden tid actor act now u t db :
  find_one (user_id_is actor) (users db) = Some u ->
  transfer_of db tid = Some t ->
  t_to_user_id t <> actor ->
  decide_transfer tid actor act now db =
  (Raise (mkHTTPException 403 "Only recipient can approve/reject"), db).
Proof.
  intros Hu Ht Hne. unfold decide_transfer, bind.
  rewrite (get_current_user_found _ _ _ Hu).
  unfold approve_transfer, bind, transfers_find_one, read.
  unfold transfer_of in Ht. rewrite Ht.
  rewrite (found_user_id _ _ _ Hu).
  apply String.eqb_neq in Hne. now rewrite Hne.
Qed.

Lemma decide_transfer_processed tid actor act now u t db :
  find_one (user_id_is actor) (users db) = Some u ->
  transfer_of db tid = Some t ->
  t_to_user_id t = actor ->
  t_status t <> "pending" ->
  decide_transfer tid actor act now db =
  (Raise (mkHTTPException 400 "Transfer already processed"), db).
Proof.
  intros Hu Ht Hto Hst. unfold decide_transfer, bind.
  rewrite (get_current_user_found _ _ _ Hu).
  unfold approve_transfer, bind, transfers_find_one, read.
  unfold transfer_of in Ht. rewrite Ht.
  rewrite (found_user_id _ _ _ Hu), Hto, String.eqb_refl.
  apply String.eqb_neq in Hst. now rewrite Hst.
Qed.

Lemma decide_transfer_pending tid actor act now u t db :
  find_one (user_id_is actor) (users db) = Some u ->
  transfer_of db tid = Some t ->
  t_to_user_id t = actor ->
  t_status t = "pending" ->
  decide_transfer tid actor act now db =
  (Ok (set_decision (act ++ "d") now t),
   mkDB (decided_users act t (users db)) (sales db) (credit_payments db)
        (update_one (transfer_id_is tid) (set_decision (act ++ "d") now)
                    (transfers db))).
Proof.
  intros Hu Ht Hto Hst. unfold decide_transfer, bind.
  rewrite (get_current_user_found _ _ _ Hu).
  unfold approve_transfer, bind, transfers_find_one, read.
  unfold transfer_of in Ht. rewrite Ht.
  rewrite (found_user_id _ _ _ Hu), Hto, String.eqb_refl, Hst.
  simpl negb. cbv iota.
  unfold transfers_update_one, users_update_one, write, ret, decided_users.
  simpl action.
  destruct (String.eqb act "approve") eqn:E; simpl; rewrite E; simpl;
    rewrite find_one_update_one_same, Ht, ?Hto
      by (intros; apply transfer_id_is_set_decision);
    reflexivity.
Qed.

(** A raised exception leaves the database as it was, whatever the
    arguments and whether or not the actor resolves. *)
Lemma decide_transfer_raise_keeps_db tid actor act now db e db' :
  decide_transfer tid actor act now db = (Raise e, db') -> db' = db.
Proof.
  destruct (find_one (user_id_is actor) (users db)) as [u|] eqn:Hu.
  - destruct (transfer_of db tid) as [t|] eqn:Ht.
    + destruct (String.eqb_spec (t_to_user_id t) actor) as [Hto|Hto].
      * destruct (String.eqb_spec (t_status t) "pending") as [Hst|Hst].
        -- rewrite (decide_transfer_pending _ _ _ _ _ _ _ Hu Ht Hto Hst).
           discriminate.
        -- rewrite (decide_transfer_processed _ _ _ _ _ _ _ Hu Ht Hto Hst).
           now intros [= _ <-].
      * rewrite (decide_transfer_forbidden _ _ _ _ _ _ _ Hu Ht Hto).
        now intros [= _ <-].
    + rewrite (decide_transfer_not_found _ _ _ _ _ _ Hu Ht). now intros [= _ <-].
  - unfold decide_transfer, bind. rewrite (get_current_user_missing _ _ Hu).
    now intros [= _ <-].
Qed.

Lemma decided_users_other act t us :
  act <> "approve" -> decided_users act t us = us.
Proof.
  intros H. unfold decided_users. apply String.eqb_neq in H. now rewrite H.
Qed.

Lemma append_last_inj (a b : string) (c c' : ascii) :
  a ++ String c "" = b ++ String c' "" -> a = b /\ c = c'.
Proof.
  revert b. induction a as [|x a IH]; intros [|y b]; simpl.
  - intros [= ->]. now split.
  - intros [= <- H]. destruct b; discriminate.
  - intros [= -> H]. destruct a; discriminate.
  - intros [= <- H]. destruct (IH _ H) as [-> ->]. now split.
Qed.

Lemma append_d_inj (a b : string) : a ++ "d" = b ++ "d" -> a = b.
Proof. intros H. now apply append_last_inj in H. Qed.

Lemma append_d_not_pending (a : string) : a ++ "d" <> "pending".
Proof.
  change "pending" with ("pendin" ++ "g"). intros H.
  apply append_last_inj in H. destruct H as [_ H]. discriminate.
Qed.

(** ** Transfers: refused decisions *)

(** C3. For an acting user that resolves, a decision on a transfer
    that does not exist is refused with 404 (NotFound); on a transfer
    addressed to somebody else, with 403 (Forbidden); on the actor's
    own transfer whose status is not pending, with 400 "Transfer
    already processed" (InvalidState); the checks are made in this
    order.
    Every refusal, these three included, leaves the whole database -
    transfer records and balances - as it was, so deciding an already
    decided transfer again moves no cash. *)
Theorem decide_transfer_refusals tid actor act now u db :
  find_one (user_id_is actor) (users db) = Some u ->
  (transfer_of db tid = None ->
   decide_transfer tid actor act now db =
   (Raise (mkHTTPException 404 "Transfer not found"), db)) /\
  (forall t, transfer_of db tid = Some t -> t_to_user_id t <> actor ->
   decide_transfer tid actor act now db =
   (Raise (mkHTTPException 403 "Only recipient can approve/reject"), db)) /\
  (forall t, transfer_of db tid = Some t -> t_to_user_id t = actor ->
   t_status t <> "pending" ->
   decide_transfer tid actor act now db =
   (Raise (mkHTTPException 400 "Transfer already processed"), db)) /\
  (forall e db', decide_transfer tid actor act now db = (Raise e, db') ->
   db' = db).
Proof.
  intros Hu. split; [|split; [|split]].
  - intros Ht. now apply decide_transfer_not_found with (u := u).
  - intros t Ht Hne. now apply decide_transfer_forbidden with (u := u) (t := t).
  - intros t Ht Hto Hst.
    now apply decide_transfer_processed with (u := u) (t := t).
  - intros e db'. apply decide_transfer_raise_keeps_db.
Qed.

Lemma decide_transfer_refusals_witness :
  decide_transfer "T9" "M2" "approve" 40 db_approved_once =
    (Raise (mkHTTPException 404 "Transfer not found"), db_approved_once) /\
  decide_transfer "T2" "M3" "approve" 40 db_approved_once =
    (Raise (mkHTTPException 403 "Only recipient can approve/reject"),
     db_approved_once) /\
  decide_transfer "T1" "M2" "approve" 40 db_approved_once =
    (Raise (mkHTTPException 400 "Transfer already processed"),
     db_approved_once).
Proof.
  split; [|split].
  - apply (decide_transfer_refusals "T9" "M2" "approve" 40 (manager "M2" 60)
             db_approved_once eq_refl).
    reflexivity.
  - apply (proj1 (proj2 (decide_transfer_refusals "T2" "M3" "approve" 40
                           (manager "M3" 0) db_approved_once eq_refl)))
      with (t := mkTransfer "T2" "M1" "Manager M1" "M2" "Manager M2" 60
                            "till float" "pending" 11 None).
    + reflexivity.
    + discriminate.
  - apply (proj1 (proj2 (proj2 (decide_transfer_refusals "T1" "M2" "approve" 40
                                  (manager "M2" 60) db_approved_once eq_refl))))
      with (t := mkTransfer "T1" "M1" "Manager M1" "M2" "Manager M2" 60
                            "till float" "approved" 10 (Some 20)).
    + reflexivity.
    + reflexivity.
    + discriminate.
Defined.

(** ** Transfers: the status written by a decision *)

(** C9. When the recipient rejects a pending transfer, the approval
    time is stamped and the users collection is untouched, but the
    status written is the action with a "d" appended, "rejectd", which
    is not "rejected". *)
Theorem reject_writes_rejectd tid actor now u t db :
  find_one (user_id_is actor) (users db) = Some u ->
  transfer_of db tid = Some t ->
  t_status t = "pending" ->
  t_to_user_id t = actor ->
  exists t' db',
    decide_transfer tid actor "reject" now db = (Ok t', db') /\
    transfer_of db' tid = Some t' /\
    t_status t' = "rejectd" /\
    t_status t' <> "rejected" /\
    t_approved_at t' = Some now /\
    users db' = users db.
Proof.
  intros Hu Ht Hst Hto.
  eexists; eexists; split.
  { apply (decide_transfer_pending _ _ _ _ _ _ _ Hu Ht Hto Hst). }
  unfold transfer_of; simpl transfers; simpl users.
  rewrite find_one_update_one_same
    by (intros; apply transfer_id_is_set_decision).
  unfold transfer_of in Ht. rewrite Ht.
  repeat split. discriminate.
Qed.

Lemma reject_writes_rejectd_witness :
  exists t' db',
    decide_transfer "T2" "M2" "reject" 30 db_approved_once = (Ok t', db') /\
    t_status t' = "rejectd" /\
    balance_of db' "M1" = 40 /\
    balance_of db' "M2" = 60.
Proof.
  destruct (reject_writes_rejectd "T2" "M2" 30 (manager "M2" 60)
              (mkTransfer "T2" "M1" "Manager M1" "M2" "Manager M2" 60
                          "till float" "pending" 11 None)
              db_approved_once eq_refl eq_refl eq_refl eq_refl)
    as (t' & db' & Hrun & _ & Hst & _ & _ & Husers).
  exists t', db'. unfold balance_of. rewrite Husers.
  repeat split; [exact Hrun | exact Hst].
Defined.

(** C2. From pending, a rejection by the recipient reaches the status
    "rejectd", which is neither "approved" nor "rejected". *)
Theorem pending_reaches_rejectd :
  option_map t_status (transfer_of db_requested "T1") = Some "pending" /\
  exists t' db',
    decide_transfer "T1" "M2" "reject" 20 db_requested = (Ok t', db') /\
    transfer_of db' "T1" = Some t' /\
    t_status t' = "rejectd" /\
    t_status t' <> "approved" /\
    t_status t' <> "rejected".
Proof.
  split; [reflexivity|].
  eexists; eexists; split; [vm_compute; reflexivity|].
  repeat split; discriminate.
Qed.

(** C10, as stated, fails: the action "rejecte" is neither "approve"
    nor "reject", and the status it writes is "rejected". *)
Lemma rejecte_becomes_rejected :
  "rejecte" <> "approve" /\ "rejecte" <> "reject" /\
  exists t' db',
    decide_transfer "T1" "M2" "rejecte" 20 db_requested = (Ok t', db') /\
    transfer_of db' "T1" = Some t' /\
    t_status t' = "rejected".
Proof.
  split; [discriminate|]. split; [discriminate|].
  eexists; eexists; split; [vm_compute; reflexivity|].
  split; reflexivity.
Qed.

(** C10, amended. When the recipient decides a pending transfer with
    an action other than "approve", the call succeeds, the status
    written is the action with a "d" appended, the approval time is
    stamped and the users collection is untouched.  That status is
    never "pending" and never "approved"; it is "rejected" exactly for
    the action "rejecte". *)
Theorem other_action_appends_d tid actor act now u t db :
  find_one (user_id_is actor) (users db) = Some u ->
  transfer_of db tid = Some t ->
  t_status t = "pending" ->
  t_to_user_id t = actor ->
  act <> "approve" ->
  exists t' db',
    decide_transfer tid actor act now db = (Ok t', db') /\
    transfer_of db' tid = Some t' /\
    t_status t' = act ++ "d" /\
    t_approved_at t' = Some now /\
    users db' = users db /\
    t_status t' <> "pending" /\
    t_status t' <> "approved" /\
    (t_status t' = "rejected" <-> act = "rejecte").
Proof.
  intros Hu Ht Hst Hto Hact.
  eexists; eexists; split.
  { apply (decide_transfer_pending _ _ _ _ _ _ _ Hu Ht Hto Hst). }
  unfold transfer_of; simpl transfers; simpl users.
  rewrite find_one_update_one_same
    by (intros; apply transfer_id_is_set_decision).
  unfold transfer_of in Ht. rewrite Ht. simpl.
  split; [reflexivity|]. split; [reflexivity|]. split; [reflexivity|].
  split; [now apply decided_users_other|].
  split; [|split].
  - apply append_d_not_pending.
  - intros H. apply Hact. apply append_d_inj. exact H.
  - split; [intros H; apply append_d_inj; exact H | intros ->; reflexivity].
Qed.

Lemma other_action_appends_d_witness :
  "cancel" <> "approve" /\
  exists t' db',
    decide_transfer "T1" "M2" "cancel" 20 db_requested = (Ok t', db') /\
    t_status t' = "canceld" /\
    t_approved_at t' = Some 20 /\
    users db' = users db_requested.
Proof.
  split; [discriminate|].
  destruct (other_action_appends_d "T1" "M2" "cancel" 20 (manager "M2" 0)
              (mkTransfer "T1" "M1" "Manager M1" "M2" "Manager M2" 60
                          "till float" "pending" 10 None)
              db_requested eq_refl eq_refl eq_refl eq_refl)
    as (t' & db' & Hrun & _ & Hst & Hat & Husers & _).
  - discriminate.
  - exists t', db'. repeat split; assumption.
Defined.

(** ** Transfers: requests *)

Lemma balance_of_found uid u db :
  find_one (user_id_is uid) (users db) = Some u ->
  balance_of db uid = get_cash_balance u.
Proof. intros H. unfold balance_of, balance_in. now rewrite H. Qed.

Lemma request_transfer_insufficient sender recipient amount reason uuid now u db :
  find_one (user_id_is sender) (users db) = Some u ->
  balance_of db sender < amount ->
  request_transfer sender recipient amount reason uuid now db =
  (Raise (mkHTTPException 400 "Insufficient cash balance"), db).
Proof.
  intros Hu Hlt. rewrite (balance_of_found _ _ _ Hu) in Hlt.
  unfold request_transfer, bind. rewrite (get_current_user_found _ _ _ Hu).
  unfold create_transfer_request. cbn [tr_amount].
  apply Z.ltb_lt in Hlt. now rewrite Hlt.
Qed.

Lemma request_transfer_no_recipient sender recipient amount reason uuid now u db :
  find_one (user_id_is sender) (users db) = Some u ->
  amount <= balance_of db sender ->
  find_one (user_id_is recipient) (users db) = None ->
  request_transfer sender recipient amount reason uuid now db =
  (Raise (mkHTTPException 404 "Recipient not found"), db).
Proof.
  intros Hu Hle Hr. rewrite (balance_of_found _ _ _ Hu) in Hle.
  unfold request_transfer, bind. rewrite (get_current_user_found _ _ _ Hu).
  unfold create_transfer_request. cbn [tr_amount tr_to_user_id].
  apply Z.ltb_ge in Hle. rewrite Hle.
  unfold bind, users_find_one, read. now rewrite Hr.
Qed.

Lemma request_transfer_created sender recipient amount reason uuid now u r db :
  find_one (user_id_is sender) (users db) = Some u ->
  amount <= balance_of db sender ->
  find_one (user_id_is recipient) (users db) = Some r ->
  request_transfer sender recipient amount reason uuid now db =
  (Ok (mkTransfer uuid sender (u_name u) recipient (u_name r) amount reason
                  "pending" now None),
   mkDB (users db) (sales db) (credit_payments db)
        (transfers db ++
         [mkTransfer uuid sender (u_name u) recipient (u_name r) amount reason
                     "pending" now None])%list).
Proof.
  intros Hu Hle Hr. rewrite (balance_of_found _ _ _ Hu) in Hle.
  unfold request_transfer, bind. rewrite (get_current_user_found _ _ _ Hu).
  unfold create_transfer_request. cbn [tr_amount tr_to_user_id tr_reason].
  apply Z.ltb_ge in Hle. rewrite Hle.
  unfold bind, users_find_one, read. rewrite Hr.
  rewrite (found_user_id _ _ _ Hu). reflexivity.
Qed.

(** C4. For a sender that resolves: a request for more than the
    sender's balance is refused with 400 "Insufficient cash balance"
    (InsufficientBalance); otherwise a request to a recipient that
    does not exist is refused with 404 (NotFound) - the balance is
    checked first, so a missing recipient is always refused, with one
    of the two; otherwise the request
    succeeds, the transfers collection gains exactly the returned
    record, which is pending, and the users collection - every
    balance - is what it was.  A refusal leaves the database as it
    was. *)
Theorem request_transfer_outcomes sender recipient amount reason uuid now u db :
  find_one (user_id_is sender) (users db) = Some u ->
  (balance_of db sender < amount ->
   request_transfer sender recipient amount reason uuid now db =
   (Raise (mkHTTPException 400 "Insufficient cash balance"), db)) /\
  (find_one (user_id_is recipient) (users db) = None ->
   request_transfer sender recipient amount reason uuid now db =
   (Raise (if balance_of db sender <? amount
           then mkHTTPException 400 "Insufficient cash balance"
           else mkHTTPException 404 "Recipient not found"), db)) /\
  (forall t db',
   request_transfer sender recipient amount reason uuid now db = (Ok t, db') ->
   transfers db' = (transfers db ++ [t])%list /\
   t_status t = "pending" /\
   t_approved_at t = None /\
   t_from_user_id t = sender /\
   t_to_user_id t = recipient /\
   t_amount t = amount /\
   users db' = users db /\
   sales db' = sales db /\
   credit_payments db' = credit_payments db) /\
  (amount <= balance_of db sender ->
   find_one (user_id_is recipient) (users db) <> None ->
   exists t db',
     request_transfer sender recipient amount reason uuid now db = (Ok t, db')) /\
  (forall e db',
   request_transfer sender recipient amount reason uuid now db = (Raise e, db') ->
   db' = db).
Proof.
  intros Hu.
  assert (Hcases :
    (balance_of db sender < amount /\
     request_transfer sender recipient amount reason uuid now db =
     (Raise (mkHTTPException 400 "Insufficient cash balance"), db)) \/
    (amount <= balance_of db sender /\
     find_one (user_id_is recipient) (users db) = None /\
     request_transfer sender recipient amount reason uuid now db =
     (Raise (mkHTTPException 404 "Recipient not found"), db)) \/
    (amount <= balance_of db sender /\
     exists r, find_one (user_id_is recipient) (users db) = Some r /\
     request_transfer sender recipient amount reason uuid now db =
     (Ok (mkTransfer uuid sender (u_name u) recipient (u_name r) amount reason
                     "pending" now None),
      mkDB (users db) (sales db) (credit_payments db)
           (transfers db ++
            [mkTransfer uuid sender (u_name u) recipient (u_name r) amount
                        reason "pending" now None])%list))).
  { destruct (Z.lt_ge_cases (balance_of db sender) amount) as [Hlt|Hge].
    - left. split; [exact Hlt|]. now apply request_transfer_insufficient with u.
    - right. destruct (find_one (user_id_is recipient) (users db)) as [r|] eqn:Hr.
      + right. split; [exact Hge|]. exists r. split; [reflexivity|].
        now apply request_transfer_created.
      + left. split; [exact Hge|]. split; [reflexivity|].
        now apply request_transfer_no_recipient with u. }
  split; [|split; [|split; [|split]]].
  - intros Hlt. now apply request_transfer_insufficient with u.
  - intros Hr. destruct (Z.ltb_spec (balance_of db sender) amount).
    + now apply request_transfer_insufficient with u.
    + now apply request_transfer_no_recipient with u.
  - intros t db' Hrun.
    destruct Hcases as [[_ H]|[(_ & _ & H)|(_ & r & _ & H)]];
      rewrite H in Hrun; try discriminate.
    injection Hrun as <- <-. repeat split.
  - intros Hge Hr.
    destruct Hcases as [[Hlt _]|[(_ & Hn & _)|(_ & r & _ & H)]];
      [lia | congruence | eauto].
  - intros e db' Hrun.
    destruct Hcases as [[_ H]|[(_ & _ & H)|(_ & r & _ & H)]];
      rewrite H in Hrun; try discriminate; now injection Hrun as _ <-.
Qed.

Lemma request_transfer_outcomes_witness :
  request_transfer "M1" "M2" 150 "till float" "T3" 12 db_managers =
    (Raise (mkHTTPException 400 "Insufficient cash balance"), db_managers) /\
  request_transfer "M1" "M9" 60 "till float" "T3" 12 db_managers =
    (Raise (mkHTTPException 404 "Recipient not found"), db_managers) /\
  exists t db',
    request_transfer "M1" "M2" 60 "till float" "T3" 12 db_managers =
      (Ok t, db') /\
    transfers db' = [t] /\ t_status t = "pending" /\
    users db' = users db_managers.
Proof.
  pose proof (request_transfer_outcomes "M1" "M2" 150 "till float" "T3" 12
                (manager "M1" 100) db_managers eq_refl) as (H1 & _).
  pose proof (request_transfer_outcomes "M1" "M9" 60 "till float" "T3" 12
                (manager "M1" 100) db_managers eq_refl) as (_ & H2 & _).
  pose proof (request_transfer_outcomes "M1" "M2" 60 "till float" "T3" 12
                (manager "M1" 100) db_managers eq_refl)
    as (_ & _ & H3 & H4 & _).
  split; [apply H1; reflexivity|].
  split; [apply H2; reflexivity|].
  destruct H4 as (t & db' & Hrun).
  - vm_compute. discriminate.
  - vm_compute. discriminate.
  - exists t, db'. destruct (H3 t db' Hrun) as (Ht & Hst & _ & _ & _ & _ & Hus & _).
    repeat split; assumption.
Defined.

(** C5, as stated, fails: M2 holds 0 and asks to hand -5 over to M3;
    the request is accepted and a transfer of amount -5 is stored. *)
Lemma negative_amount_is_accepted :
  -5 <= 0 /\
  exists t db',
    request_transfer "M2" "M3" (-5) "refund" "T3" 12 db_managers = (Ok t, db') /\
    In t (transfers db') /\
    t_amount t = -5 /\
    ~ (t_amount t > 0).
Proof.
  split; [lia|].
  eexists; eexists; split; [vm_compute; reflexivity|].
  split; [now left|]. split; [reflexivity|]. simpl. lia.
Qed.

(** C5, amended. The sign of the amount is never examined: a request
    for an amount that is zero or negative is treated like any other.
    From a sender whose balance is at least the amount, to a recipient
    that exists, it succeeds and stores a pending transfer with that
    amount; and whatever the arguments, the only refusals are 400
    "Insufficient cash balance" and 404 "Recipient not found". *)
Theorem request_transfer_ignores_sign sender recipient amount reason uuid now
  u r db :
  amount <= 0 ->
  find_one (user_id_is sender) (users db) = Some u ->
  find_one (user_id_is recipient) (users db) = Some r ->
  amount <= balance_of db sender ->
  (exists t db',
     request_transfer sender recipient amount reason uuid now db = (Ok t, db') /\
     transfers db' = (transfers db ++ [t])%list /\
     t_status t = "pending" /\
     t_amount t = amount /\
     ~ (t_amount t > 0)) /\
  (forall recipient' amount' e db',
     request_transfer sender recipient' amount' reason uuid now db
       = (Raise e, db') ->
     e = mkHTTPException 400 "Insufficient cash balance" \/
     e = mkHTTPException 404 "Recipient not found").
Proof.
  intros Hneg Hu Hr Hle. split.
  - eexists; eexists; split.
    { apply (request_transfer_created _ _ _ _ _ _ _ _ _ Hu Hle Hr). }
    simpl. repeat split. lia.
  - intros recipient' amount' e db' Hrun.
    destruct (Z.lt_ge_cases (balance_of db sender) amount') as [Hlt|Hge].
    + rewrite (request_transfer_insufficient _ _ _ _ _ _ _ _ Hu Hlt) in Hrun.
      left. congruence.
    + destruct (find_one (user_id_is recipient') (users db)) as [r'|] eqn:Hr'.
      * rewrite (request_transfer_created _ _ _ _ _ _ _ _ _ Hu Hge Hr') in Hrun.
        discriminate.
      * rewrite (request_transfer_no_recipient _ _ _ _ _ _ _ _ Hu Hge Hr')
          in Hrun.
        right. congruence.
Qed.

Lemma request_transfer_ignores_sign_witness :
  0 <= 0 /\
  exists t db',
    request_transfer "M2" "M3" 0 "nothing" "T3" 12 db_managers = (Ok t, db') /\
    t_status t = "pending" /\
    t_amount t = 0.
Proof.
  split; [lia|].
  destruct (request_transfer_ignores_sign "M2" "M3" 0 "nothing" "T3" 12
              (manager "M2" 0) (manager "M3" 0) db_managers)
    as ((t & db' & Hrun & _ & Hst & Hamt & _) & _).
  - lia.
  - reflexivity.
  - reflexivity.
  - vm_compute. discriminate.
  - exists t, db'. repeat split; assumption.
Defined.

(** ** Credit payments *)

Lemma record_payment_not_found sid amount collector notes uuid now u db :
  find_one (user_id_is collector) (users db) = Some u ->
  sale_of db sid = None ->
  record_payment sid amount collector notes uuid now db =
  (Raise (mkHTTPException 404 "Sale not found"), db).
Proof.
  intros Hu Hs. unfold record_payment, bind.
  rewrite (get_current_user_found _ _ _ Hu).
  unfold record_credit_payment, bind, sales_find_one, read. cbn [cp_sale_id].
  unfold sale_of in Hs. now rewrite Hs.
Qed.

Lemma record_payment_not_credit sid amount collector notes uuid now u s db :
  find_one (user_id_is collector) (users db) = Some u ->
  sale_of db sid = Some s ->
  s_payment_type s <> "credit" ->
  record_payment sid amount collector notes uuid now db =
  (Raise (mkHTTPException 400 "Sale is not a credit sale"), db).
Proof.
  intros Hu Hs Hty. unfold record_payment, bind.
  rewrite (get_current_user_found _ _ _ Hu).
  unfold record_credit_payment, bind, sales_find_one, read. cbn [cp_sale_id].
  unfold sale_of in Hs. rewrite Hs.
  apply String.eqb_neq in Hty. now rewrite Hty.
Qed.

Lemma record_payment_applied sid amount collector notes uuid now u s db :
  find_one (user_id_is collector) (users db) = Some u ->
  sale_of db sid = Some s ->
  s_payment_type s = "credit" ->
  record_payment sid amount collector notes uuid now db =
  (Ok (mkCreditPaymentDoc uuid sid amount collector (u_name u) notes now),
   mkDB (update_one (user_id_is collector) (inc_cash_balance amount) (users db))
        (update_one (sale_id_is sid)
           (set_payment_state (s_paid_amount s + amount)
              (if s_total_amount s <=? s_paid_amount s + amount
               then "settled" else "partial"))
           (sales db))
        (credit_payments db ++
         [mkCreditPaymentDoc uuid sid amount collector (u_name u) notes now])%list
        (transfers db)).
Proof.
  intros Hu Hs Hty. unfold record_payment, bind.
  rewrite (get_current_user_found _ _ _ Hu).
  unfold record_credit_payment, bind, sales_find_one, read.
  cbn [cp_sale_id cp_amount cp_notes].
  unfold sale_of in Hs. rewrite Hs, Hty. simpl negb. cbv iota.
  rewrite (found_user_id _ _ _ Hu). reflexivity.
Qed.

(** ** Sales *)

Lemma record_sale_recorded actor sale_data uuid now u db :
  find_one (user_id_is actor) (users db) = Some u ->
  record_sale actor sale_data uuid now db =
  (Ok (sale_dict_of sale_data uuid now u (List.length (sales db))),
   mkDB (if String.eqb (sc_payment_type sale_data) "cash"
         then update_one (user_id_is actor)
                (inc_cash_balance (sc_total_amount sale_data)) (users db)
         else users db)
        (sales db ++
         [sale_dict_of sale_data uuid now u (List.length (sales db))])%list
        (credit_payments db) (transfers db)).
Proof.
  intros Hu. unfold record_sale, bind.
  rewrite (get_current_user_found _ _ _ Hu).
  unfold create_sale, bind, sales_count_documents, read, sales_insert_one,
    write, count_documents, sale_dict_of.
  rewrite (found_user_id _ _ _ Hu).
  destruct (String.eqb (sc_payment_type sale_data) "cash"); reflexivity.
Qed.

Lemma record_sale_unresolved actor sale_data uuid now db :
  find_one (user_id_is actor) (users db) = None ->
  record_sale actor sale_data uuid now db =
  (Raise (mkHTTPException 404 "User not found"), db).
Proof.
  intros Hu. unfold record_sale, bind.
  now rewrite (get_current_user_missing _ _ Hu).
Qed.

(** ** The status of a sale along an execution *)

Lemma Forall_update_one {A} (P : A -> Prop) p f (c : list A) x :
  find_one p c = Some x -> P (f x) -> Forall P c -> Forall P (update_one p f c).
Proof.
  intros Hx Hfx Hc. induction Hc as [|d c Hd Hc IH]; simpl in *; [constructor|].
  destruct (p d).
  - injection Hx as ->. now constructor.
  - constructor; [exact Hd | now apply IH].
Qed.

Lemma new_sale_sound sale_data uuid now u n :
  (sc_payment_type sale_data <> "cash" -> 0 < sc_total_amount sale_data) ->
  sale_sound (sale_dict_of sale_data uuid now u n).
Proof.
  intros Hpos. unfold sale_sound, status_follows_rule, spec_status_rule,
    sale_dict_of.
  cbn [s_paid_amount s_total_amount s_payment_type s_status].
  destruct (String.eqb_spec (sc_payment_type sale_data) "cash") as [Hcash|Hcash].
  - split; [intros Hcredit; rewrite Hcash in Hcredit; discriminate|].
    split; [|split]; [|lia | reflexivity].
    intros [_ Hcredit]. rewrite Hcash in Hcredit. discriminate.
  - specialize (Hpos Hcash). split; [lia|].
    split; [|split]; [reflexivity | lia | lia].
Qed.

Lemma paid_sale_sound s amount :
  0 < amount ->
  0 <= s_paid_amount s ->
  sale_sound
    (set_payment_state (s_paid_amount s + amount)
       (if s_total_amount s <=? s_paid_amount s + amount
        then "settled" else "partial") s).
Proof.
  intros Hpos Hpaid. unfold sale_sound, status_follows_rule, spec_status_rule.
  cbn [s_paid_amount s_total_amount s_payment_type s_status set_payment_state].
  split; [lia|].
  destruct (Z.leb_spec (s_total_amount s) (s_paid_amount s + amount)) as [Hle|Hgt].
  - split; [|split]; [intros [H _]; lia | lia | reflexivity].
  - split; [|split]; [intros [H _]; lia | reflexivity | lia].
Qed.

Lemma record_sale_keeps_sound actor sale_data uuid now db :
  (sc_payment_type sale_data <> "cash" -> 0 < sc_total_amount sale_data) ->
  Forall sale_sound (sales db) ->
  Forall sale_sound (sales (snd (record_sale actor sale_data uuid now db))).
Proof.
  intros Hpos Hdb.
  destruct (find_one (user_id_is actor) (users db)) as [u|] eqn:Hu.
  - rewrite (record_sale_recorded _ _ _ _ _ _ Hu). cbn [snd sales].
    apply Forall_app. split; [exact Hdb|].
    constructor; [now apply new_sale_sound | constructor].
  - now rewrite (record_sale_unresolved _ _ _ _ _ Hu).
Qed.

Lemma record_payment_keeps_sound sid amount collector notes uuid now db :
  0 < amount ->
  Forall sale_sound (sales db) ->
  Forall sale_sound
    (sales (snd (record_payment sid amount collector notes uuid now db))).
Proof.
  intros Hpos Hdb.
  destruct (find_one (user_id_is collector) (users db)) as [u|] eqn:Hu.
  - destruct (sale_of db sid) as [s|] eqn:Hs.
    + destruct (String.eqb_spec (s_payment_type s) "credit") as [Hty|Hty].
      * rewrite (record_payment_applied _ _ _ _ _ _ _ _ _ Hu Hs Hty).
        cbn [snd sales].
        apply Forall_update_one with (x := s); [exact Hs| |exact Hdb].
        apply paid_sale_sound; [exact Hpos|].
        apply find_one_In in Hs.
        rewrite Forall_forall in Hdb. now apply (Hdb s Hs).
      * now rewrite (record_payment_not_credit _ _ _ _ _ _ _ _ _ Hu Hs Hty).
    + now rewrite (record_payment_not_found _ _ _ _ _ _ _ _ Hu Hs).
  - unfold record_payment, bind. now rewrite (get_current_user_missing _ _ Hu).
Qed.

Lemma request_transfer_keeps_sales sender recipient amount reason uuid now db :
  sales (snd (request_transfer sender recipient amount reason uuid now db))
  = sales db.
Proof.
  destruct (find_one (user_id_is sender) (users db)) as [u|] eqn:Hu.
  - destruct (Z.lt_ge_cases (balance_of db sender) amount) as [Hlt|Hge].
    + now rewrite (request_transfer_insufficient _ _ _ _ _ _ _ _ Hu Hlt).
    + destruct (find_one (user_id_is recipient) (users db)) as [r|] eqn:Hr.
      * now rewrite (request_transfer_created _ _ _ _ _ _ _ _ _ Hu Hge Hr).
      * now rewrite (request_transfer_no_recipient _ _ _ _ _ _ _ _ Hu Hge Hr).
  - unfold request_transfer, bind.
    now rewrite (get_current_user_missing _ _ Hu).
Qed.

Lemma decide_transfer_keeps_sales tid actor act now db :
  sales (snd (decide_transfer tid actor act now db)) = sales db.
Proof.
  destruct (decide_transfer tid actor act now db) as [[t'|e] db'] eqn:Hrun.
  - destruct (find_one (user_id_is actor) (users db)) as [u|] eqn:Hu.
    + destruct (transfer_of db tid) as [t|] eqn:Ht.
      * destruct (String.eqb_spec (t_to_user_id t) actor) as [Hto|Hto].
        -- destruct (String.eqb_spec (t_status t) "pending") as [Hst|Hst].
           ++ rewrite (decide_transfer_pending _ _ _ _ _ _ _ Hu Ht Hto Hst)
                in Hrun.
              now injection Hrun as _ <-.
           ++ rewrite (decide_transfer_processed _ _ _ _ _ _ _ Hu Ht Hto Hst)
                in Hrun.
              discriminate.
        -- rewrite (decide_transfer_forbidden _ _ _ _ _ _ _ Hu Ht Hto) in Hrun.
           discriminate.
      * rewrite (decide_transfer_not_found _ _ _ _ _ _ Hu Ht) in Hrun.
        discriminate.
    + unfold decide_transfer, bind in Hrun.
      rewrite (get_current_user_missing _ _ Hu) in Hrun. discriminate.
  - now rewrite (decide_transfer_raise_keeps_db _ _ _ _ _ _ _ Hrun).
Qed.

Lemma billed_step_keeps_sound db db' :
  billed_step db db' ->
  Forall sale_sound (sales db) -> Forall sale_sound (sales db').
Proof.
  intros Hstep Hdb. destruct Hstep.
  - now apply record_sale_keeps_sound.
  - now apply record_payment_keeps_sound.
  - now rewrite request_transfer_keeps_sales.
  - now rewrite decide_transfer_keeps_sales.
Qed.

Lemma billed_run_keeps_sound db db' :
  billed_run db db' ->
  Forall sale_sound (sales db) -> Forall sale_sound (sales db').
Proof.
  intros Hrun Hdb. induction Hrun as [|db db' db'' _ IH Hstep]; [exact Hdb|].
  apply (billed_step_keeps_sound _ _ Hstep). now apply IH.
Qed.

(** C8, as stated, fails, in two ways.  A payment of 0 against a
    credit sale of 200 on which nothing was paid is accepted and
    stores the sale with paid amount 0 and status partial, where the
    rule asks for pending.  And a credit sale of total 0 is stored
    pending with paid amount 0, where the rule, its paid amount having
    reached its total, asks for settled. *)
Lemma unvalidated_amounts_break_rule :
  (exists p s db',
     record_payment "S1" 0 "M2" None "P1" 6 db_credit_sale = (Ok p, db') /\
     sale_of db' "S1" = Some s /\
     s_payment_type s = "credit" /\
     s_total_amount s = 200 /\
     s_paid_amount s = 0 /\
     s_status s = "partial" /\
     ~ status_follows_rule s) /\
  (exists s db',
     record_sale "M1" credit_sale_0 "S2" 7 db_managers = (Ok s, db') /\
     sale_of db' "S2" = Some s /\
     s_payment_type s = "credit" /\
     s_total_amount s = 0 /\
     s_paid_amount s = 0 /\
     s_status s = "pending" /\
     ~ status_follows_rule s).
Proof.
  split.
  - eexists; eexists; eexists; split; [vm_compute; reflexivity|].
    split; [reflexivity|].
    repeat (split; [reflexivity|]).
    intros (H & _). cbn in H. specialize (H (conj eq_refl eq_refl)).
    discriminate.
  - eexists; eexists; split; [vm_compute; reflexivity|].
    split; [reflexivity|].
    repeat (split; [reflexivity|]).
    intros (_ & _ & H). cbn in H. assert (H' : 0 <= 0) by lia.
    specialize (H H'). discriminate.
Qed.

(** C8, amended. Along any execution that starts with no sale stored
    and in which every payment has a positive amount and every sale
    other than a cash sale a positive total - a cash sale may have any
    total - every stored sale has, after every request, the status
    that the rule of section 3 gives for its paid amount, total and
    payment type. *)
Theorem status_follows_rule_on_billed_runs db0 db s :
  sales db0 = [] ->
  billed_run db0 db ->
  In s (sales db) ->
  status_follows_rule s.
Proof.
  intros Hempty Hrun Hin.
  assert (Hsound : Forall sale_sound (sales db)).
  { apply (billed_run_keeps_sound _ _ Hrun). rewrite Hempty. constructor. }
  rewrite Forall_forall in Hsound. now apply Hsound.
Qed.

Lemma status_follows_rule_on_billed_runs_witness :
  exists s1 s2,
    sales (snd (record_sale "M3" cash_sale_minus_5 "S2" 7 db_paid_80))
      = [s1; s2] /\
    s_paid_amount s1 = 80 /\ s_status s1 = "partial" /\
    status_follows_rule s1 /\
    s_total_amount s2 = -5 /\ s_status s2 = "settled" /\
    status_follows_rule s2.
Proof.
  assert (Hrun : billed_run db_managers
                   (snd (record_sale "M3" cash_sale_minus_5 "S2" 7 db_paid_80))).
  { apply billed_next with db_paid_80.
    - apply billed_next with db_credit_sale.
      + apply billed_next with db_managers; [apply billed_here|].
        apply (billed_record_sale "M1" credit_sale_200 "S1" 5 db_managers).
        intros _. simpl. lia.
      + apply (billed_record_payment "S1" 80 "M2" None "P1" 6 db_credit_sale).
        lia.
    - apply (billed_record_sale "M3" cash_sale_minus_5 "S2" 7 db_paid_80).
      intros H. exfalso. apply H. reflexivity. }
  eexists; eexists. split; [reflexivity|].
  split; [reflexivity|]. split; [reflexivity|]. split.
  { apply (status_follows_rule_on_billed_runs db_managers _ _ eq_refl Hrun).
    simpl. now left. }
  split; [reflexivity|]. split; [reflexivity|].
  apply (status_follows_rule_on_billed_runs db_managers _ _ eq_refl Hrun).
  simpl. right. now left.
Defined.

(** ** Executions: the parties of a transfer exist

    User documents are never removed and a request is only stored for
    a sender and a recipient that resolve, so both parties of every
    stored transfer have a document in every database an execution
    can reach from one without transfers. *)

Lemma Forall_update_one_all {A} (P : A -> Prop) p f (c : list A) :
  (forall x, P x -> P (f x)) -> Forall P c -> Forall P (update_one p f c).
Proof.
  intros Hf Hc. induction Hc as [|d c Hd Hc IH]; simpl; [constructor|].
  destruct (p d); constructor; auto.
Qed.

Lemma step_users_transfers admissible db db' :
  step admissible db db' ->
  (forall uid, user_exists db uid -> user_exists db' uid) /\
  (transfers db' = transfers db \/
   (exists t, transfers db' = (transfers db ++ [t])%list /\
              user_exists db (t_from_user_id t) /\
              user_exists db (t_to_user_id t)) \/
   (exists tid st now,
      transfers db' =
      update_one (transfer_id_is tid) (set_decision st now) (transfers db))).
Proof.
  unfold user_exists. intros Hstep. destruct Hstep.
  - destruct (find_one (user_id_is actor) (users db)) as [u|] eqn:Hu.
    + rewrite (record_sale_recorded _ _ _ _ _ _ Hu). cbn [snd users transfers].
      split; [|now left].
      destruct (String.eqb (sc_payment_type sale_data) "cash"); [|auto].
      intros uid. apply exists_after_inc.
    + rewrite (record_sale_unresolved _ _ _ _ _ Hu). cbn [snd]. auto.
  - destruct (find_one (user_id_is collector) (users db)) as [u|] eqn:Hu.
    + destruct (sale_of db sale_id) as [s|] eqn:Hs.
      * destruct (String.eqb_spec (s_payment_type s) "credit") as [Hty|Hty].
        -- rewrite (record_payment_applied _ _ _ _ _ _ _ _ _ Hu Hs Hty).
           cbn [snd users transfers]. split; [|now left].
           intros uid. apply exists_after_inc.
        -- rewrite (record_payment_not_credit _ _ _ _ _ _ _ _ _ Hu Hs Hty).
           cbn [snd]. auto.
      * rewrite (record_payment_not_found _ _ _ _ _ _ _ _ Hu Hs).
        cbn [snd]. auto.
    + unfold record_payment, bind. rewrite (get_current_user_missing _ _ Hu).
      cbn [snd]. auto.
  - destruct (find_one (user_id_is sender) (users db)) as [u|] eqn:Hu.
    + destruct (Z.lt_ge_cases (balance_of db sender) amount) as [Hlt|Hge].
      * rewrite (request_transfer_insufficient _ _ _ _ _ _ _ _ Hu Hlt).
        cbn [snd]. auto.
      * destruct (find_one (user_id_is recipient) (users db)) as [r|] eqn:Hr.
        -- rewrite (request_transfer_created _ _ _ _ _ _ _ _ _ Hu Hge Hr).
           cbn [snd users transfers]. split; [auto|].
           right; left. eexists. split; [reflexivity|].
           cbn [t_from_user_id t_to_user_id]. rewrite Hu, Hr.
           split; discriminate.
        -- rewrite (request_transfer_no_recipient _ _ _ _ _ _ _ _ Hu Hge Hr).
           cbn [snd]. auto.
    + unfold request_transfer, bind.
      rewrite (get_current_user_missing _ _ Hu). cbn [snd]. auto.
  - destruct (decide_transfer transfer_id actor act utcnow db)
      as [[t'|e] db'] eqn:Hrun.
    + destruct (find_one (user_id_is actor) (users db)) as [u|] eqn:Hu.
      * destruct (transfer_of db transfer_id) as [t|] eqn:Ht.
        -- destruct (String.eqb_spec (t_to_user_id t) actor) as [Hto|Hto].
           ++ destruct (String.eqb_spec (t_status t) "pending") as [Hst|Hst].
              ** rewrite (decide_transfer_pending _ _ _ _ _ _ _ Hu Ht Hto Hst)
                   in Hrun.
                 injection Hrun as _ <-. cbn [snd users transfers]. split.
                 --- unfold decided_users.
                     destruct (String.eqb act "approve"); [|auto].
                     intros uid H. now apply exists_after_inc, exists_after_inc.
                 --- right; right. eauto.
              ** rewrite (decide_transfer_processed _ _ _ _ _ _ _ Hu Ht Hto Hst)
                   in Hrun.
                 discriminate.
           ++ rewrite (decide_transfer_forbidden _ _ _ _ _ _ _ Hu Ht Hto)
                in Hrun.
              discriminate.
        -- rewrite (decide_transfer_not_found _ _ _ _ _ _ Hu Ht) in Hrun.
           discriminate.
      * unfold decide_transfer, bind in Hrun.
        rewrite (get_current_user_missing _ _ Hu) in Hrun. discriminate.
    + rewrite (decide_transfer_raise_keeps_db _ _ _ _ _ _ _ Hrun).
      cbn [snd]. auto.
Qed.

Lemma step_keeps_parties admissible db db' :
  step admissible db db' -> parties_exist db -> parties_exist db'.
Proof.
  intros Hstep Hdb.
  destruct (step_users_transfers _ _ _ Hstep) as [Hus Hts].
  unfold parties_exist in *.
  assert (Hold : Forall (fun t => user_exists db' (t_from_user_id t) /\
                                  user_exists db' (t_to_user_id t))
                        (transfers db)).
  { eapply Forall_impl; [|exact Hdb]. intros t [Hf Ht]. split; auto. }
  destruct Hts as [->|[(t & -> & Hf & Ht)|(tid & st & now & ->)]].
  - exact Hold.
  - apply Forall_app. split; [exact Hold|].
    constructor; [split; auto | constructor].
  - apply Forall_update_one_all; [|exact Hold]. intros t H. exact H.
Qed.

Lemma run_parties_exist admissible db0 db :
  transfers db0 = [] -> run admissible db0 db -> parties_exist db.
Proof.
  intros Hempty Hrun. induction Hrun as [|db db' db'' _ IH Hstep].
  - unfold parties_exist. rewrite Hempty. constructor.
  - apply (step_keeps_parties _ _ _ Hstep). now apply IH.
Qed.

(** ** The effect of one request *)

(** A request either leaves the database as it was or commits one of
    four effects: a sale recorded, a payment applied, a transfer
    requested, a transfer decided. *)
Lemma step_inv admissible db db' :
  step admissible db db' ->
  db' = db \/
  (exists actor u sale_data uuid now,
     find_one (user_id_is actor) (users db) = Some u /\
     admissible (sc_total_amount sale_data) /\
     db' = mkDB (if String.eqb (sc_payment_type sale_data) "cash"
                 then update_one (user_id_is actor)
                        (inc_cash_balance (sc_total_amount sale_data)) (users db)
                 else users db)
                (sales db ++
                 [sale_dict_of sale_data uuid now u (List.length (sales db))])%list
                (credit_payments db) (transfers db)) \/
  (exists sid amount collector notes uuid now u s,
     find_one (user_id_is collector) (users db) = Some u /\
     sale_of db sid = Some s /\
     s_payment_type s = "credit" /\
     admissible amount /\
     db' = mkDB (update_one (user_id_is collector) (inc_cash_balance amount)
                            (users db))
                (update_one (sale_id_is sid)
                   (set_payment_state (s_paid_amount s + amount)
                      (if s_total_amount s <=? s_paid_amount s + amount
                       then "settled" else "partial"))
                   (sales db))
                (credit_payments db ++
                 [mkCreditPaymentDoc uuid sid amount collector (u_name u) notes
                                     now])%list
                (transfers db)) \/
  (exists sender recipient amount reason uuid now u r,
     find_one (user_id_is sender) (users db) = Some u /\
     find_one (user_id_is recipient) (users db) = Some r /\
     amount <= balance_of db sender /\
     db' = mkDB (users db) (sales db) (credit_payments db)
                (transfers db ++
                 [mkTransfer uuid sender (u_name u) recipient (u_name r) amount
                             reason "pending" now None])%list) \/
  (exists tid actor act now u t,
     find_one (user_id_is actor) (users db) = Some u /\
     transfer_of db tid = Some t /\
     t_to_user_id t = actor /\
     t_status t = "pending" /\
     db' = mkDB (decided_users act t (users db)) (sales db) (credit_payments db)
                (update_one (transfer_id_is tid) (set_decision (act ++ "d") now)
                            (transfers db))).
Proof.
  intros Hstep. destruct Hstep.
  - destruct (find_one (user_id_is actor) (users db)) as [u|] eqn:Hu.
    + right; left. exists actor, u, sale_data, uuid4, utcnow.
      rewrite (record_sale_recorded _ _ _ _ _ _ Hu). auto.
    + left. now rewrite (record_sale_unresolved _ _ _ _ _ Hu).
  - destruct (find_one (user_id_is collector) (users db)) as [u|] eqn:Hu.
    + destruct (sale_of db sale_id) as [s|] eqn:Hs.
      * destruct (String.eqb_spec (s_payment_type s) "credit") as [Hty|Hty].
        -- right; right; left.
           exists sale_id, amount, collector, notes, uuid4, utcnow, u, s.
           rewrite (record_payment_applied _ _ _ _ _ _ _ _ _ Hu Hs Hty). auto.
        -- left.
           now rewrite (record_payment_not_credit _ _ _ _ _ _ _ _ _ Hu Hs Hty).
      * left. now rewrite (record_payment_not_found _ _ _ _ _ _ _ _ Hu Hs).
    + left. unfold record_payment, bind.
      now rewrite (get_current_user_missing _ _ Hu).
  - destruct (find_one (user_id_is sender) (users db)) as [u|] eqn:Hu.
    + destruct (Z.lt_ge_cases (balance_of db sender) amount) as [Hlt|Hge].
      * left. now rewrite (request_transfer_insufficient _ _ _ _ _ _ _ _ Hu Hlt).
      * destruct (find_one (user_id_is recipient) (users db)) as [r|] eqn:Hr.
        -- right; right; right; left.
           exists sender, recipient, amount, reason, uuid4, utcnow, u, r.
           rewrite (request_transfer_created _ _ _ _ _ _ _ _ _ Hu Hge Hr). auto.
        -- left.
           now rewrite (request_transfer_no_recipient _ _ _ _ _ _ _ _ Hu Hge Hr).
    + left. unfold request_transfer, bind.
      now rewrite (get_current_user_missing _ _ Hu).
  - destruct (find_one (user_id_is actor) (users db)) as [u|] eqn:Hu.
    + destruct (transfer_of db transfer_id) as [t|] eqn:Ht.
      * destruct (String.eqb_spec (t_to_user_id t) actor) as [Hto|Hto].
        -- destruct (String.eqb_spec (t_status t) "pending") as [Hst|Hst].
           ++ right; right; right; right.
              exists transfer_id, actor, act, utcnow, u, t.
              rewrite (decide_transfer_pending _ _ _ _ _ _ _ Hu Ht Hto Hst).
              auto.
           ++ left.
              now rewrite (decide_transfer_processed _ _ _ _ _ _ _ Hu Ht Hto Hst).
        -- left. now rewrite (decide_transfer_forbidden _ _ _ _ _ _ _ Hu Ht Hto).
      * left. now rewrite (decide_transfer_not_found _ _ _ _ _ _ Hu Ht).
    + left. unfold decide_transfer, bind.
      now rewrite (get_current_user_missing _ _ Hu).
Qed.

(** ** Numbering *)

Lemma uint_of_string_zeros k digits :
  NilEmpty.uint_of_string (zeros k ++ digits) =
  option_map (Nat.iter k Decimal.D0) (NilEmpty.uint_of_string digits).
Proof.
  induction k as [|k IH]; simpl.
  - now destruct (NilEmpty.uint_of_string digits).
  - rewrite IH. now destruct (NilEmpty.uint_of_string digits).
Qed.

Lemma of_uint_leading_zeros k d :
  Nat.of_uint (Nat.iter k Decimal.D0 d) = Nat.of_uint d.
Proof. induction k as [|k IH]; simpl; [reflexivity | exact IH]. Qed.

Lemma length_append (a b : string) :
  String.length (a ++ b) = (String.length a + String.length b)%nat.
Proof. induction a as [|c a IH]; simpl; [reflexivity | now rewrite IH]. Qed.

Lemma length_zeros k : String.length (zeros k) = k.
Proof. induction k as [|k IH]; simpl; [reflexivity | now rewrite IH]. Qed.

Lemma parse_count_format_06d k : parse_count (format_06d k) = Some k.
Proof.
  unfold parse_count, format_06d.
  rewrite uint_of_string_zeros, NilEmpty.usu. simpl.
  now rewrite of_uint_leading_zeros, DecimalNat.Unsigned.of_to.
Qed.

Lemma format_06d_inj m n : format_06d m = format_06d n -> m = n.
Proof.
  intros Heq. pose proof (parse_count_format_06d m) as Hm.
  rewrite Heq, parse_count_format_06d in Hm. congruence.
Qed.

(** X4. The zero-padded decimal form of a count has at least six
    characters and reads back as the count, whatever its size; so two
    different counts never get the same form. *)
Theorem format_06d_reads_back (n : nat) :
  parse_count (format_06d n) = Some n /\
  (6 <= String.length (format_06d n))%nat /\
  (forall m, format_06d m = format_06d n -> m = n).
Proof.
  split; [apply parse_count_format_06d|]. split.
  - unfold format_06d. rewrite length_append, length_zeros. lia.
  - intros m. apply format_06d_inj.
Qed.

Lemma sale_number_at_inj : Injective sale_number_at.
Proof.
  intros i j H. unfold sale_number_at in H. simpl in H.
  injection H as H. apply format_06d_inj in H. lia.
Qed.

Lemma map_update_one_same {A B} (g : A -> B) p f (c : list A) :
  (forall x, g (f x) = g x) -> map g (update_one p f c) = map g c.
Proof.
  intros Hg. induction c as [|d c IH]; simpl; [reflexivity|].
  destruct (p d); simpl; [now rewrite Hg | now rewrite IH].
Qed.

Lemma step_keeps_numbering admissible db db' :
  step admissible db db' ->
  map s_sale_number (sales db) =
    map sale_number_at (seq 0 (List.length (sales db))) ->
  map s_sale_number (sales db') =
    map sale_number_at (seq 0 (List.length (sales db'))).
Proof.
  intros Hstep Hdb.
  destruct (step_inv _ _ _ Hstep)
    as [->|[(actor & u & sd & uuid & now & Hu & _ & ->)
       |[(sid & amount & collector & notes & uuid & now & u & s0 & Hu & Hs
          & Hty & _ & ->)
       |[(sender & recipient & amount & reason & uuid & now & u & r & _ & _
          & _ & ->)
       |(tid & actor & act & now & u & t & Hu & Ht & Hto & Hst & ->)]]]];
    try exact Hdb.
  - cbn [sales]. rewrite length_app, Nat.add_1_r, seq_S, !map_app, Hdb.
    reflexivity.
  - cbn [sales]. rewrite update_one_length.
    now rewrite map_update_one_same by reflexivity.
Qed.

(** X5. Along any execution that starts with no sale stored, the sale
    stored at position [i] carries the number made from [i + 1], and
    no two stored sales carry the same number (requests being served
    one after the other). *)
Theorem sale_numbers_are_sequential admissible db0 db :
  sales db0 = [] ->
  run admissible db0 db ->
  (forall i s, nth_error (sales db) i = Some s ->
               s_sale_number s = sale_number_at i) /\
  NoDup (map s_sale_number (sales db)).
Proof.
  intros Hempty Hrun.
  assert (Hnum : map s_sale_number (sales db) =
                 map sale_number_at (seq 0 (List.length (sales db)))).
  { induction Hrun as [|db db' db'' _ IH Hstep].
    - now rewrite Hempty.
    - apply (step_keeps_numbering _ _ _ Hstep). now apply IH. }
  split.
  - intros i s Hs.
    pose proof (map_nth_error s_sale_number _ _ Hs) as H.
    rewrite Hnum in H.
    assert (Hi : (i < List.length (sales db))%nat)
      by (apply nth_error_Some; congruence).
    rewrite (map_nth_error sale_number_at i (seq 0 (List.length (sales db)))
               (d := i)) in H.
    + congruence.
    + rewrite nth_error_nth' with (d := O) by (now rewrite length_seq).
      now rewrite seq_nth.
  - rewrite Hnum. apply Injective_map_NoDup; [apply sale_number_at_inj|].
    apply seq_NoDup.
Qed.

Lemma sale_numbers_are_sequential_witness :
  exists s,
    nth_error (sales db_paid_80) 0 = Some s /\
    s_sale_number s = "SALE-000001" /\
    NoDup (map s_sale_number (sales db_paid_80)).
Proof.
  destruct (sale_numbers_are_sequential positive db_managers db_paid_80)
    as [Hnum Hnodup].
  - reflexivity.
  - apply run_next with db_credit_sale.
    + apply run_next with db_managers; [apply run_here|].
      apply (step_record_sale positive "M1" credit_sale_200 "S1" 5 db_managers).
      unfold positive. simpl. lia.
    + apply (step_record_payment positive "S1" 80 "M2" None "P1" 6
               db_credit_sale).
      unfold positive. lia.
  - eexists. split; [reflexivity|]. split; [|exact Hnodup].
    apply (Hnum 0%nat). reflexivity.
Defined.

(** ** Executions: what is stored stays stored *)

Lemma nth_error_update_one {A} p f (c : list A) i x :
  nth_error c i = Some x ->
  nth_error (update_one p f c) i = Some x \/
  (find_one p c = Some x /\ nth_error (update_one p f c) i = Some (f x)).
Proof.
  revert i. induction c as [|d c IH]; intros [|i]; simpl; try discriminate.
  - intros [= ->]. destruct (p x); [right | left]; auto.
  - intros H. destruct (p d) eqn:E; simpl; [now left|].
    destruct (IH i H) as [H'|[Hf H']]; [now left | right; auto].
Qed.

Lemma nth_error_insert_one {A} (c : list A) d i x :
  nth_error c i = Some x -> nth_error (c ++ [d])%list i = Some x.
Proof.
  intros H. rewrite nth_error_app1; [exact H|].
  apply nth_error_Some. congruence.
Qed.

Lemma step_keeps_transfer admissible db db' i t :
  step admissible db db' ->
  nth_error (transfers db) i = Some t ->
  exists t',
    nth_error (transfers db') i = Some t' /\
    transfer_core t' = transfer_core t /\
    (t_status t <> "pending" -> t' = t).
Proof.
  intros Hstep Hi.
  destruct (step_inv _ _ _ Hstep)
    as [->|[(actor & u & sd & uuid & now & Hu & _ & ->)
       |[(sid & amount & collector & notes & uuid & now & u & s0 & Hu & Hs
          & Hty & _ & ->)
       |[(sender & recipient & amount & reason & uuid & now & u & r & _ & _
          & _ & ->)
       |(tid & actor & act & now & u & t0 & Hu & Ht & Hto & Hst & ->)]]]];
    cbn [transfers]; eauto.
  - exists t. split; [now apply nth_error_insert_one | auto].
  - destruct (nth_error_update_one (transfer_id_is tid)
                (set_decision (act ++ "d") now) _ _ _ Hi) as [H|[Hf H]].
    + eauto.
    + eexists. split; [exact H|]. split; [reflexivity|].
      unfold transfer_of in Ht. congruence.
Qed.

(** X6. Along any execution a stored transfer keeps its place and its
    identifier, parties, names, amount, reason and creation time; and
    once its status is no longer pending, the whole document stays as
    it is for ever. *)
Theorem decided_transfers_are_frozen admissible db db' i t :
  run admissible db db' ->
  nth_error (transfers db) i = Some t ->
  exists t',
    nth_error (transfers db') i = Some t' /\
    transfer_core t' = transfer_core t /\
    (t_status t <> "pending" -> t' = t).
Proof.
  intros Hrun Hi. induction Hrun as [|db db' db'' _ IH Hstep]; [eauto|].
  destruct (IH Hi) as (t' & Hi' & Hcore & Hfrozen).
  destruct (step_keeps_transfer _ _ _ _ _ Hstep Hi')
    as (t'' & Hi'' & Hcore' & Hfrozen').
  exists t''. split; [exact Hi''|]. split; [congruence|].
  intros Hst. rewrite <- (Hfrozen Hst). apply Hfrozen'.
  now rewrite (Hfrozen Hst).
Qed.

Lemma decided_transfers_are_frozen_witness :
  exists t',
    nth_error (transfers (snd (decide_transfer "T1" "M2" "reject" 30
                                 db_approved_once))) 0 = Some t' /\
    t_status t' = "approved" /\
    t_approved_at t' = Some 20.
Proof.
  destruct (decided_transfers_are_frozen any_amount db_approved_once
              (snd (decide_transfer "T1" "M2" "reject" 30 db_approved_once))
              0 (mkTransfer "T1" "M1" "Manager M1" "M2" "Manager M2" 60
                            "till float" "approved" 10 (Some 20)))
    as (t' & Hi & _ & Hfrozen).
  - apply run_next with db_approved_once; [apply run_here|].
    apply step_decide_transfer.
  - reflexivity.
  - exists t'. split; [exact Hi|].
    rewrite Hfrozen by discriminate. split; reflexivity.
Defined.




Lemma step_keeps_users_and_log admissible db db' :
  step admissible db db' ->
  map user_core (users db') = map user_core (users db) /\
  exists more, credit_payments db' = (credit_payments db ++ more)%list.
Proof.
  intros Hstep.
  destruct (step_inv _ _ _ Hstep)
    as [->|[(actor & u & sd & uuid & now & Hu & _ & ->)
       |[(sid & amount & collector & notes & uuid & now & u & s0 & Hu & Hs
          & Hty & Hpos & ->)
       |[(sender & recipient & amount & reason & uuid & now & u & r & _ & _
          & _ & ->)
       |(tid & actor & act & now & u & t0 & Hu & Ht & Hto & Hst & ->)]]]];
    cbn [users credit_payments].
  - split; [reflexivity|]. exists []. now rewrite app_nil_r.
  - split; [|exists []; now rewrite app_nil_r].
    destruct (String.eqb (sc_payment_type sd) "cash"); [|reflexivity].
    now apply map_update_one_same.
  - split; [now apply map_update_one_same | eauto].
  - split; [reflexivity|]. exists []. now rewrite app_nil_r.
  - split; [|exists []; now rewrite app_nil_r].
    unfold decided_users. destruct (String.eqb act "approve"); [|reflexivity].
    now rewrite !map_update_one_same by reflexivity.
Qed.

(** X8. Along any execution of the cash routes the users collection
    keeps the same documents in the same order with the same
    identifier, name, e-mail, password hash, role and creation time -
    only cash balances move - and the payments log only grows at its
    end: no payment record is ever changed or removed. *)
Theorem users_and_log_are_kept admissible db db' :
  run admissible db db' ->
  map user_core (users db') = map user_core (users db) /\
  exists more, credit_payments db' = (credit_payments db ++ more)%list.
Proof.
  intros Hrun. induction Hrun as [|db db' db'' _ IH Hstep].
  - split; [reflexivity|]. exists []. now rewrite app_nil_r.
  - destruct IH as [Hus [more Hlog]].
    destruct (step_keeps_users_and_log _ _ _ Hstep) as [Hus' [more' Hlog']].
    split; [congruence|]. exists (more ++ more')%list.
    now rewrite Hlog', Hlog, app_assoc.
Qed.

Lemma users_and_log_are_kept_witness :
  map u_id (users db_paid_80) = ["M1"; "M2"; "M3"] /\
  map user_core (users db_paid_80) = map user_core (users db_managers).
Proof.
  split; [reflexivity|].
  apply (users_and_log_are_kept positive db_managers db_paid_80).
  apply run_next with db_credit_sale.
  - apply run_next with db_managers; [apply run_here|].
    apply (step_record_sale positive "M1" credit_sale_200 "S1" 5 db_managers).
    unfold positive. simpl. lia.
  - apply (step_record_payment positive "S1" 80 "M2" None "P1" 6
             db_credit_sale).
    unfold positive. lia.
Defined.

(** ** Accounts *)

Lemma find_one_none {A} p (c : list A) :
  find_one p c = None -> forall x, In x c -> p x = false.
Proof.
  induction c as [|d c IH]; simpl; [contradiction|].
  destruct (p d) eqn:E; [discriminate|].
  intros H x [<-|Hx]; auto.
Qed.

Lemma register_taken hashpw jwt_encode user_data salt uuid now now' existing db :
  find_one (email_is (uc_email user_data)) (users db) = Some existing ->
  register hashpw jwt_encode user_data salt uuid now now' db =
  (Raise (mkHTTPException 400 "Email already registered"), db).
Proof.
  intros H. unfold register, bind, users_find_one, read. now rewrite H.
Qed.

Lemma register_created hashpw jwt_encode user_data salt uuid now now' db :
  find_one (email_is (uc_email user_data)) (users db) = None ->
  register hashpw jwt_encode user_data salt uuid now now' db =
  (Ok (mkToken (create_access_token jwt_encode uuid now') "bearer"
               (mkUserResponse uuid (uc_name user_data) (uc_email user_data)
                               (uc_role user_data) 0 now)),
   mkDB (users db ++
         [mkUser uuid (uc_name user_data) (uc_email user_data)
                 (hashpw (uc_password user_data) salt) (uc_role user_data)
                 (Some 0) now])%list
        (sales db) (credit_payments db) (transfers db)).
Proof.
  intros H. unfold register, bind, users_find_one, read. now rewrite H.
Qed.

(** X11. Registration keeps e-mail addresses unique: where no two user
    documents share an address, none do after a registration, accepted
    or refused.  An address already present is refused with 400 and
    the database stays as it was; an accepted registration appends one
    user, whose balance is 0, and leaves every other document alone. *)
Theorem register_keeps_emails_unique hashpw jwt_encode user_data salt uuid
  now now' db :
  NoDup (map u_email (users db)) ->
  NoDup (map u_email
           (users (snd (register hashpw jwt_encode user_data salt uuid now now'
                          db)))) /\
  (forall e db',
     register hashpw jwt_encode user_data salt uuid now now' db = (Raise e, db') ->
     e = mkHTTPException 400 "Email already registered" /\ db' = db /\
     In (uc_email user_data) (map u_email (users db))) /\
  (forall tok db',
     register hashpw jwt_encode user_data salt uuid now now' db = (Ok tok, db') ->
     ~ In (uc_email user_data) (map u_email (users db)) /\
     exists u, users db' = (users db ++ [u])%list /\
               u_id u = uuid /\ u_email u = uc_email user_data /\
               u_cash_balance u = Some 0 /\
               total_cash (users db') = total_cash (users db) /\
               sales db' = sales db /\
               credit_payments db' = credit_payments db /\
               transfers db' = transfers db).
Proof.
  intros Hnodup.
  destruct (find_one (email_is (uc_email user_data)) (users db))
    as [existing|] eqn:Hfind.
  - rewrite (register_taken _ _ _ _ _ _ _ _ _ Hfind). cbn [snd].
    split; [exact Hnodup|]. split; [|discriminate].
    intros e db' [= <- <-]. split; [reflexivity|]. split; [reflexivity|].
    apply in_map_iff. exists existing. split.
    + apply find_one_holds in Hfind. now apply String.eqb_eq in Hfind.
    + now apply find_one_In in Hfind.
  - rewrite (register_created _ _ _ _ _ _ _ _ Hfind). cbn [snd users].
    assert (Hnew : ~ In (uc_email user_data) (map u_email (users db))).
    { intros Hin. apply in_map_iff in Hin. destruct Hin as (x & Hx & Hin).
      pose proof (find_one_none _ _ Hfind x Hin) as H.
      unfold email_is in H. apply String.eqb_neq in H. congruence. }
    split; [|split; [discriminate|]].
    + rewrite map_app. simpl.
      apply NoDup_app; [exact Hnodup | repeat constructor; auto |].
      intros e He [<-|[]]. now apply Hnew.
    + intros tok db' [= <- <-]. split; [exact Hnew|].
      eexists. cbn [users sales credit_payments transfers].
      split; [reflexivity|]. repeat split.
      clear. induction (users db) as [|x l IH]; simpl; [reflexivity | lia].
Qed.

Lemma register_keeps_emails_unique_witness :
  NoDup (map u_email
           (users (snd (register plain_hashpw plain_jwt_encode new_manager
                          "salt" "M4" 30 31 db_managers)))).
Proof.
  apply (register_keeps_emails_unique plain_hashpw plain_jwt_encode new_manager
           "salt" "M4" 30 31 db_managers).
  simpl. repeat constructor; simpl; intuition discriminate.
Defined.

Lemma login_unknown checkpw jwt_encode credentials now db :
  find_one (email_is (ul_email credentials)) (users db) = None ->
  login checkpw jwt_encode credentials now db =
  (Raise (mkHTTPException 401 "Invalid email or password"), db).
Proof.
  intros H. unfold login, bind, users_find_one, read. now rewrite H.
Qed.

Lemma login_checked checkpw jwt_encode credentials now u db :
  find_one (email_is (ul_email credentials)) (users db) = Some u ->
  login checkpw jwt_encode credentials now db =
  (if checkpw (ul_password credentials) (u_password u)
   then Ok (mkToken (create_access_token jwt_encode (u_id u) now) "bearer"
                    (user_response_of u))
   else Raise (mkHTTPException 401 "Invalid email or password"), db).
Proof.
  intros H. unfold login, bind, users_find_one, read. rewrite H.
  now destruct (checkpw (ul_password credentials) (u_password u)).
Qed.

(** X12. With a hash function whose hashes its checker accepts for
    the password hashed: after an accepted registration, logging in
    with the same address and password succeeds and answers with the
    new user's identifier and a balance of 0; a password the checker
    rejects against the stored hash is refused with 401, exactly as an
    unknown address is; a second registration of the address is
    refused with 400; and when the identifier is fresh the new user
    resolves as acting user. *)
Theorem registered_user_can_log_in hashpw checkpw jwt_encode user_data salt uuid
  now now' now'' db :
  (forall password salt', checkpw password (hashpw password salt') = true) ->
  find_one (email_is (uc_email user_data)) (users db) = None ->
  exists tok db',
    register hashpw jwt_encode user_data salt uuid now now' db = (Ok tok, db') /\
    login checkpw jwt_encode
          (mkUserLogin (uc_email user_data) (uc_password user_data)) now'' db' =
      (Ok (mkToken (create_access_token jwt_encode uuid now'') "bearer"
                   (mkUserResponse uuid (uc_name user_data) (uc_email user_data)
                                   (uc_role user_data) 0 now)), db') /\
    (forall wrong,
       checkpw wrong (hashpw (uc_password user_data) salt) = false ->
       login checkpw jwt_encode (mkUserLogin (uc_email user_data) wrong) now''
             db' =
       (Raise (mkHTTPException 401 "Invalid email or password"), db')) /\
    (forall other salt2 uuid2 now2 now2',
       uc_email other = uc_email user_data ->
       register hashpw jwt_encode other salt2 uuid2 now2 now2' db' =
       (Raise (mkHTTPException 400 "Email already registered"), db')) /\
    (find_one (user_id_is uuid) (users db) = None ->
     exists u, get_current_user uuid db' = (Ok u, db') /\
               user_response_of u = token_user tok).
Proof.
  intros Hcheck Hfresh.
  set (u := mkUser uuid (uc_name user_data) (uc_email user_data)
                   (hashpw (uc_password user_data) salt) (uc_role user_data)
                   (Some 0) now).
  set (db' := mkDB (users db ++ [u])%list (sales db) (credit_payments db)
                   (transfers db)).
  assert (Hfind : find_one (email_is (uc_email user_data)) (users db') = Some u).
  { unfold db'. cbn [users].
    change (users db ++ [u])%list with (insert_one u (users db)).
    rewrite find_one_insert_one, Hfresh. unfold email_is, u. cbn [u_email].
    now rewrite String.eqb_refl. }
  eexists; exists db'.
  split; [apply (register_created _ _ _ _ _ _ _ _ Hfresh)|].
  split; [|split; [|split]].
  - rewrite (login_checked checkpw jwt_encode
               (mkUserLogin (uc_email user_data) (uc_password user_data))
               now'' u db' Hfind).
    cbn [ul_password u_password u]. now rewrite Hcheck.
  - intros wrong Hwrong.
    rewrite (login_checked checkpw jwt_encode
               (mkUserLogin (uc_email user_data) wrong) now'' u db' Hfind).
    cbn [ul_password u_password u]. now rewrite Hwrong.
  - intros other salt2 uuid2 now2 now2' Hsame.
    apply register_taken with u. now rewrite Hsame.
  - intros Hid. exists u. split; [|reflexivity].
    apply get_current_user_found. unfold db'. cbn [users].
    change (users db ++ [u])%list with (insert_one u (users db)).
    rewrite find_one_insert_one, Hid. unfold user_id_is, u. cbn [u_id].
    now rewrite String.eqb_refl.
Qed.

Lemma registered_user_can_log_in_witness :
  exists tok db',
    register plain_hashpw plain_jwt_encode new_manager "salt" "M4" 30 31
             db_managers = (Ok tok, db') /\
    login plain_checkpw plain_jwt_encode
          (mkUserLogin "M4@example.com" "s3cret") 40 db' =
      (Ok (mkToken "M4" "bearer"
                   (mkUserResponse "M4" "Manager M4" "M4@example.com" "manager"
                                   0 30)), db').
Proof.
  destruct (registered_user_can_log_in plain_hashpw plain_checkpw
              plain_jwt_encode new_manager "salt" "M4" 30 31 40 db_managers)
    as (tok & db' & Hreg & Hlogin & _).
  - intros password salt'. apply String.eqb_refl.
  - reflexivity.
  - exists tok, db'. split; [exact Hreg | exact Hlogin].
Defined.

(** ** Listings *)

Lemma update_one_insert_fresh {A} p f (c : list A) d :
  find_one p c = None -> p d = true ->
  update_one p f (c ++ [d])%list = (c ++ [f d])%list.
Proof.
  intros Hc Hd. induction c as [|x c IH]; simpl in *.
  - now rewrite Hd.
  - destruct (p x); [discriminate | now rewrite IH].
Qed.

Lemma filter_insert_one {A} p (c : list A) d :
  filter p (c ++ [d])%list = (filter p c ++ if p d then [d] else [])%list.
Proof. now rewrite filter_app. Qed.

Lemma In_firstn {A} n (l : list A) x : In x (firstn n l) -> In x l.
Proof.
  revert l. induction n as [|n IH]; intros [|y l]; simpl; try contradiction.
  intros [->|H]; [now left | right; auto].
Qed.

Lemma dashboard_of_resolved sort actor u db :
  find_one (user_id_is actor) (users db) = Some u ->
  dashboard_of sort actor db =
  (Ok (mkDashboard
         (get_cash_balance u)
         (map manager_entry_of (firstn 100 (filter (role_is "manager") (users db))))
         (map (pending_entry_of (users db))
              (firstn 100 (filter (pending_for actor) (transfers db))))
         (List.length
            (firstn 5 (firstn 5
               (sort Sale s_created_at
                  (filter (collected_by_is actor) (sales db))))))), db).
Proof.
  intros Hu. unfold dashboard_of, bind.
  rewrite (get_current_user_found _ _ _ Hu).
  unfold get_dashboard, bind, read, ret.
  now rewrite (found_user_id _ _ _ Hu).
Qed.

(** X13. A request accepted under a fresh identifier appears at the
    end of the pending approvals on its recipient's dashboard (while
    the recipient has fewer than a hundred pending), showing the
    sender's name, the amount, the reason and the creation time; and
    once the recipient has decided it - with whatever action, approval
    or not - the dashboard lists exactly the pending approvals that
    were there before the request. *)
Theorem requested_transfer_shows_on_dashboard sort sender recipient amount reason
  uuid now now' act u r db :
  find_one (user_id_is sender) (users db) = Some u ->
  find_one (user_id_is recipient) (users db) = Some r ->
  amount <= balance_of db sender ->
  transfer_of db uuid = None ->
  (List.length (filter (pending_for recipient) (transfers db)) < 100)%nat ->
  exists t db1 d1 t' db2 d2,
    request_transfer sender recipient amount reason uuid now db = (Ok t, db1) /\
    dashboard_of sort recipient db1 = (Ok d1, db1) /\
    pending_approvals d1 =
      (map (pending_entry_of (users db))
           (filter (pending_for recipient) (transfers db)) ++
       [mkPendingEntry uuid (u_name u) amount reason now])%list /\
    decide_transfer uuid recipient act now' db1 = (Ok t', db2) /\
    dashboard_of sort recipient db2 = (Ok d2, db2) /\
    map pe_id (pending_approvals d2) =
      map t_id (filter (pending_for recipient) (transfers db)) /\
    ~ In uuid (map pe_id (pending_approvals d2)).
Proof.
  intros Hu Hr Hle Hfresh Hfew.
  pose (t := mkTransfer uuid sender (u_name u) recipient (u_name r) amount reason
                        "pending" now None).
  pose (db1 := mkDB (users db) (sales db) (credit_payments db)
                    (transfers db ++ [t])%list).
  assert (Hidt : transfer_id_is uuid t = true)
    by (unfold transfer_id_is, t; cbn [t_id]; apply String.eqb_refl).
  assert (Ht : transfer_of db1 uuid = Some t).
  { unfold transfer_of, db1. cbn [transfers].
    change (transfers db ++ [t])%list with (insert_one t (transfers db)).
    rewrite find_one_insert_one. unfold transfer_of in Hfresh.
    now rewrite Hfresh, Hidt. }
  pose (db2 := mkDB (decided_users act t (users db1)) (sales db1)
                    (credit_payments db1)
                    (update_one (transfer_id_is uuid)
                                (set_decision (act ++ "d") now') (transfers db1))).
  assert (Hex2 : find_one (user_id_is recipient) (users db2) <> None).
  { unfold db2, db1. cbn [users]. unfold decided_users.
    destruct (String.eqb act "approve").
    - apply exists_after_inc, exists_after_inc. rewrite Hr. discriminate.
    - rewrite Hr. discriminate. }
  destruct (find_one (user_id_is recipient) (users db2)) as [r2|] eqn:Hr2;
    [|congruence].
  assert (Hnone : forall x, In x (transfers db) -> t_id x <> uuid).
  { intros x Hx. unfold transfer_of in Hfresh.
    pose proof (find_one_none _ _ Hfresh x Hx) as H.
    now apply String.eqb_neq in H. }
  assert (Hbefore :
    firstn 100 (filter (pending_for recipient) (transfers db)) =
    filter (pending_for recipient) (transfers db))
    by (apply firstn_all2; lia).
  exists t, db1. eexists. exists (set_decision (act ++ "d") now' t), db2. eexists.
  split; [apply (request_transfer_created _ _ _ _ _ _ _ _ _ Hu Hle Hr)|].
  split; [apply (dashboard_of_resolved sort recipient r db1 Hr)|].
  split.
  { cbn [pending_approvals]. unfold db1. cbn [users transfers].
    rewrite filter_insert_one.
    assert (Hp : pending_for recipient t = true)
      by (unfold pending_for, t; cbn [t_to_user_id t_status];
          now rewrite String.eqb_refl).
    rewrite Hp, firstn_all2 by (rewrite length_app; simpl; lia).
    rewrite map_app. f_equal. simpl map. unfold pending_entry_of, t.
    cbn [t_id t_from_user_id t_amount t_reason t_created_at].
    now rewrite Hu. }
  split.
  { apply (decide_transfer_pending uuid recipient act now' r t db1);
      [exact Hr | exact Ht | reflexivity | reflexivity]. }
  split; [apply (dashboard_of_resolved sort recipient r2 db2 Hr2)|].
  assert (Hids :
    map pe_id (map (pending_entry_of (users db2))
                   (firstn 100 (filter (pending_for recipient) (transfers db2))))
    = map t_id (filter (pending_for recipient) (transfers db))).
  { rewrite map_map. unfold pending_entry_of. cbn [pe_id].
    change (transfers db2)
      with (update_one (transfer_id_is uuid) (set_decision (act ++ "d") now')
                       (transfers db ++ [t])%list).
    unfold transfer_of in Hfresh.
    rewrite (update_one_insert_fresh _ _ _ _ Hfresh Hidt), filter_insert_one.
    assert (Hp : pending_for recipient (set_decision (act ++ "d") now' t) = false).
    { unfold pending_for. cbn [t_to_user_id t_status set_decision].
      apply andb_false_iff. right. apply String.eqb_neq.
      apply append_d_not_pending. }
    rewrite Hp, app_nil_r, Hbefore. reflexivity. }
  cbn [pending_approvals]. split; [exact Hids|].
  rewrite Hids. intros Hin. apply in_map_iff in Hin.
  destruct Hin as (x & Hx & Hin). apply filter_In in Hin.
  now apply (Hnone x).
Qed.

Lemma requested_transfer_shows_on_dashboard_witness :
  exists t db1 d1 t' db2 d2,
    request_transfer "M1" "M2" 60 "till float" "T1" 10 db_managers
      = (Ok t, db1) /\
    dashboard_of insertion_sort_newest_first "M2" db1 = (Ok d1, db1) /\
    pending_approvals d1 =
      [mkPendingEntry "T1" "Manager M1" 60 "till float" 10] /\
    decide_transfer "T1" "M2" "reject" 20 db1 = (Ok t', db2) /\
    dashboard_of insertion_sort_newest_first "M2" db2 = (Ok d2, db2) /\
    map pe_id (pending_approvals d2) = [].
Proof.
  destruct (requested_transfer_shows_on_dashboard insertion_sort_newest_first
              "M1" "M2" 60 "till float" "T1" 10 20 "reject"
              (manager "M1" 100) (manager "M2" 0) db_managers
              eq_refl eq_refl)
    as (t & db1 & d1 & t' & db2 & d2 & H1 & H2 & H3 & H4 & H5 & H6 & _).
  - vm_compute. discriminate.
  - reflexivity.
  - simpl. lia.
  - exists t, db1, d1, t', db2, d2. repeat split; assumption.
Defined.

Lemma insert_newest_first_perm {A} (key : A -> datetime) x l :
  Permutation (insert_newest_first key x l) (x :: l).
Proof.
  induction l as [|y l IH]; simpl; [reflexivity|].
  destruct (key y <? key x); [reflexivity|].
  rewrite IH. apply perm_swap.
Qed.

Lemma insertion_sort_newest_first_perm A (key : A -> datetime) l :
  Permutation (insertion_sort_newest_first A key l) l.
Proof.
  induction l as [|x l IH]; simpl; [reflexivity|].
  rewrite insert_newest_first_perm. now constructor.
Qed.

Lemma transfers_of_resolved sort actor u db :
  find_one (user_id_is actor) (users db) = Some u ->
  transfers_of sort actor db =
  (Ok (firstn 100 (sort Transfer t_created_at
                     (filter (involves actor) (transfers db)))), db).
Proof.
  intros Hu. unfold transfers_of, bind.
  rewrite (get_current_user_found _ _ _ Hu).
  unfold get_transfers, read. now rewrite (found_user_id _ _ _ Hu).
Qed.

(** X14. Whatever order the sort gives to equal creation times, the
    transfers listed for a user are at most a hundred stored
    transfers, each of which the user sent or is to receive - nobody
    else's transfer is ever listed; and when the user has a hundred or
    fewer, all of them are listed. *)
Theorem transfers_listing_is_private sort actor u db :
  (forall A key l, Permutation (sort A key l) l) ->
  find_one (user_id_is actor) (users db) = Some u ->
  exists l,
    transfers_of sort actor db = (Ok l, db) /\
    (List.length l <= 100)%nat /\
    (forall t, In t l ->
       In t (transfers db) /\
       (t_from_user_id t = actor \/ t_to_user_id t = actor)) /\
    ((List.length (filter (involves actor) (transfers db)) <= 100)%nat ->
     forall t, In t (transfers db) ->
       t_from_user_id t = actor \/ t_to_user_id t = actor -> In t l).
Proof.
  intros Hperm Hu. eexists. split; [apply (transfers_of_resolved _ _ _ _ Hu)|].
  split; [apply firstn_le_length|]. split.
  - intros t Hin. apply In_firstn in Hin.
    apply (Permutation_in _ (Hperm _ _ _)) in Hin.
    apply filter_In in Hin. destruct Hin as [Hin Hinv]. split; [exact Hin|].
    unfold involves in Hinv. apply orb_true_iff in Hinv.
    destruct Hinv as [H|H]; apply String.eqb_eq in H; auto.
  - intros Hfew t Hin Hinv.
    rewrite firstn_all2 by (now rewrite (Permutation_length (Hperm _ _ _))).
    apply (Permutation_in _ (Permutation_sym (Hperm _ _ _))).
    apply filter_In. split; [exact Hin|].
    unfold involves. apply orb_true_iff.
    destruct Hinv as [H|H]; [left | right]; now apply String.eqb_eq.
Qed.

Lemma transfers_listing_is_private_witness :
  exists l,
    transfers_of insertion_sort_newest_first "M3" db_requested = (Ok l, db_requested) /\
    l = [] /\
    exists l',
      transfers_of insertion_sort_newest_first "M2" db_requested
        = (Ok l', db_requested) /\
      map t_id l' = ["T2"; "T1"].
Proof.
  destruct (transfers_listing_is_private insertion_sort_newest_first "M3"
              (manager "M3" 0) db_requested
              insertion_sort_newest_first_perm eq_refl)
    as (l & Hrun & _ & Hpriv & _).
  exists l. split; [exact Hrun|]. split.
  - destruct l as [|t l]; [reflexivity|]. exfalso.
    destruct (Hpriv t (or_introl eq_refl)) as [Hin Hinv].
    simpl in Hin. destruct Hin as [<-|[<-|[]]]; simpl in Hinv;
      destruct Hinv; discriminate.
  - eexists. split; reflexivity.
Defined.

(** X15. Whatever the sort, the dashboard of a user that resolves
    shows the user's stored balance; lists as managers only stored
    users whose role is "manager", each with its stored balance;
    lists as pending approvals only stored transfers that are
    addressed to the user and still pending; and counts the user's
    own sales up to five and no further. *)
Theorem dashboard_reports_stored_state sort actor u db :
  (forall A key l, Permutation (sort A key l) l) ->
  find_one (user_id_is actor) (users db) = Some u ->
  exists d,
    dashboard_of sort actor db = (Ok d, db) /\
    my_cash_balance d = balance_of db actor /\
    recent_transactions_count d =
      Nat.min 5 (List.length (filter (collected_by_is actor) (sales db))) /\
    (forall e, In e (managers d) ->
       exists m, In m (users db) /\ u_role m = "manager" /\
                 e = manager_entry_of m) /\
    (forall e, In e (pending_approvals d) ->
       exists t, In t (transfers db) /\ t_to_user_id t = actor /\
                 t_status t = "pending" /\
                 pe_id e = t_id t /\ pe_amount e = t_amount t).
Proof.
  intros Hperm Hu. eexists. split; [apply (dashboard_of_resolved _ _ _ _ Hu)|].
  cbn [my_cash_balance recent_transactions_count managers pending_approvals].
  split; [now rewrite (balance_of_found _ _ _ Hu)|]. split.
  - rewrite !length_firstn, (Permutation_length (Hperm _ _ _)). lia.
  - split.
    + intros e He. apply in_map_iff in He. destruct He as (m & <- & Hm).
      apply In_firstn, filter_In in Hm. destruct Hm as [Hin Hrole].
      exists m. split; [exact Hin|]. split; [|reflexivity].
      now apply String.eqb_eq in Hrole.
    + intros e He. apply in_map_iff in He. destruct He as (t & <- & Ht).
      apply In_firstn, filter_In in Ht. destruct Ht as [Hin Hp].
      unfold pending_for in Hp. apply andb_true_iff in Hp.
      destruct Hp as [Hto Hst].
      apply String.eqb_eq in Hto. apply String.eqb_eq in Hst.
      exists t. repeat split; assumption.
Qed.

Lemma dashboard_reports_stored_state_witness :
  exists d,
    dashboard_of insertion_sort_newest_first "M2" db_paid_80 = (Ok d, db_paid_80) /\
    my_cash_balance d = 80 /\
    recent_transactions_count d = 0%nat /\
    List.length (managers d) = 3%nat.
Proof.
  destruct (dashboard_reports_stored_state insertion_sort_newest_first "M2"
              (manager "M2" 80) db_paid_80
              insertion_sort_newest_first_perm eq_refl)
    as (d & Hrun & Hbal & Hcount & _).
  exists d. split; [exact Hrun|]. split; [exact Hbal|]. split; [exact Hcount|].
  vm_compute in Hrun. injection Hrun as <-. reflexivity.
Defined.

(** ** Inventory: raw materials *)

Lemma material_name_is_inc x d m :
  material_name_is x (inc_quantity d m) = material_name_is x m.
Proof. reflexivity. Qed.

Lemma create_raw_material_existing material_data uuid now u old inv :
  find_one (material_name_is (rc_material_name material_data))
           (raw_materials inv) = Some old ->
  create_raw_material material_data uuid now u inv =
  (Ok (inc_quantity (rc_quantity material_data) old),
   mkInventory (production inv)
     (update_one (material_name_is (rc_material_name material_data))
                 (inc_quantity (rc_quantity material_data))
                 (raw_materials inv))).
Proof.
  intros H. unfold create_raw_material, bindI, raw_materials_find_one. rewrite H.
  unfold raw_materials_update_one. cbn [raw_materials].
  rewrite find_one_update_one_same by (intros; apply material_name_is_inc).
  now rewrite H.
Qed.

Lemma create_raw_material_new material_data uuid now u inv :
  find_one (material_name_is (rc_material_name material_data))
           (raw_materials inv) = None ->
  create_raw_material material_data uuid now u inv =
  (Ok (mkRawMaterial uuid (rc_material_name material_data)
                     (rc_quantity material_data) (rc_unit material_data)
                     (rc_unit_price material_data)
                     (rc_supplier_name material_data) (u_id u) (u_name u)
                     (rc_notes material_data) now),
   mkInventory (production inv)
     (raw_materials inv ++
      [mkRawMaterial uuid (rc_material_name material_data)
                     (rc_quantity material_data) (rc_unit material_data)
                     (rc_unit_price material_data)
                     (rc_supplier_name material_data) (u_id u) (u_name u)
                     (rc_notes material_data) now])%list).
Proof.
  intros H. unfold create_raw_material, bindI, raw_materials_find_one.
  now rewrite H.
Qed.

(** ** Inventory: productions *)

Lemma use_raw_materials_keeps materials inv :
  production (snd (use_raw_materials materials inv)) = production inv /\
  map rm_material_name (raw_materials (snd (use_raw_materials materials inv))) =
  map rm_material_name (raw_materials inv).
Proof.
  revert inv. induction materials as [|m materials IH]; intros inv; simpl.
  - now split.
  - destruct (mu_material_name m) as [n|]; [|now split].
    destruct (mu_quantity_used m) as [q|]; [|now split].
    unfold bindI, raw_materials_update_one.
    set (inv0 := mkInventory _ _).
    destruct (IH inv0) as [Hp Hn].
    destruct (use_raw_materials materials inv0) as [[[]|e] inv1];
      cbn [snd] in *; rewrite Hp, Hn; unfold inv0; cbn [production raw_materials];
      (split; [reflexivity | now apply map_update_one_same]).
Qed.

Lemma create_production_runs production_data uuid now u inv :
  create_production production_data uuid now u inv =
  let doc :=
    mkProduction uuid (production_number_at (List.length (production inv)))
                 (pc_product_name production_data)
                 (pc_quantity production_data) (pc_unit production_data)
                 (pc_raw_materials_used production_data)
                 (pc_workers production_data) "in_progress" (u_id u) (u_name u)
                 (pc_notes production_data) now None in
  match use_raw_materials (pc_raw_materials_used production_data)
          (mkInventory (production inv ++ [doc])%list (raw_materials inv)) with
  | (Ok _, inv') => (Ok doc, inv')
  | (Raise e, inv') => (Raise e, inv')
  end.
Proof.
  unfold create_production, bindI, production_count_documents,
    production_insert_one, insert_one, count_documents, production_number_at,
    retI.
  cbv zeta.
  now destruct (use_raw_materials _ _) as [[[]|e] inv'].
Qed.

Lemma complete_production_missing pid now u inv :
  find_one (production_id_is pid) (production inv) = None ->
  complete_production pid now u inv =
  (Raise (mkHTTPException 404 "Production not found"), inv).
Proof.
  intros H. unfold complete_production, bindI, production_find_one.
  now rewrite H.
Qed.

Lemma complete_production_found pid now u p inv :
  find_one (production_id_is pid) (production inv) = Some p ->
  complete_production pid now u inv =
  (Ok "Production marked as completed",
   mkInventory (update_one (production_id_is pid) (set_completed now)
                           (production inv))
               (raw_materials inv)).
Proof.
  intros H. unfold complete_production, bindI, production_find_one.
  now rewrite H.
Qed.

(** X19. Completing a production that exists marks it completed and
    stamps the time, touching no raw material; nothing guards against
    doing it again: a second completion, by any user, succeeds as
    well and replaces the completion time, the rest of the document
    staying as it was.  An unknown identifier is refused with 404 and
    changes nothing. *)
Theorem production_completion_is_repeatable pid now now' u u' p inv :
  find_one (production_id_is pid) (production inv) = Some p ->
  exists inv1 inv2,
    complete_production pid now u inv =
      (Ok "Production marked as completed", inv1) /\
    find_one (production_id_is pid) (production inv1) =
      Some (set_completed now p) /\
    raw_materials inv1 = raw_materials inv /\
    complete_production pid now' u' inv1 =
      (Ok "Production marked as completed", inv2) /\
    find_one (production_id_is pid) (production inv2) =
      Some (set_completed now' p) /\
    raw_materials inv2 = raw_materials inv /\
    (forall other,
       find_one (production_id_is other) (production inv) = None ->
       complete_production other now u inv =
       (Raise (mkHTTPException 404 "Production not found"), inv)).
Proof.
  intros Hp.
  assert (H1 : find_one (production_id_is pid)
                 (update_one (production_id_is pid) (set_completed now)
                             (production inv)) = Some (set_completed now p)).
  { rewrite find_one_update_one_same by reflexivity. now rewrite Hp. }
  set (inv1 := mkInventory (update_one (production_id_is pid) (set_completed now)
                                       (production inv))
                           (raw_materials inv)).
  exists inv1. eexists.
  split; [apply (complete_production_found _ _ _ _ _ Hp)|].
  split; [exact H1|]. split; [reflexivity|].
  split; [apply (complete_production_found pid now' u' _ inv1 H1)|].
  unfold inv1. cbn [production raw_materials]. split; [|split; [reflexivity|]].
  - rewrite find_one_update_one_same by reflexivity. now rewrite H1.
  - intros other. apply complete_production_missing.
Qed.

Lemma production_completion_is_repeatable_witness :
  exists inv1 inv2 p2,
    complete_production "B1" 20 (manager "M1" 100) inv_brick_batch =
      (Ok "Production marked as completed", inv1) /\
    complete_production "B1" 30 (manager "M2" 0) inv1 =
      (Ok "Production marked as completed", inv2) /\
    find_one (production_id_is "B1") (production inv2) = Some p2 /\
    pr_status p2 = "completed" /\
    pr_completed_at p2 = Some 30.
Proof.
  destruct (production_completion_is_repeatable "B1" 20 30 (manager "M1" 100)
              (manager "M2" 0)
              (mkProduction "B1" "PROD-000001" "bricks" 1000 "piece"
                 (pc_raw_materials_used batch_of_bricks) ["Asha"; "Ravi"]
                 "in_progress" "M1" "Manager M1" None 9 None)
              inv_brick_batch eq_refl)
    as (inv1 & inv2 & H1 & _ & _ & H2 & Hfind & _).
  exists inv1, inv2. eexists.
  split; [exact H1|]. split; [exact H2|].
  split; [exact Hfind|]. split; reflexivity.
Defined.

(** ** Inventory: executions *)

Lemma inventory_step_inv inv inv' :
  inventory_step inv inv' ->
  (production inv' = production inv \/
   (exists doc,
      production inv' = (production inv ++ [doc])%list /\
      pr_production_number doc =
        production_number_at (List.length (production inv))) \/
   (exists pid now,
      production inv' =
      update_one (production_id_is pid) (set_completed now) (production inv)))
  /\
  (map rm_material_name (raw_materials inv') =
   map rm_material_name (raw_materials inv) \/
   exists m, raw_materials inv' = (raw_materials inv ++ [m])%list /\
             ~ In (rm_material_name m)
                  (map rm_material_name (raw_materials inv))).
Proof.
  intros Hstep. destruct Hstep.
  - destruct (find_one (material_name_is (rc_material_name material_data))
                       (raw_materials inv)) as [old|] eqn:Hfind.
    + rewrite (create_raw_material_existing _ _ _ _ _ _ Hfind).
      cbn [snd production raw_materials]. split; [now left|]. left.
      now apply map_update_one_same.
    + rewrite (create_raw_material_new _ _ _ _ _ Hfind).
      cbn [snd production raw_materials]. split; [now left|]. right.
      eexists. split; [reflexivity|]. cbn [rm_material_name].
      intros Hin. apply in_map_iff in Hin. destruct Hin as (x & Hx & Hin).
      pose proof (find_one_none _ _ Hfind x Hin) as H.
      unfold material_name_is in H. apply String.eqb_neq in H. congruence.
  - rewrite create_production_runs. cbv zeta.
    set (doc := mkProduction _ _ _ _ _ _ _ _ _ _ _ _ _).
    set (inv0 := mkInventory _ _).
    destruct (use_raw_materials_keeps (pc_raw_materials_used production_data)
                inv0) as [Hp Hn].
    destruct (use_raw_materials _ inv0) as [[[]|e] inv1]; cbn [snd] in *;
      (split; [right; left; exists doc; split; [exact Hp | reflexivity]
              | left; exact Hn]).
  - destruct (find_one (production_id_is production_id) (production inv))
      as [p|] eqn:Hfind.
    + rewrite (complete_production_found _ _ _ _ _ Hfind).
      cbn [snd production raw_materials]. split; [|now left].
      right; right. eauto.
    + rewrite (complete_production_missing _ _ _ _ Hfind). cbn [snd].
      split; now left.
Qed.

Lemma production_number_at_inj : Injective production_number_at.
Proof.
  intros i j H. unfold production_number_at in H. simpl in H.
  injection H as H. apply format_06d_inj in H. lia.
Qed.

(** X20. Along any execution of the inventory routes, where no two
    raw-material documents share a name none ever will: a name that
    is stocked is topped up in place, never stored a second time - so
    the stock read for a name is the whole stock of that name. *)
Theorem material_names_stay_unique inv0 inv :
  NoDup (map rm_material_name (raw_materials inv0)) ->
  inventory_run inv0 inv ->
  NoDup (map rm_material_name (raw_materials inv)).
Proof.
  intros Hnodup Hrun. induction Hrun as [|inv0 inv inv' _ IH Hstep]; [exact Hnodup|].
  specialize (IH Hnodup).
  destruct (inventory_step_inv _ _ Hstep) as [_ [->|(m & -> & Hnew)]];
    [exact IH|].
  rewrite map_app. simpl.
  apply NoDup_app; [exact IH | repeat constructor; auto |].
  intros e He [<-|[]]. now apply Hnew.
Qed.

Lemma material_names_stay_unique_witness :
  NoDup (map rm_material_name
           (raw_materials
              (snd (create_raw_material
                      (mkRawMaterialCreate "cement" 30 "sack" 9 "Holcim" None)
                      "R3" 5 (manager "M2" 0) inv_stocked)))) /\
  stock_of (snd (create_raw_material
                   (mkRawMaterialCreate "cement" 30 "sack" 9 "Holcim" None)
                   "R3" 5 (manager "M2" 0) inv_stocked)) "cement" = 80.
Proof.
  split; [|reflexivity].
  apply (material_names_stay_unique inv_stocked).
  - simpl. repeat constructor; simpl; intuition discriminate.
  - apply irun_next with inv_stocked; [apply irun_here|].
    apply istep_create_raw_material.
Defined.

(** X21. Along any execution of the inventory routes that starts with
    no production stored, the production stored at position [i]
    carries the number made from [i + 1] - also a production whose
    request ended in an error - and no two productions carry the same
    number (requests being served one after the other). *)
Theorem production_numbers_are_sequential inv0 inv :
  production inv0 = [] ->
  inventory_run inv0 inv ->
  map pr_production_number (production inv) =
    map production_number_at (seq 0 (List.length (production inv))) /\
  NoDup (map pr_production_number (production inv)).
Proof.
  intros Hempty Hrun.
  assert (Hnum : map pr_production_number (production inv) =
                 map production_number_at
                     (seq 0 (List.length (production inv)))).
  { induction Hrun as [|inv0 inv inv' _ IH Hstep]; [now rewrite Hempty|].
    specialize (IH Hempty).
    destruct (inventory_step_inv _ _ Hstep)
      as [[->|[(doc & -> & Hdoc)|(pid & now & ->)]] _].
    - exact IH.
    - rewrite length_app, Nat.add_1_r, seq_S, !map_app, IH. simpl.
      now rewrite Hdoc.
    - rewrite update_one_length.
      now rewrite map_update_one_same by reflexivity. }
  split; [exact Hnum|].
  rewrite Hnum. apply Injective_map_NoDup; [apply production_number_at_inj|].
  apply seq_NoDup.
Qed.

Lemma production_numbers_are_sequential_witness :
  map pr_production_number
      (production
         (snd (create_production batch_of_bricks "B3" 10 (manager "M1" 100)
                 (snd (create_production batch_with_bad_entry "B2" 9
                         (manager "M1" 100) inv_stocked))))) =
  ["PROD-000001"; "PROD-000002"].
Proof.
  apply (production_numbers_are_sequential inv_stocked).
  - reflexivity.
  - apply irun_next
      with (snd (create_production batch_with_bad_entry "B2" 9
                   (manager "M1" 100) inv_stocked)).
    + apply irun_next with inv_stocked; [apply irun_here|].
      apply istep_create_production.
    + apply istep_create_production.
Defined.

(** ** Binary64: lookups under [$inc] *)

Section Binary64.
Import Float64.

Lemma user_id_is_inc_f64 x d u :
  user_id_is x (inc_cash_balance d u) = user_id_is x u.
Proof. reflexivity. Qed.

Lemma find_user_inc_f64 a b d us :
  find_one (user_id_is b) (update_one (user_id_is a) (inc_cash_balance d) us) =
  if String.eqb b a
  then option_map (inc_cash_balance d) (find_one (user_id_is b) us)
  else find_one (user_id_is b) us.
Proof.
  destruct (String.eqb_spec b a) as [->|Hne].
  - apply find_one_update_one_same. intros x. apply user_id_is_inc_f64.
  - apply find_one_update_one_other.
    + intros x. apply user_id_is_inc_f64.
    + intros x Hx. unfold user_id_is in *.
      apply String.eqb_eq in Hx. apply String.eqb_neq. congruence.
Qed.

Lemma get_current_user_found_f64 actor u db :
  user_of db actor = Some u -> get_current_user actor db = (Ok u, db).
Proof.
  intros H. unfold user_of in H.
  unfold get_current_user, bind, users_find_one, read. now rewrite H.
Qed.

Lemma found_user_id_f64 actor u db : user_of db actor = Some u -> u_id u = actor.
Proof.
  intros H. apply find_one_holds in H. now apply String.eqb_eq in H.
Qed.

(** ** Binary64: transfers *)


Lemma decide_transfer_approved_f64 tid actor now u t db :
  user_of db actor = Some u ->
  transfer_of db tid = Some t ->
  t_to_user_id t = actor ->
  t_status t = "pending" ->
  decide_transfer tid actor "approve" now db =
  (Ok (set_decision "approved" now t),
   mkDB (update_one (user_id_is (t_to_user_id t))
           (inc_cash_balance (t_amount t))
           (update_one (user_id_is (t_from_user_id t))
              (inc_cash_balance (PrimFloat.opp (t_amount t))) (users db)))
        (sales db) (credit_payments db)
        (update_one (transfer_id_is tid) (set_decision "approved" now)
                    (transfers db))).
Proof.
  intros Hu Ht Hto Hst. unfold decide_transfer, bind.
  rewrite (get_current_user_found_f64 _ _ _ Hu).
  unfold approve_transfer, bind, transfers_find_one, read.
  unfold transfer_of in Ht. rewrite Ht.
  rewrite (found_user_id_f64 _ _ _ Hu), Hto, String.eqb_refl, Hst.
  change (negb true) with false.
  change (negb ("pending" =? "pending")%string) with false.
  cbv beta iota.
  unfold transfers_update_one, users_update_one, write, ret.
  cbn [action]. change ("approve" =? "approve")%string with true.
  cbv beta iota.
  cbn [transfers set_transfers set_users users sales credit_payments].
  rewrite find_one_update_one_same by reflexivity.
  rewrite Ht. reflexivity.
Qed.




(** ** Binary64: sales and credit payments *)

Lemma record_payment_not_found_f64 sid amount collector notes uuid now u db :
  user_of db collector = Some u ->
  sale_of db sid = None ->
  record_payment sid amount collector notes uuid now db =
  (Raise (mkHTTPException 404 "Sale not found"), db).
Proof.
  intros Hu Hs. unfold record_payment, bind.
  rewrite (get_current_user_found_f64 _ _ _ Hu).
  unfold record_credit_payment, bind, sales_find_one, read. cbn [cp_sale_id].
  unfold sale_of in Hs. now rewrite Hs.
Qed.

Lemma record_payment_not_credit_f64 sid amount collector notes uuid now u s db :
  user_of db collector = Some u ->
  sale_of db sid = Some s ->
  s_payment_type s <> "credit" ->
  record_payment sid amount collector notes uuid now db =
  (Raise (mkHTTPException 400 "Sale is not a credit sale"), db).
Proof.
  intros Hu Hs Hty. unfold record_payment, bind.
  rewrite (get_current_user_found_f64 _ _ _ Hu).
  unfold record_credit_payment, bind, sales_find_one, read. cbn [cp_sale_id].
  unfold sale_of in Hs. rewrite Hs.
  apply String.eqb_neq in Hty. now rewrite Hty.
Qed.

Lemma record_payment_applied_f64 sid amount collector notes uuid now u s db :
  user_of db collector = Some u ->
  sale_of db sid = Some s ->
  s_payment_type s = "credit" ->
  record_payment sid amount collector notes uuid now db =
  (Ok (mkCreditPaymentDoc uuid sid amount collector (u_name u) notes now),
   mkDB (update_one (user_id_is collector) (inc_cash_balance amount) (users db))
        (update_one (sale_id_is sid)
           (set_payment_state
              (PrimFloat.add (s_paid_amount s) amount)
              (if PrimFloat.leb (s_total_amount s)
                                (PrimFloat.add (s_paid_amount s) amount)
               then "settled" else "partial"))
           (sales db))
        (credit_payments db ++
           [mkCreditPaymentDoc uuid sid amount collector (u_name u) notes
                               (bson_datetime now)])%list
        (transfers db)).
Proof.
  intros Hu Hs Hty. unfold record_payment, bind.
  rewrite (get_current_user_found_f64 _ _ _ Hu).
  unfold record_credit_payment, bind, sales_find_one, read. cbn [cp_sale_id].
  unfold sale_of in Hs. rewrite Hs, Hty.
  change (negb ("credit" =? "credit")%string) with false. cbv beta iota.
  rewrite (found_user_id_f64 _ _ _ Hu).
  reflexivity.
Qed.

Lemma record_sale_recorded_f64 actor sale_data uuid now u db :
  user_of db actor = Some u ->
  record_sale actor sale_data uuid now db =
  (Ok (mkSale uuid
              ("SALE-" ++ format_06d (List.length (sales db) + 1))
              (sc_customer_name sale_data) (sc_items sale_data)
              (sc_total_amount sale_data) (sc_payment_type sale_data)
              actor (u_name u)
              (if String.eqb (sc_payment_type sale_data) "cash"
               then "settled" else "pending")
              (if String.eqb (sc_payment_type sale_data) "cash"
               then sc_total_amount sale_data else 0%float)
              (sc_notes sale_data) now),
   mkDB (if String.eqb (sc_payment_type sale_data) "cash"
         then update_one (user_id_is actor)
                         (inc_cash_balance (sc_total_amount sale_data))
                         (users db)
         else users db)
        (sales db ++
           [mkSale uuid
              ("SALE-" ++ format_06d (List.length (sales db) + 1))
              (sc_customer_name sale_data) (sc_items sale_data)
              (sc_total_amount sale_data) (sc_payment_type sale_data)
              actor (u_name u)
              (if String.eqb (sc_payment_type sale_data) "cash"
               then "settled" else "pending")
              (if String.eqb (sc_payment_type sale_data) "cash"
               then sc_total_amount sale_data else 0%float)
              (sc_notes sale_data) (bson_datetime now)])%list
        (credit_payments db) (transfers db)).
Proof.
  intros Hu. unfold record_sale, bind.
  rewrite (get_current_user_found_f64 _ _ _ Hu).
  unfold create_sale, bind, sales_count_documents, read.
  rewrite (found_user_id_f64 _ _ _ Hu).
  destruct (String.eqb (sc_payment_type sale_data) "cash"); reflexivity.
Qed.

(** C6, as stated, fails.  On a credit sale of 2^53 + 2 with 2^53
    paid, M2 (who holds 2^53) collects a payment of 1: a payment record
    of amount 1 is stored, but the sale's paid amount and M2's balance
    are what they were, since 2^53 + 1 rounds back to 2^53.  A second
    payment of 1 does the same, and the sale stays partial although
    payments adding up to its total have been recorded. *)
Lemma payment_of_1_is_absorbed :
  exists p1 db1 p2 db2 s0 s2,
    record_payment "S1" 1 "M2" None "P2" 1700000000008000 db_sold
      = (Ok p1, db1) /\
    record_payment "S1" 1 "M2" None "P3" 1700000000009000 db1
      = (Ok p2, db2) /\
    p_amount p1 = 1%float /\ p_amount p2 = 1%float /\
    List.length (credit_payments db2) = 3%nat /\
    sale_of db_sold "S1" = Some s0 /\
    sale_of db2 "S1" = Some s2 /\
    s_total_amount s0 = 9007199254740994%float /\
    s_paid_amount s0 = two_53 /\
    s_paid_amount s2 = two_53 /\
    s_status s2 = "partial" /\
    balance_of db_sold "M2" = two_53 /\
    balance_of db2 "M2" = two_53 /\
    real_value (s_paid_amount s2) = Some (QArith_base.inject_Z 9007199254740992) /\
    real_value (s_total_amount s0) = Some (QArith_base.inject_Z 9007199254740994) /\
    real_value (p_amount p1) = Some (QArith_base.inject_Z 1) /\
    ~ QArith_base.Qeq
        (QArith_base.inject_Z 9007199254740992)
        (QArith_base.Qplus (QArith_base.inject_Z 9007199254740992)
                           (QArith_base.inject_Z 1)).
Proof.
  do 6 eexists. split; [vm_compute; reflexivity|].
  split; [vm_compute; reflexivity|].
  repeat (split; [vm_compute; reflexivity|]).
  unfold QArith_base.Qeq. simpl. lia.
Qed.

(** C6, amended. A payment on a sale that does not exist is refused
    with 404 "Sale not found", and one on a sale that is not a credit
    sale with 400 "Sale is not a credit sale"; a refusal changes
    nothing.  On a credit sale the payment is applied, whatever its
    amount A: exactly one payment record is appended (sale, amount and
    collector as given); the sale's paid amount becomes the binary64
    sum of the old paid amount and A, its status "settled" if the
    total is at most that sum and "partial" otherwise, its total and
    every other sale as before; the collector's document is the old
    one after [$inc] by A, so a balance b that is present becomes the
    binary64 sum of b and A; no other user and no transfer changes. *)
Theorem record_payment_applies_float_sums
  sid amount collector notes uuid now u db :
  user_of db collector = Some u ->
  (sale_of db sid = None ->
   record_payment sid amount collector notes uuid now db =
   (Raise (mkHTTPException 404 "Sale not found"), db)) /\
  (forall s, sale_of db sid = Some s -> s_payment_type s <> "credit" ->
   record_payment sid amount collector notes uuid now db =
   (Raise (mkHTTPException 400 "Sale is not a credit sale"), db)) /\
  (forall s, sale_of db sid = Some s -> s_payment_type s = "credit" ->
   exists p s' db',
     record_payment sid amount collector notes uuid now db = (Ok p, db') /\
     credit_payments db' = (credit_payments db ++ [stored_payment p])%list /\
     p_sale_id p = sid /\ p_amount p = amount /\
     p_collected_by p = collector /\
     sale_of db' sid = Some s' /\
     s_paid_amount s' = PrimFloat.add (s_paid_amount s) amount /\
     s_status s' =
       (if PrimFloat.leb (s_total_amount s)
                         (PrimFloat.add (s_paid_amount s) amount)
        then "settled" else "partial") /\
     s_total_amount s' = s_total_amount s /\
     s_payment_type s' = "credit" /\
     (forall sid', sid' <> sid -> sale_of db' sid' = sale_of db sid') /\
     List.length (sales db') = List.length (sales db) /\
     user_of db' collector = Some (inc_cash_balance amount u) /\
     (forall b, u_cash_balance u = Some b ->
                balance_of db' collector = PrimFloat.add b amount) /\
     (forall uid, uid <> collector -> user_of db' uid = user_of db uid) /\
     transfers db' = transfers db) /\
  (forall e db',
     record_payment sid amount collector notes uuid now db = (Raise e, db') ->
     db' = db).
Proof.
  intros Hu.
  split; [intros Hs; apply (record_payment_not_found_f64 _ _ _ _ _ _ _ _ Hu Hs)|].
  split; [intros s Hs Hty;
          apply (record_payment_not_credit_f64 _ _ _ _ _ _ _ _ _ Hu Hs Hty)|].
  split.
  - intros s Hs Hty.
    pose proof (record_payment_applied_f64 sid amount collector notes uuid now
                  u s db Hu Hs Hty) as Hrun.
    eexists; eexists; eexists. split; [exact Hrun|].
    split; [reflexivity|]. split; [reflexivity|]. split; [reflexivity|].
    split; [reflexivity|].
    assert (Hs' : forall paid st,
      sale_of (mkDB (update_one (user_id_is collector)
                       (inc_cash_balance amount) (users db))
                    (update_one (sale_id_is sid) (set_payment_state paid st)
                                (sales db))
                    (credit_payments db ++
                       [mkCreditPaymentDoc uuid sid amount collector (u_name u)
                          notes (bson_datetime now)])%list
                    (transfers db)) sid
      = Some (set_payment_state paid st s)).
    { intros paid st. unfold sale_of. cbn [sales].
      rewrite find_one_update_one_same by reflexivity.
      unfold sale_of in Hs. now rewrite Hs. }
    split; [apply Hs'|].
    split; [reflexivity|]. split; [reflexivity|]. split; [reflexivity|].
    split; [exact Hty|].
    split.
    { intros sid' Hne. unfold sale_of. cbn [sales].
      apply find_one_update_one_other; [reflexivity|].
      intros x Hx. unfold sale_id_is in *.
      apply String.eqb_eq in Hx. apply String.eqb_neq. congruence. }
    split; [cbn [sales]; apply update_one_length|].
    assert (Hc : user_of (mkDB (update_one (user_id_is collector)
                       (inc_cash_balance amount) (users db))
                    (update_one (sale_id_is sid)
                       (set_payment_state
                          (PrimFloat.add (s_paid_amount s) amount)
                          (if PrimFloat.leb (s_total_amount s)
                                (PrimFloat.add (s_paid_amount s) amount)
                           then "settled" else "partial"))
                       (sales db))
                    (credit_payments db ++
                       [mkCreditPaymentDoc uuid sid amount collector (u_name u)
                          notes (bson_datetime now)])%list
                    (transfers db)) collector
                 = Some (inc_cash_balance amount u)).
    { unfold user_of. cbn [users]. rewrite find_user_inc_f64, String.eqb_refl.
      unfold user_of in Hu. now rewrite Hu. }
    split; [exact Hc|].
    split.
    { intros b Hb. unfold balance_of. rewrite Hc.
      unfold get_cash_balance, inc_cash_balance. cbn [u_cash_balance].
      now rewrite Hb. }
    split; [|reflexivity].
    intros uid Hne. unfold user_of. cbn [users]. rewrite find_user_inc_f64.
    apply String.eqb_neq in Hne. now rewrite Hne.
  - intros e db' Hrun.
    destruct (sale_of db sid) as [s|] eqn:Hs.
    + destruct (String.eqb_spec (s_payment_type s) "credit") as [Hty|Hty].
      * rewrite (record_payment_applied_f64 _ _ _ _ _ _ _ _ _ Hu Hs Hty) in Hrun.
        discriminate.
      * rewrite (record_payment_not_credit_f64 _ _ _ _ _ _ _ _ _ Hu Hs Hty)
          in Hrun. congruence.
    + rewrite (record_payment_not_found_f64 _ _ _ _ _ _ _ _ Hu Hs) in Hrun.
      congruence.
Qed.

Lemma record_payment_applies_float_sums_witness :
  exists p s' db',
    record_payment "S1" 80 "M2" None "P1" 1700000000123456 db_credit_200
      = (Ok p, db') /\
    p_created_at p = 1700000000123456 /\
    credit_payments db' = [stored_payment p] /\
    p_created_at (stored_payment p) = 1700000000123000 /\
    sale_of db' "S1" = Some s' /\
    s_paid_amount s' = 80%float /\
    s_status s' = "partial" /\
    balance_of db' "M2" = 80%float /\
    balance_of db' "M1" = 100%float.
Proof.
  destruct (record_payment_applies_float_sums "S1" 80 "M2" None "P1"
              1700000000123456 (manager "M2" 0) db_credit_200 eq_refl)
    as (_ & _ & Hok & _).
  destruct (Hok (mkSale "S1" "SALE-000001" "Acme"
                   [mkSaleItem "bricks" 20 10 200] 200 "credit" "M1"
                   "Manager M1" "pending" 0 None 1700000000000000)
                eq_refl eq_refl)
    as (p & s' & db' & Hrun & Hlog & _ & _ & _ & Hs' & Hpaid & Hst & _ & _ & _
        & _ & _ & Hbal & Hoth & _).
  exists p, s', db'. split; [exact Hrun|].
  assert (Hp : p = mkCreditPaymentDoc "P1" "S1" 80 "M2" "Manager M2" None
                                      1700000000123456).
  { vm_compute in Hrun. congruence. }
  split; [now rewrite Hp|]. split; [exact Hlog|].
  split; [now rewrite Hp|]. split; [exact Hs'|].
  split; [exact Hpaid|]. split; [exact Hst|].
  split; [exact (Hbal 0%float eq_refl)|].
  unfold balance_of. rewrite (Hoth "M1" ltac:(discriminate)). reflexivity.
Defined.

(** C7, as stated, fails.  M2 holds 2^53 and records a cash sale of 1:
    the sale is stored and settled, and M2's balance is what it was,
    since 2^53 + 1 rounds back to 2^53; it has not grown by the
    total. *)
Lemma cash_sale_of_1_is_absorbed :
  exists s db',
    record_sale "M2" cash_sale_1 "S1" 1700000000123456 db_tills
      = (Ok s, db') /\
    s_payment_type s = "cash" /\
    s_status s = "settled" /\
    s_total_amount s = 1%float /\
    balance_of db_tills "M2" = two_53 /\
    balance_of db' "M2" = two_53 /\
    real_value (balance_of db' "M2")
      = Some (QArith_base.inject_Z 9007199254740992) /\
    real_value (s_total_amount s) = Some (QArith_base.inject_Z 1) /\
    ~ QArith_base.Qeq
        (QArith_base.inject_Z 9007199254740992)
        (QArith_base.Qplus (QArith_base.inject_Z 9007199254740992)
                           (QArith_base.inject_Z 1)).
Proof.
  do 2 eexists. split; [vm_compute; reflexivity|].
  repeat (split; [vm_compute; reflexivity|]).
  unfold QArith_base.Qeq. simpl. lia.
Qed.

(** C7, amended. Recording a sale as an existing user succeeds: the
    sale is returned with the total, payment type and collector as
    given, and appended to the sales (its creation time as the
    database keeps it).  A cash sale is stored settled with its paid
    amount equal to its total, and the recording manager's document
    is the old one after [$inc] by the total, so a balance b that is
    present becomes the binary64 sum of b and the total; no other
    user changes.  A credit sale is stored pending with paid amount 0
    and changes no user.  Credit payments and transfers are as
    before. *)
Theorem record_sale_applies_float_sum actor sale_data uuid now u db :
  user_of db actor = Some u ->
  exists s db',
    record_sale actor sale_data uuid now db = (Ok s, db') /\
    sales db' = (sales db ++ [stored_sale s])%list /\
    s_id s = uuid /\
    s_total_amount s = sc_total_amount sale_data /\
    s_payment_type s = sc_payment_type sale_data /\
    s_collected_by s = actor /\
    s_created_at s = now /\
    (sc_payment_type sale_data = "cash" ->
       s_status s = "settled" /\
       s_paid_amount s = s_total_amount s /\
       user_of db' actor =
         Some (inc_cash_balance (sc_total_amount sale_data) u) /\
       (forall b, u_cash_balance u = Some b ->
          balance_of db' actor =
          PrimFloat.add b (sc_total_amount sale_data)) /\
       (forall uid, uid <> actor -> user_of db' uid = user_of db uid)) /\
    (sc_payment_type sale_data = "credit" ->
       s_status s = "pending" /\
       s_paid_amount s = 0%float /\
       users db' = users db) /\
    credit_payments db' = credit_payments db /\
    transfers db' = transfers db.
Proof.
  intros Hu.
  pose proof (record_sale_recorded_f64 actor sale_data uuid now u db Hu)
    as Hrun.
  eexists; eexists. split; [exact Hrun|].
  split; [reflexivity|]. split; [reflexivity|]. split; [reflexivity|].
  split; [reflexivity|]. split; [reflexivity|]. split; [reflexivity|].
  split; [|split; [|split; reflexivity]].
  - intros Hty. cbn [s_status s_paid_amount s_total_amount users].
    rewrite Hty. change ("cash" =? "cash")%string with true. cbv iota.
    split; [reflexivity|]. split; [reflexivity|].
    assert (Hc : user_of
              (mkDB (update_one (user_id_is actor)
                       (inc_cash_balance (sc_total_amount sale_data))
                       (users db))
                    (sales db ++
                       [mkSale uuid
                          ("SALE-" ++ format_06d (List.length (sales db) + 1))
                          (sc_customer_name sale_data) (sc_items sale_data)
                          (sc_total_amount sale_data) "cash" actor (u_name u)
                          "settled" (sc_total_amount sale_data)
                          (sc_notes sale_data) (bson_datetime now)])%list
                    (credit_payments db) (transfers db)) actor
              = Some (inc_cash_balance (sc_total_amount sale_data) u)).
    { unfold user_of. cbn [users]. rewrite find_user_inc_f64, String.eqb_refl.
      unfold user_of in Hu. now rewrite Hu. }
    split; [exact Hc|]. split.
    + intros b Hb. unfold balance_of. rewrite Hc.
      unfold get_cash_balance, inc_cash_balance. cbn [u_cash_balance].
      now rewrite Hb.
    + intros uid Hne. unfold user_of. cbn [users]. rewrite find_user_inc_f64.
      apply String.eqb_neq in Hne. now rewrite Hne.
  - intros Hty. cbn [s_status s_paid_amount users]. rewrite Hty.
    change ("credit" =? "cash")%string with false. cbv iota.
    repeat split.
Qed.

Lemma record_sale_applies_float_sum_witness :
  balance_of db_tills "M1" = 0%float /\
  exists s db',
    record_sale "M1" cash_sale_100 "S1" 1700000000123456 db_tills
      = (Ok s, db') /\
    sales db' = [stored_sale s] /\
    s_created_at (stored_sale s) = 1700000000123000 /\
    s_status s = "settled" /\
    s_paid_amount s = 100%float /\
    balance_of db' "M1" = 100%float /\
    balance_of db' "M2" = two_53.
Proof.
  split; [reflexivity|].
  destruct (record_sale_applies_float_sum "M1" cash_sale_100 "S1"
              1700000000123456 (manager "M1" 0) db_tills eq_refl)
    as (s & db' & Hrun & Hsales & _ & Htot & _ & _ & Hat & Hcash & _).
  destruct (Hcash eq_refl) as (Hst & Hpaid & _ & Hbal & Hoth).
  exists s, db'. split; [exact Hrun|]. split; [exact Hsales|].
  split; [unfold stored_sale; cbn [s_created_at]; now rewrite Hat|].
  split; [exact Hst|].
  split; [now rewrite Hpaid, Htot|].
  split; [exact (Hbal 0%float eq_refl)|].
  unfold balance_of. rewrite (Hoth "M2" ltac:(discriminate)). reflexivity.
Defined.

(** ** Binary64: requests composed *)

Lemma request_transfer_created_f64 sender recipient amount reason uuid now u r
  db :
  user_of db sender = Some u ->
  PrimFloat.ltb (get_cash_balance u) amount = false ->
  user_of db recipient = Some r ->
  request_transfer sender recipient amount reason uuid now db =
  (Ok (mkTransfer uuid sender (u_name u) recipient (u_name r) amount reason
                  "pending" now None),
   mkDB (users db) (sales db) (credit_payments db)
        (transfers db ++
           [mkTransfer uuid sender (u_name u) recipient (u_name r) amount
                       reason "pending" (bson_datetime now) None])%list).
Proof.
  intros Hu Hle Hr. unfold request_transfer, bind.
  rewrite (get_current_user_found_f64 _ _ _ Hu).
  unfold create_transfer_request, bind, users_find_one, read.
  cbn [tr_amount tr_to_user_id tr_reason]. rewrite Hle.
  unfold user_of in Hr. rewrite Hr.
  rewrite (found_user_id_f64 _ _ _ Hu). reflexivity.
Qed.

Lemma decide_transfer_forbidden_f64 tid actor act now u t db :
  user_of db actor = Some u ->
  transfer_of db tid = Some t ->
  t_to_user_id t <> actor ->
  decide_transfer tid actor act now db =
  (Raise (mkHTTPException 403 "Only recipient can approve/reject"), db).
Proof.
  intros Hu Ht Hto. unfold decide_transfer, bind.
  rewrite (get_current_user_found_f64 _ _ _ Hu).
  unfold approve_transfer, bind, transfers_find_one, read.
  unfold transfer_of in Ht. rewrite Ht.
  rewrite (found_user_id_f64 _ _ _ Hu).
  apply String.eqb_neq in Hto. now rewrite Hto.
Qed.

(** X9. A request that is accepted under a fresh identifier can be
    approved by its recipient right away: the request changes no user
    document, the approval succeeds, and the transfer is stored
    approved with the sender, the recipient and the amount of the
    request and with both of its times as the database keeps them.
    The users are then those from before the request after the two
    [$inc] of the approval; the documents of all users other than the
    two parties, the sales and the payments are as they were.  The
    sender, when somebody else than the recipient, is refused with
    403. *)
Theorem requested_transfer_can_be_approved sender recipient amount reason uuid
  now now' u r db :
  user_of db sender = Some u ->
  user_of db recipient = Some r ->
  PrimFloat.ltb (get_cash_balance u) amount = false ->
  transfer_of db uuid = None ->
  exists t db1 t' db2,
    request_transfer sender recipient amount reason uuid now db = (Ok t, db1) /\
    users db1 = users db /\
    decide_transfer uuid recipient "approve" now' db1 = (Ok t', db2) /\
    transfer_of db2 uuid = Some t' /\
    t_status t' = "approved" /\
    t_from_user_id t' = sender /\
    t_to_user_id t' = recipient /\
    t_amount t' = amount /\
    t_created_at t' = bson_datetime now /\
    t_approved_at t' = Some (bson_datetime now') /\
    users db2 =
      update_one (user_id_is recipient) (inc_cash_balance amount)
        (update_one (user_id_is sender)
           (inc_cash_balance (PrimFloat.opp amount)) (users db)) /\
    (forall uid, uid <> sender -> uid <> recipient ->
       user_of db2 uid = user_of db uid) /\
    sales db2 = sales db /\
    credit_payments db2 = credit_payments db /\
    (sender <> recipient ->
     decide_transfer uuid sender "approve" now' db1 =
     (Raise (mkHTTPException 403 "Only recipient can approve/reject"), db1)).
Proof.
  intros Hu Hr Hle Hfresh.
  pose (t := mkTransfer uuid sender (u_name u) recipient (u_name r) amount reason
                        "pending" (bson_datetime now) None).
  pose (db1 := mkDB (users db) (sales db) (credit_payments db)
                    (transfers db ++ [t])%list).
  assert (Ht : transfer_of db1 uuid = Some t).
  { unfold transfer_of, db1. cbn [transfers].
    change (transfers db ++ [t])%list with (insert_one t (transfers db)).
    rewrite find_one_insert_one. unfold transfer_of in Hfresh. rewrite Hfresh.
    unfold transfer_id_is, t. cbn [t_id]. now rewrite String.eqb_refl. }
  eexists; exists db1; eexists; eexists.
  split; [apply (request_transfer_created_f64 _ _ _ _ _ _ _ _ _ Hu Hle Hr)|].
  split; [reflexivity|].
  split.
  { apply (decide_transfer_approved_f64 uuid recipient now' r t db1);
      [exact Hr | exact Ht | reflexivity | reflexivity]. }
  split.
  { unfold transfer_of. cbn [transfers].
    rewrite find_one_update_one_same by reflexivity.
    unfold transfer_of in Ht. now rewrite Ht. }
  repeat (split; [reflexivity|]). split.
  - intros uid Hs Hrc. unfold user_of. cbn [users].
    unfold t. cbn [t_to_user_id t_from_user_id t_amount].
    rewrite !find_user_inc_f64.
    apply String.eqb_neq in Hs, Hrc. now rewrite Hs, Hrc.
  - split; [reflexivity|]. split; [reflexivity|].
    intros Hne.
    apply (decide_transfer_forbidden_f64 uuid sender "approve" now' u t db1);
      [exact Hu | exact Ht | ].
    unfold t. cbn [t_to_user_id]. congruence.
Qed.

Lemma requested_transfer_can_be_approved_witness :
  exists t db1 t' db2,
    request_transfer "M1" "M2" 60 "till float" "T1" 1700000000123456
                     db_managers = (Ok t, db1) /\
    decide_transfer "T1" "M2" "approve" 1700000000987654 db1 = (Ok t', db2) /\
    t_status t' = "approved" /\
    t_created_at t' = 1700000000123000 /\
    t_approved_at t' = Some 1700000000987000 /\
    users db2 = [manager "M1" 40; manager "M2" 60; manager "M3" 40].
Proof.
  destruct (requested_transfer_can_be_approved "M1" "M2" 60 "till float" "T1"
              1700000000123456 1700000000987654
              (manager "M1" 100) (manager "M2" 0) db_managers
              eq_refl eq_refl eq_refl eq_refl)
    as (t & db1 & t' & db2 & Hreq & _ & Hdec & _ & Hst & _ & _ & _ & Hat & Hap
        & Husers & _).
  exists t, db1, t', db2. split; [exact Hreq|]. split; [exact Hdec|].
  split; [exact Hst|]. split; [exact Hat|]. split; [exact Hap|].
  exact Husers.
Defined.

Lemma read_sale_found_f64 reader sid ru s db :
  user_of db reader = Some ru ->
  sale_of db sid = Some s ->
  read_sale reader sid db = (Ok s, db).
Proof.
  intros Hu Hs. unfold read_sale, bind.
  rewrite (get_current_user_found_f64 _ _ _ Hu).
  unfold get_sale, bind, sales_find_one, read.
  unfold sale_of in Hs. now rewrite Hs.
Qed.

Lemma read_sale_missing_f64 reader sid ru db :
  user_of db reader = Some ru ->
  sale_of db sid = None ->
  read_sale reader sid db = (Raise (mkHTTPException 404 "Sale not found"), db).
Proof.
  intros Hu Hs. unfold read_sale, bind.
  rewrite (get_current_user_found_f64 _ _ _ Hu).
  unfold get_sale, bind, sales_find_one, read.
  unfold sale_of in Hs. now rewrite Hs.
Qed.

(** X10. A sale recorded under a fresh identifier reads back, by that
    identifier, as the record that was returned when it was recorded,
    but for its creation time, which comes back cut down to the
    millisecond - and so for any user that resolves, not only the one
    who recorded it.  Before it is recorded the identifier is answered
    with 404. *)
Theorem recorded_sale_reads_back actor reader sale_data uuid now u ru db :
  user_of db actor = Some u ->
  user_of db reader = Some ru ->
  sale_of db uuid = None ->
  read_sale reader uuid db =
    (Raise (mkHTTPException 404 "Sale not found"), db) /\
  exists s db',
    record_sale actor sale_data uuid now db = (Ok s, db') /\
    s_created_at s = now /\
    read_sale reader uuid db' = (Ok (stored_sale s), db') /\
    s_created_at (stored_sale s) = bson_datetime now.
Proof.
  intros Hu Hru Hfresh.
  split; [now apply read_sale_missing_f64 with ru|].
  eexists; eexists.
  split; [apply (record_sale_recorded_f64 _ _ _ _ _ _ Hu)|].
  split; [reflexivity|]. split; [|reflexivity].
  set (db' := mkDB _ _ _ _).
  assert (Hex : exists ru', user_of db' reader = Some ru').
  { unfold user_of, db'. cbn [users]. unfold user_of in Hru.
    destruct (String.eqb (sc_payment_type sale_data) "cash").
    - rewrite find_user_inc_f64, Hru.
      destruct (String.eqb reader actor); simpl; eauto.
    - rewrite Hru. eauto. }
  destruct Hex as [ru' Hru'].
  apply read_sale_found_f64 with ru'; [exact Hru'|].
  unfold sale_of, db'. cbn [sales].
  match goal with
  | |- find_one _ (?c ++ [?d])%list = _ => change (c ++ [d])%list with (insert_one d c)
  end.
  rewrite find_one_insert_one. unfold sale_of in Hfresh. rewrite Hfresh.
  unfold sale_id_is. cbn [s_id stored_sale]. now rewrite String.eqb_refl.
Qed.

Lemma recorded_sale_reads_back_witness :
  exists s db' s',
    record_sale "M1" cash_sale_100 "S1" 1700000000123456 db_tills
      = (Ok s, db') /\
    read_sale "M2" "S1" db' = (Ok s', db') /\
    s_created_at s = 1700000000123456 /\
    s_created_at s' = 1700000000123000 /\
    s_total_amount s' = 100%float /\
    s_status s' = "settled".
Proof.
  destruct (recorded_sale_reads_back "M1" "M2" cash_sale_100 "S1"
              1700000000123456 (manager "M1" 0) (manager "M2" two_53) db_tills
              eq_refl eq_refl eq_refl)
    as (_ & s & db' & Hrun & Hat & Hread & Hat').
  exists s, db', (stored_sale s). split; [exact Hrun|]. split; [exact Hread|].
  split; [exact Hat|]. split; [exact Hat'|].
  vm_compute in Hrun. injection Hrun as <- _. split; reflexivity.
Defined.

(** ** Binary64: raw materials and production *)

Lemma material_core_inc_f64 d m :
  material_core (inc_quantity d m) = material_core m.
Proof. reflexivity. Qed.

(** X16. Adding a raw material always succeeds, and touches neither
    the productions nor the document found for any other name.  For
    a name already stocked no document is added: the stored one is
    answered, with its own identifier, unit, unit price, supplier and
    author - those of the request are dropped - and with the request's
    quantity added to its own, as doubles; nothing but that quantity
    is rewritten.  For a new name one document is appended, which is
    the answer with its creation time as the database keeps it. *)
Theorem raw_material_is_topped_up_in_place material_data uuid now u inv :
  exists m inv',
    create_raw_material material_data uuid now u inv = (Ok m, inv') /\
    production inv' = production inv /\
    (forall other, other <> rc_material_name material_data ->
       material_of inv' other = material_of inv other) /\
    (forall old,
       material_of inv (rc_material_name material_data) = Some old ->
       m = inc_quantity (rc_quantity material_data) old /\
       rm_quantity m =
         PrimFloat.add (rm_quantity old) (rc_quantity material_data) /\
       material_core m = material_core old /\
       material_of inv' (rc_material_name material_data) = Some m /\
       List.length (raw_materials inv') = List.length (raw_materials inv) /\
       map material_core (raw_materials inv') =
       map material_core (raw_materials inv)) /\
    (material_of inv (rc_material_name material_data) = None ->
       m = mkRawMaterial uuid (rc_material_name material_data)
             (rc_quantity material_data) (rc_unit material_data)
             (rc_unit_price material_data) (rc_supplier_name material_data)
             (u_id u) (u_name u) (rc_notes material_data) now /\
       raw_materials inv' = (raw_materials inv ++ [stored_material m])%list /\
       material_of inv' (rc_material_name material_data) =
         Some (stored_material m)).
Proof.
  unfold create_raw_material, material_of.
  destruct (find_one (material_name_is (rc_material_name material_data))
                     (raw_materials inv)) as [old|] eqn:Hfind.
  - rewrite find_one_update_one_same by reflexivity. rewrite Hfind.
    cbn [option_map].
    eexists; eexists. split; [reflexivity|]. split; [reflexivity|].
    split.
    { intros other Hne. cbn [raw_materials].
      apply find_one_update_one_other; [reflexivity|].
      intros x Hx. unfold material_name_is in *.
      apply String.eqb_eq in Hx. apply String.eqb_neq. congruence. }
    split; [|discriminate].
    intros old' [= <-]. cbn [raw_materials].
    split; [reflexivity|]. split; [reflexivity|]. split; [reflexivity|].
    split.
    { rewrite find_one_update_one_same by reflexivity. now rewrite Hfind. }
    split; [apply update_one_length|].
    apply map_update_one_same. intros x. apply material_core_inc_f64.
  - eexists; eexists. split; [reflexivity|]. split; [reflexivity|].
    split.
    { intros other Hne. cbn [raw_materials]. rewrite find_one_insert_one.
      destruct (find_one (material_name_is other) (raw_materials inv));
        [reflexivity|].
      unfold material_name_is, stored_material. cbn [rm_material_name].
      apply not_eq_sym, String.eqb_neq in Hne. now rewrite Hne. }
    split; [discriminate|].
    intros _. split; [reflexivity|]. split; [reflexivity|].
    cbn [raw_materials]. rewrite find_one_insert_one, Hfind.
    unfold material_name_is, stored_material. cbn [rm_material_name].
    now rewrite String.eqb_refl.
Qed.











End Binary64.

End Server.
